(** * ChatForge: the request lifecycle of the Ollama chat client

    A shallow embedding of [ChatForge.py]: the model-name formatter, the
    request worker [OllamaThread], the slash-command handler, the tree and
    the Apply button of the model dialog, and the state-changing methods of
    the main window [OllamaChatGUI], followed by the properties proved
    about them.

    Text.  A Python [str] is modelled by [string], the sequence of the
    bytes of its UTF-8 encoding.  White space is that of [str.split()] and
    [str.strip()] for every character, the white space outside ASCII
    (U+0085, U+00A0, U+1680, U+2000 .. U+200A, U+2028, U+2029, U+202F,
    U+205F, U+3000) included.  The classes [\d] and [\w] of the [re] module
    and the upper- and lower-case mappings are modelled on the ASCII range:
    there a character above 127 is carried through unchanged and belongs
    to neither class.

    Presentation.  Of the Qt widgets only what the methods read back is
    kept: the list of widgets in the chat layout, the text of the input box
    and of the header, the bubble the streaming pointer refers to.  The
    program deletes a widget wherever it takes one out of the layout, so a
    bubble that is not in the layout stands for a deleted object.  Styling,
    animation, scrolling, the send button and console output are left out. *)

From Stdlib Require Import String Ascii List Bool Arith PeanoNat Lia.
From Stdlib Require Import DecimalString.
From Stdlib Require Import Sorted Permutation.
Import ListNotations.

Local Open Scope nat_scope.
Local Open Scope list_scope.
Local Open Scope string_scope.

Set Implicit Arguments.

(* ===================================================================== *)
(** * Python strings *)
(* ===================================================================== *)

Module PyStr.

Definition in_range (lo hi : nat) (c : ascii) : bool :=
  let n := nat_of_ascii c in ((lo <=? n) && (n <=? hi))%nat.

Definition byte_is (n : nat) (c : ascii) : bool := (nat_of_ascii c =? n)%nat.

(** The white space of [str.split()], [str.strip()] and [str.isspace()]:
    the characters U+0009 .. U+000D, U+001C .. U+0020, U+0085, U+00A0,
    U+1680, U+2000 .. U+200A, U+2028, U+2029, U+202F, U+205F and U+3000.
    The first group is one byte long. *)
Definition ascii_space (c : ascii) : bool := in_range 9 13 c || in_range 28 32 c.

(** U+0085 and U+00A0 are [C2 85] and [C2 A0]. *)
Definition space2 (c1 c2 : ascii) : bool :=
  byte_is 194 c1 && (byte_is 133 c2 || byte_is 160 c2).

(** U+1680 is [E1 9A 80]; U+2000 .. U+200A, U+2028, U+2029 and U+202F are
    [E2 80 80] .. [E2 80 8A], [E2 80 A8], [E2 80 A9] and [E2 80 AF]; U+205F
    is [E2 81 9F]; U+3000 is [E3 80 80]. *)
Definition space3 (c1 c2 c3 : ascii) : bool :=
  (byte_is 225 c1 && byte_is 154 c2 && byte_is 128 c3)
  || (byte_is 226 c1 && byte_is 128 c2
      && (in_range 128 138 c3 || in_range 168 169 c3 || byte_is 175 c3))
  || (byte_is 226 c1 && byte_is 129 c2 && byte_is 159 c3)
  || (byte_is 227 c1 && byte_is 128 c2 && byte_is 128 c3).

(** The number of bytes of the white-space character [s] starts with, [0]
    when [s] does not start with one. *)
Definition space_len (s : string) : nat :=
  match s with
  | EmptyString => 0
  | String c1 s1 =>
      if ascii_space c1 then 1
      else
        match s1 with
        | EmptyString => 0
        | String c2 s2 =>
            if space2 c1 c2 then 2
            else
              match s2 with
              | EmptyString => 0
              | String c3 _ => if space3 c1 c2 c3 then 3 else 0
              end
        end
  end.

(** The digits and the letters of the ASCII range. *)
Definition isdigit (c : ascii) : bool := in_range 48 57 c.
Definition isupper (c : ascii) : bool := in_range 65 90 c.
Definition islower (c : ascii) : bool := in_range 97 122 c.

(** The class [\w] of the [re] module, on the ASCII range. *)
Definition isword (c : ascii) : bool :=
  isdigit c || isupper c || islower c || Ascii.eqb c "_".

Definition lower_char (c : ascii) : ascii :=
  if isupper c then ascii_of_nat (nat_of_ascii c + 32) else c.

Definition upper_char (c : ascii) : ascii :=
  if islower c then ascii_of_nat (nat_of_ascii c - 32) else c.

Fixpoint map_chars (f : ascii -> ascii) (s : string) : string :=
  match s with
  | EmptyString => EmptyString
  | String c s' => String (f c) (map_chars f s')
  end.

Definition lower : string -> string := map_chars lower_char.
Definition upper : string -> string := map_chars upper_char.

(** Truth value of a string: [if s:]. *)
Definition truthy (s : string) : bool :=
  match s with EmptyString => false | String _ _ => true end.

(** [s[n:]] and [s[:n]], counted in bytes. *)
Fixpoint drop (n : nat) (s : string) : string :=
  match n, s with
  | S n', String _ s' => drop n' s'
  | _, _ => s
  end.

Fixpoint take (n : nat) (s : string) : string :=
  match n, s with
  | S n', String c s' => String c (take n' s')
  | _, _ => EmptyString
  end.

(** [s.lstrip()].  [skip] counts the bytes that are left of the white-space
    character being passed over. *)
Fixpoint lstrip_from (skip : nat) (s : string) : string :=
  match s with
  | EmptyString => EmptyString
  | String _ s' =>
      match skip with
      | S n => lstrip_from n s'
      | O =>
          match space_len s with
          | O => s
          | S n => lstrip_from n s'
          end
      end
  end.

Definition lstrip (s : string) : string := lstrip_from 0 s.

(** [s.rstrip()]: the text up to the white space it ends with. *)
Fixpoint rstrip_from (skip : nat) (s : string) : string :=
  match s with
  | EmptyString => EmptyString
  | String c s' =>
      match skip with
      | S n => String c (rstrip_from n s')
      | O =>
          match space_len s with
          | O => String c (rstrip_from 0 s')
          | S n => if truthy (lstrip s) then String c (rstrip_from n s')
                   else EmptyString
          end
      end
  end.

Definition rstrip (s : string) : string := rstrip_from 0 s.

(** [s.strip()] *)
Definition strip (s : string) : string := rstrip (lstrip s).

(** A finished word is kept when it is not empty. *)
Definition emit (word : string) (rest : list string) : list string :=
  if truthy word then word :: rest else rest.

(** [s.split()]: the maximal runs of characters that are not white space.
    [word] is the run read so far, [skip] as in [lstrip_from]. *)
Fixpoint split_from (word : string) (skip : nat) (s : string) : list string :=
  match s with
  | EmptyString => emit word []
  | String c s' =>
      match skip with
      | S n => split_from word n s'
      | O =>
          match space_len s with
          | O => split_from (word ++ String c EmptyString) 0 s'
          | S n => emit word (split_from EmptyString n s')
          end
      end
  end.

Definition split (s : string) : list string := split_from EmptyString 0 s.

(** [s.startswith(p)] *)
Fixpoint startswith (p s : string) : bool :=
  match p with
  | EmptyString => true
  | String a p' =>
      match s with
      | EmptyString => false
      | String b s' => Ascii.eqb a b && startswith p' s'
      end
  end.

(** [c in s] for a single character. *)
Fixpoint contains_char (c : ascii) (s : string) : bool :=
  match s with
  | EmptyString => false
  | String d s' => Ascii.eqb c d || contains_char c s'
  end.

(** [s.split(sep)] for a one-character separator: never empty. *)
Fixpoint split_on (sep : ascii) (s : string) : list string :=
  match s with
  | EmptyString => [EmptyString]
  | String c s' =>
      match split_on sep s' with
      | w :: ws => if Ascii.eqb c sep then EmptyString :: w :: ws
                   else String c w :: ws
      | [] => [s]
      end
  end.

(** [s.split(sep, 1)] when [sep in s]: the text before the first separator
    and the text after it; [None] when the separator does not occur. *)
Fixpoint partition (sep : ascii) (s : string) : option (string * string) :=
  match s with
  | EmptyString => None
  | String c s' =>
      if Ascii.eqb c sep then Some (EmptyString, s')
      else match partition sep s' with
           | Some (a, b) => Some (String c a, b)
           | None => None
           end
  end.

Fixpoint last_char (s : string) : option ascii :=
  match s with
  | EmptyString => None
  | String c EmptyString => Some c
  | String _ s' => last_char s'
  end.

(** [s.endswith(c)] for a single character. *)
Definition endswith_char (c : ascii) (s : string) : bool :=
  match last_char s with Some d => Ascii.eqb c d | None => false end.

(** [s[:-1]] *)
Fixpoint drop_last (s : string) : string :=
  match s with
  | EmptyString => EmptyString
  | String _ EmptyString => EmptyString
  | String c s' => String c (drop_last s')
  end.

(** [sub in s] for strings. *)
Fixpoint contains (sub s : string) : bool :=
  startswith sub s ||
  match s with
  | EmptyString => false
  | String _ s' => contains sub s'
  end.

(** [s.replace(old, new)] for a non-empty [old], scanning left to right;
    [skip] counts the characters of the occurrence just replaced that are
    still to be passed over. *)
Fixpoint replace_from (old new : string) (skip : nat) (s : string) : string :=
  match s with
  | EmptyString => EmptyString
  | String c s' =>
      match skip with
      | S n => replace_from old new n s'
      | O => if startswith old s
             then new ++ replace_from old new (String.length old - 1) s'
             else String c (replace_from old new 0 s')
      end
  end.

(** With an empty [old], Python puts [new] before every character and at
    the end. *)
Fixpoint intersperse (new s : string) : string :=
  match s with
  | EmptyString => new
  | String c s' => new ++ String c (intersperse new s')
  end.

Definition replace (old new s : string) : string :=
  if truthy old then replace_from old new 0 s else intersperse new s.

(** [sep.join(words)] *)
Definition join (sep : string) (words : list string) : string :=
  String.concat sep words.

(** [x in l] for a list of strings. *)
Definition mem (x : string) (l : list string) : bool :=
  existsb (String.eqb x) l.

(** [f"{n}"] for a non-negative integer. *)
Definition str_of_nat (n : nat) : string :=
  NilEmpty.string_of_uint (Nat.to_uint n).

End PyStr.

(* ===================================================================== *)
(** * The regular expressions of the [re] module that the program uses *)
(* ===================================================================== *)

Module Re.

(** The fragment of the pattern language that occurs in the source:
    literals, character classes, sequence, [?], [+] and [\b].  [?] and [+]
    are greedy. *)
Inductive regex : Type :=
| Eps : regex
| Lit : ascii -> regex
| Cls : (ascii -> bool) -> regex
| Seq : regex -> regex -> regex
| Opt : regex -> regex
| Plus : regex -> regex
| WordB : regex.

Definition isword_opt (c : option ascii) : bool :=
  match c with Some c => PyStr.isword c | None => false end.

Definition head (s : string) : option ascii :=
  match s with EmptyString => None | String c _ => Some c end.

(** A literal matches its character, or under [re.IGNORECASE] any character
    with the same lower-case form. *)
Definition lit_matches (icase : bool) (c d : ascii) : bool :=
  if icase then Ascii.eqb (PyStr.lower_char c) (PyStr.lower_char d)
  else Ascii.eqb c d.

(** One or more repetitions of a pattern whose matcher is [step], as many
    as possible first.  A repetition that consumes nothing ends the loop;
    [fuel] bounds the number of repetitions by the length of the text. *)
Fixpoint iterate
    (step : option ascii -> string ->
            (option ascii -> string -> option string) -> option string)
    (k : option ascii -> string -> option string)
    (fuel : nat) (prev : option ascii) (s : string) : option string :=
  match fuel with
  | O => None
  | S fuel' =>
      step prev s
        (fun prev' s' =>
           match
             (if (String.length s' <? String.length s)%nat
              then iterate step k fuel' prev' s' else None)
           with
           | Some rest => Some rest
           | None => k prev' s'
           end)
  end.

(** Backtracking matcher in continuation-passing style.  [prev] is the
    character before the current position, [s] the text from the current
    position on; [k] is tried on every way of matching [r], longest
    alternatives first, and the first success is returned: the text left
    after the match. *)
Fixpoint rmatch (icase : bool) (r : regex) (prev : option ascii) (s : string)
    (k : option ascii -> string -> option string) {struct r} : option string :=
  match r with
  | Eps => k prev s
  | Lit c =>
      match s with
      | String d s' => if lit_matches icase c d then k (Some d) s' else None
      | EmptyString => None
      end
  | Cls p =>
      match s with
      | String d s' => if p d then k (Some d) s' else None
      | EmptyString => None
      end
  | Seq r1 r2 =>
      rmatch icase r1 prev s (fun prev' s' => rmatch icase r2 prev' s' k)
  | Opt r1 =>
      match rmatch icase r1 prev s k with
      | Some rest => Some rest
      | None => k prev s
      end
  | Plus r1 => iterate (rmatch icase r1) k (S (String.length s)) prev s
  | WordB =>
      if xorb (isword_opt prev) (isword_opt (head s)) then k prev s else None
  end.

(** The match of [r] that starts at the current position, if there is one:
    the matched text and the text after it. *)
Definition match_here (icase : bool) (r : regex) (prev : option ascii)
    (s : string) : option (string * string) :=
  match rmatch icase r prev s (fun _ rest => Some rest) with
  | Some rest =>
      Some (String.substring 0 (String.length s - String.length rest) s, rest)
  | None => None
  end.

(** [re.search(r, s)]: the leftmost match; returns [group(0)]. *)
Fixpoint search_from (icase : bool) (r : regex) (prev : option ascii)
    (s : string) : option string :=
  match match_here icase r prev s with
  | Some (m, _) => Some m
  | None =>
      match s with
      | EmptyString => None
      | String c s' => search_from icase r (Some c) s'
      end
  end.

Definition search (icase : bool) (r : regex) (s : string) : option string :=
  search_from icase r None s.

(** [re.sub(r, repl, s)] for a pattern that matches at least one character
    (all patterns of the program are of the form [\bword\b]) and a
    replacement without escapes.  [skip] counts the characters of the match
    just replaced that are still to be passed over. *)
Fixpoint sub_from (icase : bool) (r : regex) (repl : string) (skip : nat)
    (prev : option ascii) (s : string) : string :=
  match s with
  | EmptyString => EmptyString
  | String c s' =>
      match skip with
      | S n => sub_from icase r repl n (Some c) s'
      | O =>
          match match_here icase r prev s with
          | Some (String _ m, _) =>
              repl ++ sub_from icase r repl (String.length m) (Some c) s'
          | _ => String c (sub_from icase r repl 0 (Some c) s')
          end
      end
  end.

Definition sub (icase : bool) (r : regex) (repl s : string) : string :=
  sub_from icase r repl 0 None s.

(** The pattern that matches the characters of [w] in order. *)
Fixpoint literal (w : string) : regex :=
  match w with
  | EmptyString => Eps
  | String c w' => Seq (Lit c) (literal w')
  end.

(** The texts a pattern can match, positions aside: [\b] matches the
    empty text. *)
Inductive lang (icase : bool) : regex -> string -> Prop :=
| lang_Eps : lang icase Eps EmptyString
| lang_Lit : forall c d,
    lit_matches icase c d = true -> lang icase (Lit c) (String d EmptyString)
| lang_Cls : forall (p : ascii -> bool) d,
    p d = true -> lang icase (Cls p) (String d EmptyString)
| lang_Seq : forall r1 r2 a b,
    lang icase r1 a -> lang icase r2 b -> lang icase (Seq r1 r2) (a ++ b)
| lang_Opt_none : forall r, lang icase (Opt r) EmptyString
| lang_Opt_some : forall r a, lang icase r a -> lang icase (Opt r) a
| lang_Plus_one : forall r a, lang icase r a -> lang icase (Plus r) a
| lang_Plus_more : forall r a b,
    lang icase r a -> lang icase (Plus r) b -> lang icase (Plus r) (a ++ b)
| lang_WordB : lang icase WordB EmptyString.

End Re.

(* ===================================================================== *)
(** * The model-name formatter *)
(* ===================================================================== *)

(** [extract_param_count(size_info)] *)
Definition extract_param_count (size_info : string) : string :=
  if negb (PyStr.truthy size_info) then "unknown"
  else if PyStr.endswith_char "b" (PyStr.lower size_info)
       then PyStr.drop_last size_info
       else size_info.

(** The dictionary returned by [format_model_name]. *)
Record ModelInfo : Type := {
  formatted_name : string;
  size_info : string;
  original_name : string;
  base_family : string
}.

(** [r'(\d+(?:\.\d+)?[bB])'] *)
Definition size_pattern : Re.regex :=
  Re.Seq (Re.Plus (Re.Cls PyStr.isdigit))
    (Re.Seq (Re.Opt (Re.Seq (Re.Lit ".") (Re.Plus (Re.Cls PyStr.isdigit))))
       (Re.Cls (fun c => Ascii.eqb c "b" || Ascii.eqb c "B"))).

(** [model_families], in the order of the dictionary literal. *)
Definition model_families : list (string * string) :=
  [ ("llama", "Llama"); ("mistral", "Mistral"); ("codellama", "CodeLlama");
    ("wizardlm", "WizardLM"); ("wizard", "Wizard"); ("gemma", "Gemma");
    ("falcon", "Falcon"); ("phi", "Phi"); ("stablelm", "StableLM");
    ("tinyllama", "TinyLlama"); ("vicuna", "Vicuna"); ("nous", "Nous");
    ("orca", "Orca"); ("yi", "Yi") ].

(** [r'\b' + key + r'\b'] *)
Definition whole_word (key : string) : Re.regex :=
  Re.Seq Re.WordB (Re.Seq (Re.literal key) Re.WordB).

(** The replacement for the word "uncensored": the six characters of the
    literal in the source, in UTF-8. *)
Definition uncensored_marker : string :=
  String "(" (String (ascii_of_nat 239) (String (ascii_of_nat 163)
    (String (ascii_of_nat 191) (String (ascii_of_nat 195)
    (String (ascii_of_nat 188) (String (ascii_of_nat 195)
    (String (ascii_of_nat 179) (String (ascii_of_nat 206)
    (String (ascii_of_nat 169) (String ")" EmptyString)))))))))).

(** [word[0].upper() + word[1:] if word else ''] *)
Definition capitalize_first (word : string) : string :=
  match word with
  | EmptyString => EmptyString
  | String c w => String (PyStr.upper_char c) w
  end.

Definition capitalize_word (word : string) : string :=
  if PyStr.mem (PyStr.lower word)
       (map (fun kv => PyStr.lower (snd kv)) model_families)
     || String.eqb word uncensored_marker
  then word
  else capitalize_first word.

(** [format_model_name(name)] *)
Definition format_model_name (name : string) : ModelInfo :=
  let original := name in
  let name :=
    if PyStr.contains_char "/" name
    then last (PyStr.split_on "/" name) EmptyString
    else name in
  let '(name, size) :=
    match PyStr.partition ":" name with
    | Some (before, after) =>
        (before,
         match Re.search false size_pattern after with
         | Some m => m
         | None => EmptyString
         end)
    | None => (name, EmptyString)
    end in
  let name := PyStr.replace "_" " " (PyStr.replace "-" " " name) in
  let name :=
    fold_left
      (fun name kv => Re.sub true (whole_word (fst kv)) (snd kv) name)
      model_families name in
  let name := Re.sub true (whole_word "uncensored") uncensored_marker name in
  let capitalized_words := map capitalize_word (PyStr.split name) in
  {| formatted_name := PyStr.join " " capitalized_words;
     size_info := size;
     original_name := original;
     base_family := match capitalized_words with
                    | w :: _ => w
                    | [] => EmptyString
                    end |}.

(* ===================================================================== *)
(** * Python values, exceptions, JSON *)
(* ===================================================================== *)

(** The values [json.loads] returns.  A number is kept as its literal; the
    items of an object are those of the resulting dictionary, in insertion
    order. *)
#[local] Unset Elimination Schemes.
Inductive json : Type :=
| JNull : json
| JBool : bool -> json
| JNum : string -> json
| JStr : string -> json
| JArr : list json -> json
| JObj : list (string * json) -> json.
#[local] Set Elimination Schemes.

(** A raised exception, as far as the [except] clauses of the program tell
    exceptions apart: whether it is a [requests.exceptions.RequestException],
    whether it is a [json.JSONDecodeError], and its [str(e)]. *)
Record exn : Type := {
  is_request_exception : bool;
  is_json_decode_error : bool;
  exn_str : string
}.

Inductive outcome (A : Type) : Type :=
| Returned : A -> outcome A
| Raised : exn -> outcome A.
Arguments Returned {A} _.
Arguments Raised {A} _.

(** The operations of the program that the interpreter rejects on a value
    of the wrong type. *)
Inductive fault : Type :=
| NotAContainer : json -> fault     (* [key in v] *)
| BadSubscript : json -> fault      (* [v[key]] *)
| BadConcat : json -> fault         (* [full_response += v] *)
| NoGetMethod : json -> fault       (* [v.get(...)] *)
| BadSignalArgument : json -> fault (* [emit(v)] on a [pyqtSignal(str)] *).

Definition IndexError : exn :=
  {| is_request_exception := false; is_json_decode_error := false;
     exn_str := "list index out of range" |}.

(** What PyQt raises when a widget whose C++ object has been deleted is
    passed to a method. *)
Definition RuntimeError : exn :=
  {| is_request_exception := false; is_json_decode_error := false;
     exn_str := "wrapped C/C++ object of type ChatBubble has been deleted" |}.

Fixpoint lookup (key : string) (d : list (string * json)) : option json :=
  match d with
  | [] => None
  | (k, v) :: d' => if String.eqb key k then Some v else lookup key d'
  end.

Definition is_the_string (key : string) (v : json) : bool :=
  match v with JStr s => String.eqb key s | _ => false end.

(** [key in v] *)
Definition py_in (key : string) (v : json) : fault + bool :=
  match v with
  | JObj d => inr (match lookup key d with Some _ => true | None => false end)
  | JArr l => inr (existsb (is_the_string key) l)
  | JStr s => inr (PyStr.contains key s)
  | _ => inl (NotAContainer v)
  end.

(** [v[key]] for a key that [py_in] has found. *)
Definition py_getitem (key : string) (v : json) : fault + json :=
  match v with
  | JObj d => match lookup key d with
              | Some x => inr x
              | None => inl (BadSubscript v)
              end
  | _ => inl (BadSubscript v)
  end.

(** The signals of [OllamaThread]. *)
Inductive signal : Type :=
| streaming_chunk_received : string -> signal
| response_received : string -> signal
| error_occurred : string -> signal.

(* ===================================================================== *)
(** * The request worker *)
(* ===================================================================== *)

Module OllamaThread.

(** The attributes set by [__init__]. *)
Record t : Type := {
  model : string;
  prompt : string;
  api_url : string;
  system_prompt : string;
  use_streaming : bool
}.

(** [process_system_prompt(model_display_name)]; the argument is not used
    by the method. *)
Definition process_system_prompt (self : t) (model_display_name : string)
  : string :=
  if negb (PyStr.truthy (system_prompt self)) then EmptyString
  else
    let prompt := system_prompt self in
    let model_info := format_model_name (model self) in
    let formatted_name := formatted_name model_info in
    let param_count := extract_param_count (size_info model_info) in
    let prompt := PyStr.replace "%model%" formatted_name prompt in
    let prompt := PyStr.replace "%parameters%" param_count prompt in
    prompt.

(** The first lines of [run]: the display name and the payload. *)
Definition display_name (self : t) : string :=
  let model_info := format_model_name (model self) in
  if PyStr.truthy (size_info model_info)
  then formatted_name model_info ++ " (" ++ size_info model_info ++ ")"
  else formatted_name model_info.

Definition payload (self : t) : list (string * json) :=
  let processed_system_prompt :=
    process_system_prompt self (display_name self) in
  let payload :=
    [ ("model", JStr (model self)); ("prompt", JStr (prompt self));
      ("stream", JBool (use_streaming self)) ] in
  if PyStr.truthy processed_system_prompt
  then payload ++ [("system", JStr processed_system_prompt)]
  else payload.

(** What [requests.post] returns, as far as [run] reads it. *)
Record Response : Type := {
  status_code : nat;
  iter_lines : list string;
  (** the exception that ends the iteration early, if the connection
      breaks after the lines above *)
  iter_lines_raises : option exn;
  text : string;
  (** [response.json()] *)
  json_body : outcome json
}.

Section Run.

(** The world outside the program: the JSON decoder, the HTTP client and
    the text of the interpreter's type errors. *)
Variable json_loads : string -> outcome json.
Variable requests_post :
  string -> list (string * json) -> bool -> outcome Response.
Variable fault_exn : fault -> exn.

(** What the worker has done: the signals emitted, in order, and the lines
    reported by the warning of the streaming loop. *)
Record Trace : Type := {
  emitted : list signal;
  warnings : list string
}.

(** One pass of the [for line in response.iter_lines()] loop from the
    state [full_response]: the chunks emitted, the lines warned about, and
    either the final [full_response] or the exception that left the loop. *)
Fixpoint stream_loop (lines : list string) (full_response : string)
  : list signal * list string * outcome string :=
  match lines with
  | [] => ([], [], Returned full_response)
  | line :: rest =>
      if PyStr.truthy line then
        match json_loads line with
        | Raised e =>
            if is_json_decode_error e then
              let '(sigs, warns, r) := stream_loop rest full_response in
              (sigs, line :: warns, r)
            else ([], [], Raised e)
        | Returned chunk_data =>
            match py_in "response" chunk_data with
            | inl f => ([], [], Raised (fault_exn f))
            | inr false => stream_loop rest full_response
            | inr true =>
                match py_getitem "response" chunk_data with
                | inl f => ([], [], Raised (fault_exn f))
                | inr (JStr chunk) =>
                    let '(sigs, warns, r) :=
                      stream_loop rest (full_response ++ chunk) in
                    (streaming_chunk_received chunk :: sigs, warns, r)
                | inr v => ([], [], Raised (fault_exn (BadConcat v)))
                end
            end
        end
      else stream_loop rest full_response
  end.

(** The three [except] clauses at the end of [run]. *)
Definition on_exception (e : exn) : signal :=
  if is_request_exception e then error_occurred ("Network error: " ++ exn_str e)
  else if is_json_decode_error e
       then error_occurred ("Invalid response format: " ++ exn_str e)
       else error_occurred ("Error: " ++ exn_str e).

Definition status_error (response : Response) : signal :=
  error_occurred ("Error: Status code " ++ PyStr.str_of_nat (status_code response)
                  ++ " - " ++ text response).

Definition url (self : t) : string := api_url self ++ "/api/generate".

(** [run()] *)
Definition run (self : t) : Trace :=
  if use_streaming self then
    match requests_post (url self) (payload self) true with
    | Raised e => {| emitted := [on_exception e]; warnings := [] |}
    | Returned response =>
        if (status_code response =? 200)%nat then
          let '(sigs, warns, r) := stream_loop (iter_lines response) EmptyString in
          match r, iter_lines_raises response with
          | Returned full_response, None =>
              {| emitted := sigs ++ [response_received full_response];
                 warnings := warns |}
          | Returned _, Some e =>
              {| emitted := sigs ++ [on_exception e]; warnings := warns |}
          | Raised e, _ =>
              {| emitted := sigs ++ [on_exception e]; warnings := warns |}
          end
        else {| emitted := [status_error response]; warnings := [] |}
    end
  else
    match requests_post (url self) (payload self) false with
    | Raised e => {| emitted := [on_exception e]; warnings := [] |}
    | Returned response =>
        if (status_code response =? 200)%nat then
          match json_body response with
          | Raised e => {| emitted := [on_exception e]; warnings := [] |}
          | Returned (JObj data) =>
              match lookup "response" data with
              | None =>
                  {| emitted := [response_received "No response content"];
                     warnings := [] |}
              | Some (JStr s) =>
                  {| emitted := [response_received s]; warnings := [] |}
              | Some v =>
                  {| emitted := [on_exception (fault_exn (BadSignalArgument v))];
                     warnings := [] |}
              end
          | Returned v =>
              {| emitted := [on_exception (fault_exn (NoGetMethod v))];
                 warnings := [] |}
          end
        else {| emitted := [status_error response]; warnings := [] |}
    end.

End Run.

End OllamaThread.

(* ===================================================================== *)
(** * The main window *)
(* ===================================================================== *)

Module OllamaChatGUI.

Inductive Role : Type := user | assistant.

(** An entry of [conversation_history]: [{"role": ..., "content": ...}]. *)
Record Message : Type := { role : Role; content : string }.

(** A [ChatBubble(message, is_user)] widget.  Two bubbles are the same
    object when they have the same [bubble_id]. *)
Record ChatBubble : Type := {
  bubble_id : nat;
  bubble_message : string;
  is_user : bool
}.

Inductive Widget : Type :=
| WelcomeWidget : Widget
| Bubble : ChatBubble -> Widget.

(** The content of the configuration file: the text [json.dump] writes for
    a value, which [json.load] reads back as that value, or a text that
    [json.load] rejects. *)
Inductive ConfigFile : Type :=
| JsonText : json -> ConfigFile
| OtherText : ConfigFile.

(** The attributes of the window that its methods read, and the world they
    act on. *)
Record t : Type := {
  conversation_history : list Message;
  api_url : string;
  current_model : string;
  system_prompt : string;
  use_streaming : bool;
  current_streaming_bubble : option ChatBubble;
  (** the widgets of [self.chat_layout], top to bottom *)
  chat_layout : list Widget;
  (** the text of the input box *)
  message_input : string;
  (** the text of the header label *)
  header_title : string;
  (** [self.thread], the worker created last *)
  thread : option OllamaThread.t;
  (** every worker started so far, oldest first *)
  started : list OllamaThread.t;
  (** [close()] has been called *)
  closed : bool;
  (** how many [ChatBubble] objects have been constructed *)
  bubbles_created : nat;
  (** the file [ollama_config.json] *)
  ollama_config : option ConfigFile
}.

Definition set_conversation_history (v : list Message) (self : t) : t :=
  {| conversation_history := v;
     api_url := api_url self;
     current_model := current_model self;
     system_prompt := system_prompt self;
     use_streaming := use_streaming self;
     current_streaming_bubble := current_streaming_bubble self;
     chat_layout := chat_layout self;
     message_input := message_input self;
     header_title := header_title self;
     thread := thread self;
     started := started self;
     closed := closed self;
     bubbles_created := bubbles_created self;
     ollama_config := ollama_config self |}.

Definition set_api_url (v : string) (self : t) : t :=
  {| conversation_history := conversation_history self;
     api_url := v;
     current_model := current_model self;
     system_prompt := system_prompt self;
     use_streaming := use_streaming self;
     current_streaming_bubble := current_streaming_bubble self;
     chat_layout := chat_layout self;
     message_input := message_input self;
     header_title := header_title self;
     thread := thread self;
     started := started self;
     closed := closed self;
     bubbles_created := bubbles_created self;
     ollama_config := ollama_config self |}.

Definition set_current_model (v : string) (self : t) : t :=
  {| conversation_history := conversation_history self;
     api_url := api_url self;
     current_model := v;
     system_prompt := system_prompt self;
     use_streaming := use_streaming self;
     current_streaming_bubble := current_streaming_bubble self;
     chat_layout := chat_layout self;
     message_input := message_input self;
     header_title := header_title self;
     thread := thread self;
     started := started self;
     closed := closed self;
     bubbles_created := bubbles_created self;
     ollama_config := ollama_config self |}.

Definition set_system_prompt (v : string) (self : t) : t :=
  {| conversation_history := conversation_history self;
     api_url := api_url self;
     current_model := current_model self;
     system_prompt := v;
     use_streaming := use_streaming self;
     current_streaming_bubble := current_streaming_bubble self;
     chat_layout := chat_layout self;
     message_input := message_input self;
     header_title := header_title self;
     thread := thread self;
     started := started self;
     closed := closed self;
     bubbles_created := bubbles_created self;
     ollama_config := ollama_config self |}.

Definition set_use_streaming (v : bool) (self : t) : t :=
  {| conversation_history := conversation_history self;
     api_url := api_url self;
     current_model := current_model self;
     system_prompt := system_prompt self;
     use_streaming := v;
     current_streaming_bubble := current_streaming_bubble self;
     chat_layout := chat_layout self;
     message_input := message_input self;
     header_title := header_title self;
     thread := thread self;
     started := started self;
     closed := closed self;
     bubbles_created := bubbles_created self;
     ollama_config := ollama_config self |}.

Definition set_current_streaming_bubble (v : option ChatBubble) (self : t) : t :=
  {| conversation_history := conversation_history self;
     api_url := api_url self;
     current_model := current_model self;
     system_prompt := system_prompt self;
     use_streaming := use_streaming self;
     current_streaming_bubble := v;
     chat_layout := chat_layout self;
     message_input := message_input self;
     header_title := header_title self;
     thread := thread self;
     started := started self;
     closed := closed self;
     bubbles_created := bubbles_created self;
     ollama_config := ollama_config self |}.

Definition set_chat_layout (v : list Widget) (self : t) : t :=
  {| conversation_history := conversation_history self;
     api_url := api_url self;
     current_model := current_model self;
     system_prompt := system_prompt self;
     use_streaming := use_streaming self;
     current_streaming_bubble := current_streaming_bubble self;
     chat_layout := v;
     message_input := message_input self;
     header_title := header_title self;
     thread := thread self;
     started := started self;
     closed := closed self;
     bubbles_created := bubbles_created self;
     ollama_config := ollama_config self |}.

Definition set_message_input (v : string) (self : t) : t :=
  {| conversation_history := conversation_history self;
     api_url := api_url self;
     current_model := current_model self;
     system_prompt := system_prompt self;
     use_streaming := use_streaming self;
     current_streaming_bubble := current_streaming_bubble self;
     chat_layout := chat_layout self;
     message_input := v;
     header_title := header_title self;
     thread := thread self;
     started := started self;
     closed := closed self;
     bubbles_created := bubbles_created self;
     ollama_config := ollama_config self |}.

Definition set_header_title (v : string) (self : t) : t :=
  {| conversation_history := conversation_history self;
     api_url := api_url self;
     current_model := current_model self;
     system_prompt := system_prompt self;
     use_streaming := use_streaming self;
     current_streaming_bubble := current_streaming_bubble self;
     chat_layout := chat_layout self;
     message_input := message_input self;
     header_title := v;
     thread := thread self;
     started := started self;
     closed := closed self;
     bubbles_created := bubbles_created self;
     ollama_config := ollama_config self |}.

Definition set_thread (v : option OllamaThread.t) (self : t) : t :=
  {| conversation_history := conversation_history self;
     api_url := api_url self;
     current_model := current_model self;
     system_prompt := system_prompt self;
     use_streaming := use_streaming self;
     current_streaming_bubble := current_streaming_bubble self;
     chat_layout := chat_layout self;
     message_input := message_input self;
     header_title := header_title self;
     thread := v;
     started := started self;
     closed := closed self;
     bubbles_created := bubbles_created self;
     ollama_config := ollama_config self |}.

Definition set_started (v : list OllamaThread.t) (self : t) : t :=
  {| conversation_history := conversation_history self;
     api_url := api_url self;
     current_model := current_model self;
     system_prompt := system_prompt self;
     use_streaming := use_streaming self;
     current_streaming_bubble := current_streaming_bubble self;
     chat_layout := chat_layout self;
     message_input := message_input self;
     header_title := header_title self;
     thread := thread self;
     started := v;
     closed := closed self;
     bubbles_created := bubbles_created self;
     ollama_config := ollama_config self |}.

Definition set_closed (v : bool) (self : t) : t :=
  {| conversation_history := conversation_history self;
     api_url := api_url self;
     current_model := current_model self;
     system_prompt := system_prompt self;
     use_streaming := use_streaming self;
     current_streaming_bubble := current_streaming_bubble self;
     chat_layout := chat_layout self;
     message_input := message_input self;
     header_title := header_title self;
     thread := thread self;
     started := started self;
     closed := v;
     bubbles_created := bubbles_created self;
     ollama_config := ollama_config self |}.

Definition set_bubbles_created (v : nat) (self : t) : t :=
  {| conversation_history := conversation_history self;
     api_url := api_url self;
     current_model := current_model self;
     system_prompt := system_prompt self;
     use_streaming := use_streaming self;
     current_streaming_bubble := current_streaming_bubble self;
     chat_layout := chat_layout self;
     message_input := message_input self;
     header_title := header_title self;
     thread := thread self;
     started := started self;
     closed := closed self;
     bubbles_created := v;
     ollama_config := ollama_config self |}.

Definition set_ollama_config (v : option ConfigFile) (self : t) : t :=
  {| conversation_history := conversation_history self;
     api_url := api_url self;
     current_model := current_model self;
     system_prompt := system_prompt self;
     use_streaming := use_streaming self;
     current_streaming_bubble := current_streaming_bubble self;
     chat_layout := chat_layout self;
     message_input := message_input self;
     header_title := header_title self;
     thread := thread self;
     started := started self;
     closed := closed self;
     bubbles_created := bubbles_created self;
     ollama_config := v |}.

(** What the user and the disk do while a method runs: how the model
    dialog is closed, how the system-prompt dialog is closed, and whether
    the configuration file can be written. *)
Record ModelChoice : Type := {
  dialog_api_url : string;
  selected_model : string;
  dialog_display_name : string
}.

Record PromptChoice : Type := {
  prompt_input : string;
  streaming_checkbox : bool
}.

Record Env : Type := {
  (** [Some] when the model dialog is accepted with a selection *)
  model_dialog : option ModelChoice;
  (** [Some] when the system-prompt dialog is closed with Save *)
  prompt_dialog : option PromptChoice;
  disk_writable : bool
}.

(** ** Methods as state transformers that may raise *)

Definition M (A : Type) : Type := t -> outcome A * t.

Definition ret {A} (a : A) : M A := fun self => (Returned a, self).

Definition bind {A B} (m : M A) (k : A -> M B) : M B :=
  fun self =>
    match m self with
    | (Returned a, self') => k a self'
    | (Raised e, self') => (Raised e, self')
    end.

Definition raise {A} (e : exn) : M A := fun self => (Raised e, self).

(** [try: m  except Exception as e: handler(e)] *)
Definition try_except {A} (m : M A) (handler : exn -> M A) : M A :=
  fun self =>
    match m self with
    | (Returned a, self') => (Returned a, self')
    | (Raised e, self') => handler e self'
    end.

Definition gets {A} (f : t -> A) : M A := fun self => (Returned (f self), self).

Definition modify (f : t -> t) : M unit := fun self => (Returned tt, f self).

(** The state a method leaves behind. *)
Definition exec {A} (m : M A) (self : t) : t := snd (m self).

Declare Scope gui_scope.
Delimit Scope gui_scope with gui.
Notation "x <- m ;; k" := (bind m (fun x => k))
  (at level 61, m at next level, right associativity) : gui_scope.
Notation "m ;; k" := (bind m (fun _ => k))
  (at level 61, right associativity) : gui_scope.
Local Open Scope gui_scope.

(** [ChatBubble(message, is_user)]: a new object. *)
Definition new_bubble (message : string) (is_user : bool) : M ChatBubble :=
  n <- gets bubbles_created ;;
  modify (set_bubbles_created (S n)) ;;
  ret {| bubble_id := n; bubble_message := message; is_user := is_user |}.

Definition addWidget (w : Widget) : M unit :=
  modify (fun self => set_chat_layout (chat_layout self ++ [w])%list self).

Definition same_widget (b : ChatBubble) (w : Widget) : bool :=
  match w with
  | Bubble b' => (bubble_id b =? bubble_id b')%nat
  | WelcomeWidget => false
  end.

(** [layout.indexOf(b)]: [None] stands for -1. *)
Fixpoint indexOf (b : ChatBubble) (layout : list Widget) : option nat :=
  match layout with
  | [] => None
  | w :: rest =>
      if same_widget b w then Some 0
      else match indexOf b rest with Some i => Some (S i) | None => None end
  end.

(** [removeWidget] at a known index followed by [insertWidget] there. *)
Definition replace_widget (i : nat) (w : Widget) (layout : list Widget)
  : list Widget :=
  (firstn i layout ++ w :: skipn (S i) layout)%list.

(** [setup_welcome_view()] *)
Definition setup_welcome_view : M unit :=
  modify (set_chat_layout [WelcomeWidget]).

(** [show_model_dialog()] *)
Definition show_model_dialog (env : Env) : M unit :=
  match model_dialog env with
  | Some dialog =>
      modify (set_api_url (dialog_api_url dialog)) ;;
      modify (set_current_model (selected_model dialog)) ;;
      modify (set_header_title (dialog_display_name dialog))
  | None => ret tt
  end.

Module SystemPromptDialog.

(** [save_prompt()]: returns the attributes [system_prompt] and
    [use_streaming] of the dialog; a failure to write the file is printed
    and otherwise ignored. *)
Definition save_prompt (env : Env) (typed : PromptChoice)
  : M (string * bool) :=
  let system_prompt := PyStr.strip (prompt_input typed) in
  let use_streaming := streaming_checkbox typed in
  let config :=
    JObj [ ("system_prompt", JStr system_prompt);
           ("use_streaming", JBool use_streaming) ] in
  (if disk_writable env
   then modify (set_ollama_config (Some (JsonText config)))
   else ret tt) ;;
  ret (system_prompt, use_streaming).

End SystemPromptDialog.

(** [show_system_prompt_dialog()] *)
Definition show_system_prompt_dialog (env : Env) : M unit :=
  match prompt_dialog env with
  | Some typed =>
      saved <- SystemPromptDialog.save_prompt env typed ;;
      modify (set_system_prompt (fst saved)) ;;
      modify (set_use_streaming (snd saved))
  | None => ret tt
  end.

(** ** Loading the configuration *)

Definition assign_system_prompt (v : json) (self : t) : option t :=
  match v with JStr s => Some (set_system_prompt s self) | _ => None end.

Definition assign_use_streaming (v : json) (self : t) : option t :=
  match v with JBool b => Some (set_use_streaming b self) | _ => None end.

(** [if key in config: self.<field> = config[key]].  The boolean tells
    whether an exception was raised.  [None]: the file stores under [key] a
    value that is not of the type of the field; the record [t] has no
    state for that. *)
Definition load_field (key : string) (assign : json -> t -> option t)
    (config : json) (self : t) : option (bool * t) :=
  match py_in key config with
  | inl _ => Some (true, self)
  | inr false => Some (false, self)
  | inr true =>
      match py_getitem key config with
      | inl _ => Some (true, self)
      | inr v =>
          match assign v self with
          | Some self' => Some (false, self')
          | None => None
          end
      end
  end.

(** [load_config()]: every exception is printed and swallowed. *)
Definition load_config (self : t) : option t :=
  match ollama_config self with
  | None => Some self
  | Some OtherText => Some self
  | Some (JsonText config) =>
      match load_field "system_prompt" assign_system_prompt config self with
      | None => None
      | Some (true, self') => Some self'
      | Some (false, self') =>
          match load_field "use_streaming" assign_use_streaming config self' with
          | None => None
          | Some (_, self'') => Some self''
          end
      end
  end.

(** [__init__()], with the file found on disk: the defaults, then
    [load_config], then the welcome view of [setup_ui]. *)
Definition init (disk : option ConfigFile) : option t :=
  load_config
    {| conversation_history := [];
       api_url := "http://localhost:11434";
       current_model := EmptyString;
       system_prompt := EmptyString;
       use_streaming := false;
       current_streaming_bubble := None;
       chat_layout := [WelcomeWidget];
       message_input := EmptyString;
       header_title := "Ollama Chat";
       thread := None;
       started := [];
       closed := false;
       bubbles_created := 0;
       ollama_config := disk |}.

(** ** Bubbles *)

(** [add_streaming_bubble(message, is_user)] *)
Definition add_streaming_bubble (message : string) (is_user : bool)
  : M ChatBubble :=
  bubble <- new_bubble message is_user ;;
  modify (set_current_streaming_bubble (Some bubble)) ;;
  addWidget (Bubble bubble) ;;
  modify (fun self =>
            set_conversation_history
              (conversation_history self
               ++ [{| role := assistant; content := message |}])%list self) ;;
  ret bubble.

(** [conversation_history[-1]] *)
Definition last_message : M Message :=
  history <- gets conversation_history ;;
  match rev history with
  | m :: _ => ret m
  | [] => raise IndexError
  end.

(** [conversation_history[-1]["content"] = v] *)
Definition set_last_content (v : string) : M unit :=
  history <- gets conversation_history ;;
  match rev history with
  | m :: before =>
      modify (set_conversation_history
                (rev before ++ [{| role := role m; content := v |}])%list)
  | [] => raise IndexError
  end.

(** [update_streaming_bubble(new_chunk)].  The history entry is extended
    and the new bubble is made before the old one is looked up in the
    layout.  A bubble leaves the layout only where the program also deletes
    it: in [setup_welcome_view], in the clearing of [add_message_bubble] and
    in the replacement below.  So a streaming bubble that is not in the
    layout is a deleted object, and [indexOf] raises on it. *)
Definition update_streaming_bubble (new_chunk : string) : M unit :=
  current <- gets current_streaming_bubble ;;
  match current with
  | Some current_bubble =>
      m <- last_message ;;
      let updated_content := content m ++ new_chunk in
      set_last_content updated_content ;;
      new_bubble <- new_bubble updated_content false ;;
      layout <- gets chat_layout ;;
      match indexOf current_bubble layout with
      | Some layout_index =>
          modify (set_chat_layout
                    (replace_widget layout_index (Bubble new_bubble) layout)) ;;
          modify (set_current_streaming_bubble (Some new_bubble))
      | None => raise RuntimeError
      end
  | None =>
      add_streaming_bubble new_chunk false ;; ret tt
  end.

(** [handle_streaming_chunk(chunk)] *)
Definition handle_streaming_chunk (chunk : string) : M unit :=
  current <- gets current_streaming_bubble ;;
  match current with
  | Some _ => update_streaming_bubble chunk
  | None => add_streaming_bubble chunk false ;; ret tt
  end.

(** [add_message_bubble(message, is_user)]: the first message replaces the
    welcome view.  The history is not touched. *)
Definition add_message_bubble (message : string) (is_user : bool) : M unit :=
  history <- gets conversation_history ;;
  let first_message := (List.length history =? 0)%nat in
  (if first_message then modify (set_chat_layout []) else ret tt) ;;
  bubble <- new_bubble message is_user ;;
  addWidget (Bubble bubble).

(** ** Slash commands *)

Module SlashCommandHandler.

(** [clear_chat()] *)
Definition clear_chat : M unit :=
  modify (set_conversation_history []) ;;
  setup_welcome_view.

Definition open_models (env : Env) : M unit := show_model_dialog env.

Definition open_system_prompt (env : Env) : M unit :=
  show_system_prompt_dialog env.

Definition exit_app : M unit := modify (set_closed true).

(** An entry of [self.commands]. *)
Record Command : Type := {
  description : string;
  action : Env -> M unit
}.

(** [self.commands], in the order of the dictionary literal. *)
Definition commands : list (string * Command) :=
  [ ("/clear", {| description := "Clear the chat history";
                  action := fun _ => clear_chat |});
    ("/models", {| description := "Open model selection panel";
                   action := open_models |});
    ("/system", {| description := "Configure system prompt";
                   action := open_system_prompt |});
    ("/bye", {| description := "Exit the application";
                action := fun _ => exit_app |}) ].

Fixpoint find_command (name : string) (table : list (string * Command))
  : option Command :=
  match table with
  | [] => None
  | (k, c) :: rest => if String.eqb name k then Some c else find_command name rest
  end.

(** [get_predictions(current_text)] *)
Definition get_predictions (current_text : string) : list (string * string) :=
  if negb (PyStr.startswith "/" current_text) then []
  else
    map (fun kc => (fst kc, description (snd kc)))
      (filter (fun kc => PyStr.startswith current_text (fst kc)) commands).

(** [process_command(command_text)] *)
Definition process_command (env : Env) (command_text : string) : M bool :=
  match PyStr.split command_text with
  | [] => raise IndexError
  | command :: _ =>
      match find_command command commands with
      | Some c => action c env ;; ret true
      | None => ret false
      end
  end.

End SlashCommandHandler.

(** ** Sending and receiving *)

(** [not self.current_model or self.current_model in [...]] *)
Definition no_valid_model (current_model : string) : bool :=
  negb (PyStr.truthy current_model)
  || PyStr.mem current_model ["No models found"; "Fetching models..."; "Error:"].

(** Creating the worker for [message], connecting its signals and starting
    it. *)
Definition start_thread (message : string) : M unit :=
  self <- gets (fun self => self) ;;
  let worker :=
    {| OllamaThread.model := current_model self;
       OllamaThread.prompt := message;
       OllamaThread.api_url := api_url self;
       OllamaThread.system_prompt := system_prompt self;
       OllamaThread.use_streaming := use_streaming self |} in
  modify (set_thread (Some worker)) ;;
  modify (fun self => set_started (started self ++ [worker])%list self).

Definition append_history (m : Message) : M unit :=
  modify (fun self =>
            set_conversation_history (conversation_history self ++ [m])%list self).

(** [send_message()] *)
Definition send_message (env : Env) : M unit :=
  try_except
    (text <- gets message_input ;;
     let message := PyStr.strip text in
     if negb (PyStr.truthy message) then ret tt
     else
       handled <- (if PyStr.startswith "/" message
                   then SlashCommandHandler.process_command env message
                   else ret false) ;;
       if handled then modify (set_message_input EmptyString)
       else
         ready <- (model <- gets current_model ;;
                   if no_valid_model model then
                     show_model_dialog env ;;
                     model <- gets current_model ;;
                     if no_valid_model model then
                       add_message_bubble
                         "Please select a valid model first." false ;;
                       ret false
                     else ret true
                   else ret true) ;;
         if ready then
           modify (set_message_input EmptyString) ;;
           add_message_bubble message true ;;
           append_history {| role := user; content := message |} ;;
           streaming <- gets use_streaming ;;
           (if streaming then modify (set_current_streaming_bubble None)
            else ret tt) ;;
           start_thread message
         else ret tt)
    (fun e => add_message_bubble ("Error: " ++ exn_str e) false).

(** The user types [text] into the input box and presses Return. *)
Definition submit (env : Env) (text : string) : M unit :=
  modify (set_message_input text) ;;
  send_message env.

Definition is_some {A} (o : option A) : bool :=
  match o with Some _ => true | None => false end.

(** [handle_response(response)] *)
Definition handle_response (response : string) : M unit :=
  try_except
    (streaming <- gets use_streaming ;;
     current <- gets current_streaming_bubble ;;
     if streaming && is_some current then
       modify (set_current_streaming_bubble None)
     else
       add_message_bubble response false ;;
       append_history {| role := assistant; content := response |})
    (fun _ => ret tt).

(** [handle_error(error_message)] *)
Definition handle_error (error_message : string) : M unit :=
  try_except
    (add_message_bubble ("Error: " ++ error_message) false ;;
     streaming <- gets use_streaming ;;
     if streaming then modify (set_current_streaming_bubble None) else ret tt)
    (fun _ => ret tt).

(** A signal of [worker] reaches the slot it was connected to in
    [send_message]; the chunk signal is connected only for a streaming
    worker.  The slots do not learn which worker the signal came from. *)
Definition deliver (worker : OllamaThread.t) (s : signal) : M unit :=
  match s with
  | streaming_chunk_received chunk =>
      if OllamaThread.use_streaming worker then handle_streaming_chunk chunk
      else ret tt
  | response_received response => handle_response response
  | error_occurred error_message => handle_error error_message
  end.

Fixpoint deliver_all (worker : OllamaThread.t) (sigs : list signal) : M unit :=
  match sigs with
  | [] => ret tt
  | s :: rest => deliver worker s ;; deliver_all worker rest
  end.

(** [insert_command(command)]: a prediction picked from the popup is put
    into the input box, followed by a space. *)
Definition insert_command (command : string) : M unit :=
  modify (set_message_input (command ++ " ")).

End OllamaChatGUI.

(* ===================================================================== *)
(** * The model dialog: the tree of models and the Apply button *)
(* ===================================================================== *)

Module ModelSelectionDialog.

(** A model item of [model_tree]: its text and its [model_data]. *)
Record ModelItem : Type := {
  item_text : string;
  model_data : ModelInfo
}.

(** A top-level item: a family with its model items, or a single line of
    text ("Fetching models...", "No models found", "Error: ..."). *)
Inductive TreeItem : Type :=
| Notice : string -> TreeItem
| Family : string -> list ModelItem -> TreeItem.

(** [if key not in d: d[key] = []] followed by [d[key].append(info)], on a
    dictionary kept as its items in insertion order. *)
Fixpoint add_to_family (key : string) (info : ModelInfo)
    (d : list (string * list ModelInfo)) : list (string * list ModelInfo) :=
  match d with
  | [] => [(key, [info])]
  | (k, l) :: rest =>
      if String.eqb key k then (k, (l ++ [info])%list) :: rest
      else (k, l) :: add_to_family key info rest
  end.

(** The loop that fills [model_families] from the fetched names. *)
Definition group_by_family (model_names : list string)
  : list (string * list ModelInfo) :=
  fold_left
    (fun d name =>
       let model_info := format_model_name name in
       add_to_family (base_family model_info) model_info d)
    model_names [].

(** [sorted(l, key=key)]: a stable sort that compares keys with [<] only.
    [insert_sorted] puts [x] in front of the first element whose key is not
    below the key of [x]. *)
Fixpoint insert_sorted {A : Type} (key : A -> string) (x : A) (l : list A)
  : list A :=
  match l with
  | [] => [x]
  | y :: l' =>
      if String.ltb (key y) (key x) then y :: insert_sorted key x l'
      else x :: y :: l'
  end.

Fixpoint sorted_by {A : Type} (key : A -> string) (l : list A) : list A :=
  match l with
  | [] => []
  | x :: l' => insert_sorted key x (sorted_by key l')
  end.

(** The text of a model item: the name, and the size in brackets when the
    model has one. *)
Definition display_text (model_info : ModelInfo) : string :=
  if PyStr.truthy (size_info model_info)
  then formatted_name model_info ++ " (" ++ size_info model_info ++ ")"
  else formatted_name model_info.

Definition model_item (model_info : ModelInfo) : ModelItem :=
  {| item_text := display_text model_info; model_data := model_info |}.

(** The tree [fetch_models] builds once it has the names of the models:
    the families in the order of [sorted(model_families.items())] (the
    keys of a dictionary differ, so the items are ordered by family), the
    models of a family in the order of their formatted names.  The request
    that fetches the names is not modelled. *)
Definition build_tree (model_names : list string) : list TreeItem :=
  match model_names with
  | [] => [Notice "No models found"]
  | _ :: _ =>
      map (fun family_models =>
             Family (fst family_models)
               (map model_item (sorted_by formatted_name (snd family_models))))
        (sorted_by fst (group_by_family model_names))
  end.

(** What is selected in the tree when Apply is pressed. *)
Inductive Selection : Type :=
| NothingSelected : Selection
| TopLevelSelected : TreeItem -> Selection
| ModelSelected : ModelItem -> Selection.

(** [apply_settings()]: [Some] when the dialog is accepted.  Only a model
    item has [model_data]; with anything else selected the dialog stays
    open. *)
Definition apply_settings (api_url_input : string) (selected : Selection)
  : option OllamaChatGUI.ModelChoice :=
  match selected with
  | ModelSelected item =>
      let model_data := model_data item in
      Some {| OllamaChatGUI.dialog_api_url := PyStr.strip api_url_input;
              OllamaChatGUI.selected_model := original_name model_data;
              OllamaChatGUI.dialog_display_name :=
                if PyStr.truthy (size_info model_data)
                then formatted_name model_data ++ " (" ++ size_info model_data ++ ")"
                else formatted_name model_data |}
  | _ => None
  end.

(** The model items of a tree, top to bottom, and the texts of its
    families. *)
Definition listed_models (tree : list TreeItem) : list ModelItem :=
  flat_map (fun item => match item with
                        | Family _ children => children
                        | Notice _ => []
                        end) tree.

Definition family_texts (tree : list TreeItem) : list string :=
  flat_map (fun item => match item with
                        | Family text _ => [text]
                        | Notice _ => []
                        end) tree.

End ModelSelectionDialog.

Module MSD := ModelSelectionDialog.

Import OllamaChatGUI.

(* ===================================================================== *)
(** * Vocabulary of the statements *)
(* ===================================================================== *)

(** A token: a non-empty text in which no white-space character starts. *)
Fixpoint no_space (s : string) : bool :=
  match s with
  | EmptyString => true
  | String _ s' => (PyStr.space_len s =? 0)%nat && no_space s'
  end.

Definition token (s : string) : Prop :=
  PyStr.truthy s = true /\ no_space s = true.

(** U+3000, the ideographic space, in UTF-8. *)
Definition ideographic_space : string :=
  String (ascii_of_nat 227) (String (ascii_of_nat 128)
    (String (ascii_of_nat 128) EmptyString)).

(** The bytes a white-space character can start with. *)
Definition space_lead (c : ascii) : bool :=
  PyStr.ascii_space c || PyStr.byte_is 194 c || PyStr.byte_is 225 c
  || PyStr.byte_is 226 c || PyStr.byte_is 227 c.

(** No white-space character starts in [w] when [s] follows it. *)
Fixpoint clear_before (w s : string) : bool :=
  match w with
  | EmptyString => true
  | String _ w' => (PyStr.space_len (w ++ s) =? 0)%nat && clear_before w' s
  end.

(** The names of the command table. *)
Definition command_names : list string := ["/clear"; "/models"; "/system"; "/bye"].

(** A text in which the placeholder character does not occur. *)
Definition no_percent (s : string) : Prop := PyStr.contains_char "%" s = false.

(** A text made of digits and dots only. *)
Fixpoint numeric (s : string) : bool :=
  match s with
  | EmptyString => true
  | String c s' => (PyStr.isdigit c || Ascii.eqb c ".") && numeric s'
  end.

(** The settings of the session that [clear] must not touch. *)
Definition same_configuration (a b : OllamaChatGUI.t) : Prop :=
  OllamaChatGUI.api_url a = OllamaChatGUI.api_url b /\
  OllamaChatGUI.current_model a = OllamaChatGUI.current_model b /\
  OllamaChatGUI.system_prompt a = OllamaChatGUI.system_prompt b /\
  OllamaChatGUI.use_streaming a = OllamaChatGUI.use_streaming b.

(** A session to run examples in: the window as [__init__] builds it when
    there is no configuration file; nobody answers the dialogs. *)
Definition fresh_window : OllamaChatGUI.t :=
  {| OllamaChatGUI.conversation_history := [];
     OllamaChatGUI.api_url := "http://localhost:11434";
     OllamaChatGUI.current_model := EmptyString;
     OllamaChatGUI.system_prompt := EmptyString;
     OllamaChatGUI.use_streaming := false;
     OllamaChatGUI.current_streaming_bubble := None;
     OllamaChatGUI.chat_layout := [OllamaChatGUI.WelcomeWidget];
     OllamaChatGUI.message_input := EmptyString;
     OllamaChatGUI.header_title := "Ollama Chat";
     OllamaChatGUI.thread := None;
     OllamaChatGUI.started := [];
     OllamaChatGUI.closed := false;
     OllamaChatGUI.bubbles_created := 0;
     OllamaChatGUI.ollama_config := None |}.

Definition dialogs_dismissed : OllamaChatGUI.Env :=
  {| OllamaChatGUI.model_dialog := None;
     OllamaChatGUI.prompt_dialog := None;
     OllamaChatGUI.disk_writable := true |}.

(** The user picks the model [name] in the model dialog. *)
Definition picks_model (name : string) : OllamaChatGUI.Env :=
  {| OllamaChatGUI.model_dialog :=
       Some {| OllamaChatGUI.dialog_api_url := "http://localhost:11434";
               OllamaChatGUI.selected_model := name;
               OllamaChatGUI.dialog_display_name :=
                 OllamaThread.display_name
                   {| OllamaThread.model := name;
                      OllamaThread.prompt := EmptyString;
                      OllamaThread.api_url := EmptyString;
                      OllamaThread.system_prompt := EmptyString;
                      OllamaThread.use_streaming := false |} |};
     OllamaChatGUI.prompt_dialog := None;
     OllamaChatGUI.disk_writable := true |}.

(** A window with a model selected and streaming switched on. *)
Definition streaming_window : OllamaChatGUI.t :=
  OllamaChatGUI.set_use_streaming true
    (OllamaChatGUI.set_current_model "llama2:13b" fresh_window).

(** The worker [send_message] creates for [message] in the state [self]. *)
Definition worker_for (message : string) (self : OllamaChatGUI.t)
  : OllamaThread.t :=
  {| OllamaThread.model := OllamaChatGUI.current_model self;
     OllamaThread.prompt := message;
     OllamaThread.api_url := OllamaChatGUI.api_url self;
     OllamaThread.system_prompt := OllamaChatGUI.system_prompt self;
     OllamaThread.use_streaming := OllamaChatGUI.use_streaming self |}.

Section StreamVocabulary.

Variable json_loads : string -> outcome json.

(** A line of the streaming response as the inference API sends it: blank,
    or rejected by the decoder as malformed JSON, or an object whose field
    [response], when present, is a text. *)
Definition api_line (line : string) : Prop :=
  line = EmptyString \/
  (exists e, json_loads line = Raised e /\ is_json_decode_error e = true) \/
  (exists d, json_loads line = Returned (JObj d) /\
             (lookup "response" d = None \/
              exists chunk, lookup "response" d = Some (JStr chunk))).

(** The text chunk a line carries, if it parses and has one. *)
Definition chunk_of (line : string) : option string :=
  if PyStr.truthy line then
    match json_loads line with
    | Returned (JObj d) =>
        match lookup "response" d with
        | Some (JStr chunk) => Some chunk
        | _ => None
        end
    | _ => None
    end
  else None.

(** The chunks of a response, in arrival order. *)
Fixpoint chunks_of (lines : list string) : list string :=
  match lines with
  | [] => []
  | line :: rest =>
      match chunk_of line with
      | Some chunk => chunk :: chunks_of rest
      | None => chunks_of rest
      end
  end.

(** The concatenation of a list of chunks. *)
Definition concat_chunks (chunks : list string) : string :=
  fold_right String.append EmptyString chunks.

(** The non-blank lines that fail to parse. *)
Definition unparsed (lines : list string) : list string :=
  filter (fun line =>
            PyStr.truthy line &&
            match json_loads line with Raised _ => true | Returned _ => false end)
    lines.

End StreamVocabulary.

(** A server to run examples against.  Its decoder knows four lines: three
    that carry a chunk and one that carries none; every other line is
    malformed. *)
Definition malformed : exn :=
  {| is_request_exception := false; is_json_decode_error := true;
     exn_str := "Expecting value" |}.

Definition example_loads (line : string) : outcome json :=
  if String.eqb line "chunk-1" then Returned (JObj [("response", JStr "Hel")])
  else if String.eqb line "chunk-2" then Returned (JObj [("response", JStr "lo")])
  else if String.eqb line "chunk-3"
       then Returned (JObj [("response", JStr " world"); ("done", JBool false)])
  else if String.eqb line "done" then Returned (JObj [("done", JBool true)])
  else Raised malformed.

Definition example_lines : list string :=
  ["chunk-1"; EmptyString; "chunk-2"; "{broken"; "chunk-3"; "done"].

Definition example_response (status : nat) : OllamaThread.Response :=
  {| OllamaThread.status_code := status;
     OllamaThread.iter_lines := example_lines;
     OllamaThread.iter_lines_raises := None;
     OllamaThread.text := "model not found";
     OllamaThread.json_body := Raised malformed |}.

Definition example_post (status : nat)
    (url : string) (payload : list (string * json)) (stream : bool)
  : outcome OllamaThread.Response :=
  Returned (example_response status).

Definition example_fault (f : fault) : exn :=
  {| is_request_exception := false; is_json_decode_error := false;
     exn_str := "TypeError" |}.

(** The state [send_message] leaves when it sends [message]. *)
Definition after_send (message : string) (self : t) : t :=
  let worker := worker_for message self in
  {| conversation_history :=
       (conversation_history self ++ [{| role := user; content := message |}])%list;
     api_url := api_url self;
     current_model := current_model self;
     system_prompt := system_prompt self;
     use_streaming := use_streaming self;
     current_streaming_bubble :=
       if use_streaming self then None else current_streaming_bubble self;
     chat_layout :=
       ((match conversation_history self with
         | [] => []
         | _ :: _ => chat_layout self
         end)
        ++ [Bubble {| bubble_id := bubbles_created self;
                      bubble_message := message; is_user := true |}])%list;
     message_input := EmptyString;
     header_title := header_title self;
     thread := Some worker;
     started := (started self ++ [worker])%list;
     closed := closed self;
     bubbles_created := S (bubbles_created self);
     ollama_config := ollama_config self |}.

(** The model the window has once the model dialog has been closed. *)
Definition model_after_dialog (env : Env) (self : t) : string :=
  match model_dialog env with
  | Some dialog => selected_model dialog
  | None => current_model self
  end.

(** The notice bubble and the state that shows it. *)
Definition notice_bubble (self : t) : ChatBubble :=
  {| bubble_id := bubbles_created self;
     bubble_message := "Please select a valid model first.";
     is_user := false |}.

(** The streaming pointer refers to a bubble of the layout, as it does from
    the first chunk of a reply until the chat is cleared. *)
Definition bubble_shown (self : t) : bool :=
  match current_streaming_bubble self with
  | Some bubble => is_some (indexOf bubble (chat_layout self))
  | None => false
  end.

(** Two streaming requests in a row, the first chunk of the second, then a
    late chunk of the first. *)
Definition request_A : OllamaThread.t := worker_for "question A" streaming_window.
Definition request_B : OllamaThread.t := worker_for "question B" streaming_window.

Definition B_is_active : t :=
  exec (submit dialogs_dismissed "question A" ;;
        submit dialogs_dismissed "question B" ;;
        deliver request_B (streaming_chunk_received "b1"))%gui
    streaming_window.

(** The user types " X " and ticks the streaming box in a running window,
    saves, and starts the program again. *)
Definition saves_X : Env :=
  {| model_dialog := None;
     prompt_dialog := Some {| prompt_input := " X "; streaming_checkbox := true |};
     disk_writable := true |}.

(** The third example prompt of the dialog, sent to the model llama2:13b. *)
Definition example_prompt_worker : OllamaThread.t :=
  {| OllamaThread.model := "llama2:13b";
     OllamaThread.prompt := "hi";
     OllamaThread.api_url := "http://localhost:11434";
     OllamaThread.system_prompt :=
       "You are %model%, an AI assistant with %parameters% billion parameters. "
       ++ "Help with clear and concise answers.";
     OllamaThread.use_streaming := false |}.

(** A signal that ends a request: the final result or an error. *)
Definition is_terminal (s : signal) : bool :=
  match s with
  | streaming_chunk_received _ => false
  | response_received _ => true
  | error_occurred _ => true
  end.

(** Decoded lines that are JSON but not what the API sends: null, a
    boolean, a number, or an object whose field [response] is not a text. *)
Definition off_contract (v : json) : bool :=
  match v with
  | JNull => true
  | JBool _ => true
  | JNum _ => true
  | JObj d =>
      match lookup "response" d with
      | Some (JStr _) => false
      | Some _ => true
      | None => false
      end
  | _ => false
  end.

(** The example decoder, knowing one more line: a bare number. *)
Definition example_loads_number (line : string) : outcome json :=
  if String.eqb line "42" then Returned (JNum "42") else example_loads line.

Definition example_post_lines (lines : list string)
    (url : string) (payload : list (string * json)) (stream : bool)
  : outcome OllamaThread.Response :=
  Returned {| OllamaThread.status_code := 200;
              OllamaThread.iter_lines := lines;
              OllamaThread.iter_lines_raises := None;
              OllamaThread.text := EmptyString;
              OllamaThread.json_body := Raised malformed |}.

(** A complete answer to a request that does not stream. *)
Definition example_post_body (body : list (string * json))
    (url : string) (payload : list (string * json)) (stream : bool)
  : outcome OllamaThread.Response :=
  Returned {| OllamaThread.status_code := 200;
              OllamaThread.iter_lines := [];
              OllamaThread.iter_lines_raises := None;
              OllamaThread.text := EmptyString;
              OllamaThread.json_body := Returned (JObj body) |}.

(** A window with a model selected and streaming switched off. *)
Definition plain_window : OllamaChatGUI.t :=
  OllamaChatGUI.set_current_model "llama2:13b" fresh_window.

(** The characters the formatter removes from an identifier. *)
Definition is_separator (c : ascii) : bool :=
  Ascii.eqb c "/" || Ascii.eqb c ":" || Ascii.eqb c "-" || Ascii.eqb c "_".

(** A text free of separators. *)
Fixpoint no_separator (s : string) : bool :=
  match s with
  | EmptyString => true
  | String c s' => negb (is_separator c) && no_separator s'
  end.

(** Ascending order of keys, as [sorted] leaves a list. *)
Definition key_le {A : Type} (key : A -> string) (a b : A) : Prop :=
  String.leb (key a) (key b) = true.

(** Groups that are not empty and hold their models under the right key. *)
Definition well_grouped (d : list (string * list ModelInfo)) : Prop :=
  Forall (fun kv => snd kv <> []
                    /\ Forall (fun info => base_family info = fst kv) (snd kv)) d.

(** The user accepts the model dialog with [choice]. *)
Definition accepts (choice : OllamaChatGUI.ModelChoice) : OllamaChatGUI.Env :=
  {| OllamaChatGUI.model_dialog := Some choice;
     OllamaChatGUI.prompt_dialog := None;
     OllamaChatGUI.disk_writable := true |}.

(** Three models as a server may list them. *)
Definition example_models : list string :=
  ["mistral:latest"; "library/llama2:13b"; "llama2:7b"].





(** A configuration file whose fields have the types the program writes:
    no file, text that is not JSON, JSON that is not an object, or an object
    whose [system_prompt], when present, is a text and whose
    [use_streaming], when present, is a boolean. *)
Definition well_typed_config (file : option ConfigFile) : bool :=
  match file with
  | Some (JsonText (JObj d)) =>
      match lookup "system_prompt" d with
      | None | Some (JStr _) => true
      | Some _ => false
      end
      && match lookup "use_streaming" d with
         | None | Some (JBool _) => true
         | Some _ => false
         end
  | _ => true
  end.


(* ===================================================================== *)
(** * Properties of the string functions *)
(* ===================================================================== *)

Lemma truthy_false (s : string) : PyStr.truthy s = false <-> s = EmptyString.
Proof. destruct s; simpl; split; congruence. Qed.

Lemma truthy_true (s : string) : PyStr.truthy s = true <-> s <> EmptyString.
Proof. destruct s; simpl; split; congruence. Qed.

Lemma truthy_app (a b : string) :
  PyStr.truthy (a ++ b) = PyStr.truthy a || PyStr.truthy b.
Proof. destruct a; reflexivity. Qed.

Lemma append_nil_r (s : string) : s ++ EmptyString = s.
Proof. induction s; simpl; congruence. Qed.

Lemma append_assoc (a b c : string) : (a ++ b) ++ c = a ++ (b ++ c).
Proof. induction a; simpl; congruence. Qed.

Lemma append_snoc (w : string) (c : ascii) (s : string) :
  (w ++ String c EmptyString) ++ s = w ++ String c s.
Proof. rewrite append_assoc. reflexivity. Qed.

(** ** Slices *)

Lemma drop_nil (n : nat) : PyStr.drop n EmptyString = EmptyString.
Proof. destruct n; reflexivity. Qed.

Lemma take_drop (n : nat) (s : string) : PyStr.take n s ++ PyStr.drop n s = s.
Proof.
  revert s. induction n as [|n IH]; intros [|c s]; cbn; try reflexivity.
  rewrite IH. reflexivity.
Qed.

Lemma length_drop (n : nat) (s : string) :
  String.length (PyStr.drop n s) <= String.length s.
Proof.
  revert s. induction n as [|n IH]; intros [|c s]; cbn; try lia.
  specialize (IH s). lia.
Qed.

Lemma length_take (n : nat) (s : string) :
  n <= String.length s -> String.length (PyStr.take n s) = n.
Proof.
  revert s. induction n as [|n IH]; intros [|c s]; cbn; intros H; try lia.
  rewrite IH; lia.
Qed.

Lemma drop_app_length (a b : string) : PyStr.drop (String.length a) (a ++ b) = b.
Proof. induction a as [|c a IH]; cbn; [destruct b; reflexivity | exact IH]. Qed.

(** ** White-space characters *)

Lemma space2_lead (c1 c2 : ascii) : PyStr.space2 c1 c2 = true -> space_lead c1 = true.
Proof.
  unfold PyStr.space2, space_lead. intros H. apply andb_prop in H.
  destruct H as [-> _]. rewrite !orb_true_r. reflexivity.
Qed.

Lemma space3_lead (c1 c2 c3 : ascii) :
  PyStr.space3 c1 c2 c3 = true -> space_lead c1 = true.
Proof.
  unfold PyStr.space3, space_lead. intros H.
  destruct (PyStr.byte_is 225 c1), (PyStr.byte_is 226 c1), (PyStr.byte_is 227 c1);
    rewrite ?orb_true_r; try reflexivity.
  cbn in H. discriminate H.
Qed.

Lemma space_len_lead (c : ascii) (s : string) :
  space_lead c = false -> PyStr.space_len (String c s) = 0.
Proof.
  intros H. cbn [PyStr.space_len].
  destruct (PyStr.ascii_space c) eqn:E1.
  { unfold space_lead in H. rewrite E1 in H. discriminate H. }
  destruct s as [|c2 s]; [reflexivity|].
  destruct (PyStr.space2 c c2) eqn:E2.
  { apply space2_lead in E2. congruence. }
  destruct s as [|c3 s]; [reflexivity|].
  destruct (PyStr.space3 c c2 c3) eqn:E3; [|reflexivity].
  apply space3_lead in E3. congruence.
Qed.

(** The bytes after the first one of a white-space character start none. *)
Lemma continuation_not_lead (c : ascii) :
  PyStr.in_range 128 175 c = true -> space_lead c = false.
Proof. destruct c as [[] [] [] [] [] [] [] []]; vm_compute; congruence. Qed.

Lemma space2_tail (c1 c2 : ascii) : PyStr.space2 c1 c2 = true -> space_lead c2 = false.
Proof.
  unfold PyStr.space2. intros H. apply andb_prop in H. destruct H as [_ H].
  apply continuation_not_lead. clear c1. revert H.
  destruct c2 as [[] [] [] [] [] [] [] []]; vm_compute; congruence.
Qed.

Lemma space3_tail (c1 c2 c3 : ascii) :
  PyStr.space3 c1 c2 c3 = true -> space_lead c2 = false /\ space_lead c3 = false.
Proof.
  unfold PyStr.space3. intros H.
  assert (H2 : PyStr.byte_is 154 c2 || PyStr.byte_is 128 c2 || PyStr.byte_is 129 c2 = true).
  { destruct (PyStr.byte_is 154 c2), (PyStr.byte_is 128 c2), (PyStr.byte_is 129 c2);
      try reflexivity.
    destruct (PyStr.byte_is 225 c1), (PyStr.byte_is 226 c1), (PyStr.byte_is 227 c1);
      cbn in H; discriminate H. }
  assert (H3 : PyStr.byte_is 128 c3 || PyStr.in_range 128 138 c3
               || PyStr.in_range 168 169 c3 || PyStr.byte_is 175 c3
               || PyStr.byte_is 159 c3 = true).
  { destruct (PyStr.byte_is 128 c3), (PyStr.in_range 128 138 c3),
      (PyStr.in_range 168 169 c3), (PyStr.byte_is 175 c3), (PyStr.byte_is 159 c3);
      try reflexivity.
    destruct (PyStr.byte_is 225 c1), (PyStr.byte_is 226 c1), (PyStr.byte_is 227 c1),
      (PyStr.byte_is 154 c2), (PyStr.byte_is 128 c2), (PyStr.byte_is 129 c2);
      cbn in H; discriminate H. }
  clear H. split; apply continuation_not_lead.
  - clear H3 c1 c3. revert H2.
    destruct c2 as [[] [] [] [] [] [] [] []]; vm_compute; congruence.
  - clear H2 c1 c2. revert H3.
    destruct c3 as [[] [] [] [] [] [] [] []]; vm_compute; congruence.
Qed.

Lemma space_len_cases (s : string) :
  PyStr.space_len s = 0
  \/ (exists c1 r, s = String c1 r /\ PyStr.ascii_space c1 = true
                   /\ PyStr.space_len s = 1)
  \/ (exists c1 c2 r, s = String c1 (String c2 r) /\ PyStr.ascii_space c1 = false
                      /\ PyStr.space2 c1 c2 = true /\ PyStr.space_len s = 2)
  \/ (exists c1 c2 c3 r, s = String c1 (String c2 (String c3 r))
                         /\ PyStr.ascii_space c1 = false
                         /\ PyStr.space2 c1 c2 = false
                         /\ PyStr.space3 c1 c2 c3 = true /\ PyStr.space_len s = 3).
Proof.
  destruct s as [|c1 s]; [left; reflexivity|].
  cbn [PyStr.space_len]. destruct (PyStr.ascii_space c1) eqn:E1.
  { right; left. exists c1, s. auto. }
  destruct s as [|c2 s]; [left; reflexivity|].
  destruct (PyStr.space2 c1 c2) eqn:E2.
  { right; right; left. exists c1, c2, s. auto. }
  destruct s as [|c3 s]; [left; reflexivity|].
  destruct (PyStr.space3 c1 c2 c3) eqn:E3; [|left; reflexivity].
  right; right; right. exists c1, c2, c3, s. auto.
Qed.

Lemma space_len_le (s : string) : PyStr.space_len s <= String.length s.
Proof.
  destruct (space_len_cases s) as
    [H | [(c1 & r & ? & E1 & H)
         | [(c1 & c2 & r & ? & E1 & E2 & H)
           | (c1 & c2 & c3 & r & ? & E1 & E2 & E3 & H)]]];
    subst; rewrite H; cbn [String.length]; lia.
Qed.

(** A white-space character is seen whatever follows it. *)
Lemma space_len_app (a b : string) (k : nat) :
  PyStr.space_len a = S k -> PyStr.space_len (a ++ b) = S k.
Proof.
  intros Hk.
  destruct (space_len_cases a) as
    [H | [(c1 & r & ? & E1 & H)
         | [(c1 & c2 & r & ? & E1 & E2 & H)
           | (c1 & c2 & c3 & r & ? & E1 & E2 & E3 & H)]]];
    subst; rewrite H in Hk; try discriminate Hk;
    rewrite <- Hk; cbn [String.append PyStr.space_len];
    rewrite ?E1, ?E2, ?E3; reflexivity.
Qed.

Lemma space_len_prefix (a b : string) :
  PyStr.space_len (a ++ b) = 0 -> PyStr.space_len a = 0.
Proof.
  intros H. destruct (PyStr.space_len a) eqn:E; [reflexivity|].
  rewrite (@space_len_app a b _ E) in H. discriminate H.
Qed.

Lemma space_len_take (s : string) (k : nat) :
  PyStr.space_len s = S k -> PyStr.space_len (PyStr.take (S k) s) = S k.
Proof.
  intros Hk.
  destruct (space_len_cases s) as
    [H | [(c1 & r & ? & E1 & H)
         | [(c1 & c2 & r & ? & E1 & E2 & H)
           | (c1 & c2 & c3 & r & ? & E1 & E2 & E3 & H)]]];
    subst; rewrite H in Hk; try discriminate Hk;
    injection Hk as <-; cbn [PyStr.take PyStr.space_len];
    rewrite ?E1, ?E2, ?E3; reflexivity.
Qed.

(** No white-space character starts inside another one. *)
Lemma space_len_inside (s : string) (k j : nat) :
  PyStr.space_len s = S k -> 0 < j -> j <= k ->
  PyStr.space_len (PyStr.drop j s) = 0.
Proof.
  intros Hk Hj Hjk.
  destruct (space_len_cases s) as
    [H | [(c1 & r & ? & E1 & H)
         | [(c1 & c2 & r & ? & E1 & E2 & H)
           | (c1 & c2 & c3 & r & ? & E1 & E2 & E3 & H)]]];
    subst; rewrite H in Hk; try discriminate Hk;
    injection Hk as <-; try lia.
  - assert (j = 1) as -> by lia. cbn [PyStr.drop].
    apply space_len_lead. exact (@space2_tail _ _ E2).
  - destruct (@space3_tail _ _ _ E3) as [T2 T3].
    assert (j = 1 \/ j = 2) as [-> | ->] by lia; cbn [PyStr.drop];
      apply space_len_lead; assumption.
Qed.

(** A one-byte character after a text adds no white space to the text. *)
Lemma ascii_not_continuation (d : ascii) :
  PyStr.in_range 0 127 d = true -> PyStr.in_range 128 175 d = false.
Proof. destruct d as [[] [] [] [] [] [] [] []]; vm_compute; congruence. Qed.

Lemma byte_is_in_range (n : nat) (d : ascii) :
  PyStr.in_range 128 175 d = false -> 128 <= n -> n <= 175 ->
  PyStr.byte_is n d = false.
Proof.
  unfold PyStr.in_range, PyStr.byte_is. cbv zeta. intros H Hlo Hhi.
  apply Nat.eqb_neq. intros Heq. rewrite Heq in H.
  apply andb_false_iff in H. destruct H as [H | H]; apply Nat.leb_gt in H; lia.
Qed.

Lemma in_range_sub (lo hi : nat) (d : ascii) :
  PyStr.in_range 128 175 d = false -> 128 <= lo -> hi <= 175 ->
  PyStr.in_range lo hi d = false.
Proof.
  unfold PyStr.in_range. cbv zeta. intros H Hlo Hhi.
  apply andb_false_iff in H. apply andb_false_iff.
  destruct H as [H | H]; apply Nat.leb_gt in H; [left | right];
    apply Nat.leb_gt; lia.
Qed.

Lemma space_len_then_ascii (c : ascii) (a : string) (d : ascii) (s : string) :
  PyStr.space_len (String c a) = 0 -> PyStr.in_range 0 127 d = true ->
  PyStr.space_len (String c a ++ String d s) = 0.
Proof.
  intros H Hd. apply ascii_not_continuation in Hd.
  assert (D2 : forall x, PyStr.space2 x d = false).
  { intros x. unfold PyStr.space2.
    rewrite !(@byte_is_in_range _ d Hd) by lia. apply andb_false_r. }
  assert (D3 : forall x y, PyStr.space3 x y d = false).
  { intros x y. unfold PyStr.space3.
    rewrite !(@byte_is_in_range _ d Hd), !(@in_range_sub _ _ d Hd) by lia.
    rewrite !andb_false_r. reflexivity. }
  assert (D23 : forall x y, PyStr.space3 x d y = false).
  { intros x y. unfold PyStr.space3.
    rewrite !(@byte_is_in_range _ d Hd) by lia.
    rewrite !andb_false_r. reflexivity. }
  revert H. cbn [String.append PyStr.space_len].
  destruct (PyStr.ascii_space c); [discriminate|].
  destruct a as [|c2 a]; cbn [String.append].
  - intros _. rewrite D2. destruct s as [|c3 s]; [reflexivity|]. rewrite D23. reflexivity.
  - destruct (PyStr.space2 c c2); [discriminate|].
    destruct a as [|c3 a]; cbn [String.append].
    + intros _. rewrite D3. reflexivity.
    + auto.
Qed.

(** ** Scanning a text character by character *)

Lemma scan_ind (P : string -> Prop) :
  P EmptyString ->
  (forall s k, PyStr.space_len s = S k -> P (PyStr.drop (S k) s) -> P s) ->
  (forall c s, PyStr.space_len (String c s) = 0 -> P s -> P (String c s)) ->
  forall s, P s.
Proof.
  intros Hnil Hspace Hword.
  assert (H : forall n s, String.length s <= n -> P s).
  { induction n as [|n IH]; intros [|c s] Hlen; cbn in Hlen; try exact Hnil; [lia|].
    destruct (PyStr.space_len (String c s)) as [|k] eqn:E.
    - apply Hword; [exact E | apply IH; lia].
    - apply (Hspace _ k E). apply IH. cbn [PyStr.drop].
      pose proof (length_drop k s). lia. }
  intros s. apply (H (String.length s)). lia.
Qed.

Lemma lstrip_from_drop (s : string) (k : nat) :
  PyStr.lstrip_from k s = PyStr.lstrip (PyStr.drop k s).
Proof.
  revert k. induction s as [|c s IH]; intros [|k]; try reflexivity.
  cbn [PyStr.lstrip_from PyStr.drop]. apply IH.
Qed.

Lemma lstrip_space (s : string) (k : nat) :
  PyStr.space_len s = S k -> PyStr.lstrip s = PyStr.lstrip (PyStr.drop (S k) s).
Proof.
  destruct s as [|c s]; [discriminate|]. intros E.
  unfold PyStr.lstrip at 1. cbn [PyStr.lstrip_from PyStr.drop]. rewrite E.
  apply lstrip_from_drop.
Qed.

Lemma lstrip_word (c : ascii) (s : string) :
  PyStr.space_len (String c s) = 0 -> PyStr.lstrip (String c s) = String c s.
Proof. intros E. unfold PyStr.lstrip. cbn [PyStr.lstrip_from]. rewrite E. reflexivity. Qed.

Lemma rstrip_from_drop (s : string) (k : nat) :
  PyStr.rstrip_from k s = PyStr.take k s ++ PyStr.rstrip (PyStr.drop k s).
Proof.
  revert k. induction s as [|c s IH]; intros [|k]; try reflexivity.
  cbn [PyStr.rstrip_from PyStr.drop PyStr.take String.append]. rewrite IH. reflexivity.
Qed.

Lemma rstrip_space (s : string) (k : nat) :
  PyStr.space_len s = S k ->
  PyStr.rstrip s = if PyStr.truthy (PyStr.lstrip s)
                   then PyStr.take (S k) s ++ PyStr.rstrip (PyStr.drop (S k) s)
                   else EmptyString.
Proof.
  destruct s as [|c s]; [discriminate|]. intros E.
  unfold PyStr.rstrip at 1. cbn [PyStr.rstrip_from PyStr.drop PyStr.take]. rewrite E.
  rewrite rstrip_from_drop. reflexivity.
Qed.

Lemma rstrip_word (c : ascii) (s : string) :
  PyStr.space_len (String c s) = 0 ->
  PyStr.rstrip (String c s) = String c (PyStr.rstrip s).
Proof. intros E. unfold PyStr.rstrip. cbn [PyStr.rstrip_from]. rewrite E. reflexivity. Qed.

Lemma split_from_drop (s w : string) (k : nat) :
  PyStr.split_from w k s = PyStr.split_from w 0 (PyStr.drop k s).
Proof.
  revert k. induction s as [|c s IH]; intros [|k]; try reflexivity.
  cbn [PyStr.split_from PyStr.drop]. apply IH.
Qed.

Lemma split_space (s w : string) (k : nat) :
  PyStr.space_len s = S k ->
  PyStr.split_from w 0 s
  = PyStr.emit w (PyStr.split_from EmptyString 0 (PyStr.drop (S k) s)).
Proof.
  destruct s as [|c s]; [discriminate|]. intros E.
  cbn [PyStr.split_from PyStr.drop]. rewrite E. rewrite split_from_drop. reflexivity.
Qed.

Lemma split_word (c : ascii) (s w : string) :
  PyStr.space_len (String c s) = 0 ->
  PyStr.split_from w 0 (String c s) = PyStr.split_from (w ++ String c EmptyString) 0 s.
Proof. intros E. cbn [PyStr.split_from]. rewrite E. reflexivity. Qed.

(** The text [rstrip] removes. *)
Lemma rstrip_prefix (s : string) : exists b, s = PyStr.rstrip s ++ b.
Proof.
  induction s as [| s k E IH | c s E IH] using scan_ind.
  - exists EmptyString. reflexivity.
  - rewrite (@rstrip_space s _ E). destruct (PyStr.truthy (PyStr.lstrip s)).
    + destruct IH as [b IH]. exists b.
      rewrite append_assoc, <- IH. symmetry. apply take_drop.
    + exists s. reflexivity.
  - rewrite (@rstrip_word _ _ E). destruct IH as [b IH]. exists b.
    cbn [String.append]. rewrite <- IH. reflexivity.
Qed.

(** ** Words *)

Lemma clear_before_snoc (w : string) (c : ascii) (s : string) :
  clear_before w (String c s) = true -> PyStr.space_len (String c s) = 0 ->
  clear_before (w ++ String c EmptyString) s = true.
Proof.
  intros Hw Hc. induction w as [|d w IH]; cbn [clear_before String.append] in *.
  - rewrite Hc. reflexivity.
  - apply andb_prop in Hw. destruct Hw as [Hd Hw].
    rewrite append_snoc, Hd. exact (IH Hw).
Qed.

Lemma clear_before_no_space (w s : string) :
  clear_before w s = true -> no_space w = true.
Proof.
  induction w as [|d w IH]; cbn [clear_before no_space]; [reflexivity|].
  intros H. apply andb_prop in H. destruct H as [Hd Hw].
  apply Nat.eqb_eq in Hd. change (String d w ++ s) with (String d w ++ s) in Hd.
  rewrite (@space_len_prefix (String d w) s Hd). exact (IH Hw).
Qed.

(** Once a word has been started, [split] returns at least that word. *)
Lemma split_from_started (s w : string) :
  PyStr.truthy w = true -> PyStr.split_from w 0 s <> [].
Proof.
  revert w. induction s as [| s k E IH | c s E IH] using scan_ind; intros w Hw.
  - cbn. unfold PyStr.emit. rewrite Hw. discriminate.
  - rewrite (@split_space s w _ E). unfold PyStr.emit. rewrite Hw. discriminate.
  - rewrite (@split_word _ _ w E). apply IH. rewrite truthy_app, Hw. reflexivity.
Qed.

(** Every element of the result of [split] is a token. *)
Lemma split_from_tokens (s w : string) :
  clear_before w s = true -> Forall token (PyStr.split_from w 0 s).
Proof.
  revert w. induction s as [| s k E IH | c s E IH] using scan_ind; intros w Hw.
  - cbn. unfold PyStr.emit. destruct (PyStr.truthy w) eqn:Ht; constructor;
      [split; [exact Ht | exact (@clear_before_no_space _ _ Hw)] | constructor].
  - rewrite (@split_space s w _ E). unfold PyStr.emit.
    destruct (PyStr.truthy w) eqn:Ht.
    + constructor; [split; [exact Ht | exact (@clear_before_no_space _ _ Hw)]|].
      apply IH. reflexivity.
    + apply IH. reflexivity.
  - rewrite (@split_word _ _ w E). apply IH. apply clear_before_snoc; assumption.
Qed.

Lemma split_tokens (s : string) : Forall token (PyStr.split s).
Proof. apply split_from_tokens. reflexivity. Qed.

(** A text without white space is one word. *)
Lemma split_from_no_space (s w : string) :
  no_space s = true ->
  PyStr.split_from w 0 s = PyStr.emit (w ++ s) [].
Proof.
  revert w. induction s as [|c s IH]; intros w Hs.
  - rewrite append_nil_r. reflexivity.
  - cbn [no_space] in Hs. apply andb_prop in Hs. destruct Hs as [Hc Hs].
    apply Nat.eqb_eq in Hc. rewrite (@split_word _ _ w Hc).
    rewrite (IH _ Hs), append_snoc. reflexivity.
Qed.

Lemma split_token (s : string) : token s -> PyStr.split s = [s].
Proof.
  intros [Ht Hs]. unfold PyStr.split.
  rewrite split_from_no_space by assumption. cbn [String.append].
  unfold PyStr.emit. rewrite Ht. reflexivity.
Qed.

(** Stripping does not change the words. *)
Lemma split_lstrip (s : string) : PyStr.split (PyStr.lstrip s) = PyStr.split s.
Proof.
  unfold PyStr.split. induction s as [| s k E IH | c s E IH] using scan_ind.
  - reflexivity.
  - rewrite (@lstrip_space s _ E), IH, (@split_space s EmptyString _ E). reflexivity.
  - rewrite (@lstrip_word _ _ E). reflexivity.
Qed.

Lemma split_blank (s : string) : PyStr.lstrip s = EmptyString -> PyStr.split s = [].
Proof. intros H. rewrite <- split_lstrip, H. reflexivity. Qed.

Lemma split_from_rstrip (s w : string) :
  PyStr.split_from w 0 (PyStr.rstrip s) = PyStr.split_from w 0 s.
Proof.
  revert w. induction s as [| s k E IH | c s E IH] using scan_ind; intros w.
  - reflexivity.
  - rewrite (@rstrip_space s _ E), (@split_space s w _ E).
    destruct (PyStr.truthy (PyStr.lstrip s)) eqn:Hb.
    + pose proof (space_len_le s) as Hle. rewrite E in Hle.
      rewrite (@split_space _ w _ (@space_len_app _ _ _ (@space_len_take s _ E))).
      rewrite <- (@length_take (S k) s Hle) at 1. rewrite drop_app_length.
      rewrite IH. reflexivity.
    + apply truthy_false in Hb. rewrite (@lstrip_space s _ E) in Hb.
      apply split_blank in Hb. unfold PyStr.split in Hb. rewrite Hb. reflexivity.
  - rewrite (@rstrip_word _ _ E).
    destruct (rstrip_prefix s) as [b Hb].
    assert (E' : PyStr.space_len (String c (PyStr.rstrip s)) = 0).
    { apply (@space_len_prefix (String c (PyStr.rstrip s)) b).
      cbn [String.append]. rewrite <- Hb. exact E. }
    rewrite (@split_word _ _ w E'), (@split_word _ _ w E). apply IH.
Qed.

Lemma split_strip (s : string) : PyStr.split (PyStr.strip s) = PyStr.split s.
Proof.
  unfold PyStr.strip, PyStr.split. rewrite split_from_rstrip. apply split_lstrip.
Qed.

(** What is left after [lstrip] starts with no white space. *)
Lemma lstrip_head (s : string) :
  match PyStr.lstrip s with
  | EmptyString => True
  | String c r => PyStr.space_len (String c r) = 0
  end.
Proof.
  induction s as [| s k E IH | c s E IH] using scan_ind.
  - exact I.
  - rewrite (@lstrip_space s _ E). exact IH.
  - rewrite (@lstrip_word _ _ E). exact E.
Qed.

(** A text that is not empty after stripping has a first word. *)
Lemma strip_split_nonempty (s : string) :
  PyStr.truthy (PyStr.strip s) = true -> PyStr.split (PyStr.strip s) <> [].
Proof.
  intros H. rewrite split_strip, <- split_lstrip.
  unfold PyStr.strip in H. pose proof (lstrip_head s) as Hh.
  destruct (PyStr.lstrip s) as [|c r]; [discriminate H|].
  unfold PyStr.split. rewrite (@split_word _ _ EmptyString Hh).
  apply split_from_started. reflexivity.
Qed.

(** White space only: nothing is left after stripping. *)
Lemma strip_blank (s : string) :
  PyStr.split s = [] <-> PyStr.strip s = EmptyString.
Proof.
  split; intros H.
  - apply truthy_false. destruct (PyStr.truthy (PyStr.strip s)) eqn:E; [|reflexivity].
    apply strip_split_nonempty in E. rewrite split_strip in E. contradiction.
  - rewrite <- split_strip, H. reflexivity.
Qed.

(* ===================================================================== *)
(** * Properties of the command handler and of [send_message] *)
(* ===================================================================== *)

Lemma find_command_names (tok : string) :
  SlashCommandHandler.find_command tok SlashCommandHandler.commands <> None
  <-> In tok command_names.
Proof.
  unfold SlashCommandHandler.commands, command_names. simpl.
  destruct (String.eqb_spec tok "/clear") as [->|H1]; [intuition congruence|].
  destruct (String.eqb_spec tok "/models") as [->|H2]; [intuition congruence|].
  destruct (String.eqb_spec tok "/system") as [->|H3]; [intuition congruence|].
  destruct (String.eqb_spec tok "/bye") as [->|H4]; [intuition congruence|].
  intuition congruence.
Qed.

Lemma find_command_unknown (tok : string) :
  ~ In tok command_names ->
  SlashCommandHandler.find_command tok SlashCommandHandler.commands = None.
Proof.
  intros H.
  destruct (SlashCommandHandler.find_command tok SlashCommandHandler.commands) eqn:E;
    [|reflexivity].
  exfalso. apply H. apply find_command_names. rewrite E. discriminate.
Qed.

(** Every action of the table returns normally. *)
Lemma actions_return (env : Env) (name : string) (c : SlashCommandHandler.Command)
    (self : t) :
  SlashCommandHandler.find_command name SlashCommandHandler.commands = Some c ->
  exists self', SlashCommandHandler.action c env self = (Returned tt, self').
Proof.
  unfold SlashCommandHandler.commands. simpl.
  repeat match goal with
         | |- context [String.eqb ?a ?b] => destruct (String.eqb a b)
         end; intros H; inversion H; subst; simpl.
  - eexists. reflexivity.
  - unfold SlashCommandHandler.open_models, show_model_dialog.
    destruct (model_dialog env); eexists; reflexivity.
  - unfold SlashCommandHandler.open_system_prompt, show_system_prompt_dialog.
    destruct (prompt_dialog env); [|eexists; reflexivity].
    unfold SystemPromptDialog.save_prompt, bind.
    destruct (disk_writable env); eexists; reflexivity.
  - eexists. reflexivity.
Qed.

(** Running a method whose first step is known. *)
Lemma bind_returned {A B} (m : M A) (k : A -> M B) (self self' : t) (a : A) :
  m self = (Returned a, self') -> bind m k self = k a self'.
Proof. intros H. unfold bind. rewrite H. reflexivity. Qed.

Lemma bind_raised {A B} (m : M A) (k : A -> M B) (self self' : t) (e : exn) :
  m self = (Raised e, self') -> bind m k self = (Raised e, self').
Proof. intros H. unfold bind. rewrite H. reflexivity. Qed.

Lemma try_returned {A} (m : M A) (h : exn -> M A) (self self' : t) (a : A) :
  m self = (Returned a, self') -> try_except m h self = (Returned a, self').
Proof. intros H. unfold try_except. rewrite H. reflexivity. Qed.

Lemma send_message_sends (env : Env) (self : t) (message : string) :
  PyStr.strip (message_input self) = message ->
  PyStr.truthy message = true ->
  (PyStr.startswith "/" message = false \/
   exists tok rest, PyStr.split message = tok :: rest /\ ~ In tok command_names) ->
  no_valid_model (current_model self) = false ->
  send_message env self = (Returned tt, after_send message self).
Proof.
  intros Hm Ht Hcmd Hmodel.
  assert (Hh : (if PyStr.startswith "/" message
                then SlashCommandHandler.process_command env message
                else ret false) self = (Returned false, self)).
  { destruct Hcmd as [Hs | (tok & rest & Hsp & Hn)].
    - rewrite Hs. reflexivity.
    - destruct (PyStr.startswith "/" message); [|reflexivity].
      unfold SlashCommandHandler.process_command. rewrite Hsp.
      rewrite (find_command_unknown Hn). reflexivity. }
  unfold send_message. apply try_returned.
  unfold bind at 1, gets at 1. rewrite Hm, Ht.
  change (negb true) with false. cbv iota.
  erewrite bind_returned by exact Hh. cbv iota.
  unfold bind at 1. unfold bind at 1, gets at 1. rewrite Hmodel. unfold ret at 1.
  cbv iota. unfold after_send.
  destruct self as [h a m s u b l i t th st c n f]; simpl in *.
  destruct h, u; reflexivity.
Qed.

Lemma strip_keeps_slash (text : string) :
  PyStr.startswith "/" text = true ->
  PyStr.truthy (PyStr.strip text) = true /\
  PyStr.startswith "/" (PyStr.strip text) = true.
Proof.
  destruct text as [|c r]; [discriminate|].
  cbn [PyStr.startswith]. intros H. apply andb_prop in H. destruct H as [H _].
  apply Ascii.eqb_eq in H. subst c. unfold PyStr.strip.
  assert (E : PyStr.space_len (String "/" r) = 0)
    by (apply space_len_lead; reflexivity).
  rewrite (@lstrip_word _ _ E), (@rstrip_word _ _ E). split; reflexivity.
Qed.

Lemma payload_prompt (w : OllamaThread.t) :
  lookup "prompt" (OllamaThread.payload w) = Some (JStr (OllamaThread.prompt w)).
Proof.
  unfold OllamaThread.payload.
  destruct (PyStr.truthy _); reflexivity.
Qed.

(** C8.  [process_command] looks at the first white-space-delimited word of
    its input only and compares it exactly with the names of the table: it
    runs an action and returns [True] exactly when that word is one of
    /clear, /models, /system, /bye, and otherwise returns [False] and
    changes nothing.  When the first word is /clear, as in "/clear extra
    args", the history is emptied and the endpoint, the model, the system
    prompt and the streaming flag keep their values. *)
Theorem process_command_first_token
    (env : Env) (text tok : string) (rest : list string) (self : t) :
  PyStr.split text = tok :: rest ->
  SlashCommandHandler.process_command env text self
    = SlashCommandHandler.process_command env tok self
  /\ ((exists self',
         SlashCommandHandler.process_command env text self = (Returned true, self'))
      <-> In tok command_names)
  /\ (~ In tok command_names ->
      SlashCommandHandler.process_command env text self = (Returned false, self))
  /\ (tok = "/clear" ->
      exists self',
        SlashCommandHandler.process_command env text self = (Returned true, self')
        /\ conversation_history self' = []
        /\ same_configuration self self').
Proof.
  intros Hsplit.
  assert (Htok : token tok).
  { pose proof (split_tokens text) as H. rewrite Hsplit in H.
    inversion H; assumption. }
  unfold SlashCommandHandler.process_command.
  rewrite Hsplit, (split_token Htok).
  split; [reflexivity|]. split; [|split].
  - split.
    + intros [self' H]. apply find_command_names.
      destruct (SlashCommandHandler.find_command tok SlashCommandHandler.commands);
        [discriminate | inversion H].
    + intros Hin. apply find_command_names in Hin.
      destruct (SlashCommandHandler.find_command tok SlashCommandHandler.commands)
        as [c|] eqn:E; [|congruence].
      destruct (actions_return env tok self E) as [self' Hact].
      exists self'. erewrite bind_returned by exact Hact. reflexivity.
  - intros Hn. rewrite (find_command_unknown Hn). reflexivity.
  - intros ->. simpl. eexists. split; [reflexivity|].
    split; [reflexivity|]. repeat split.
Qed.

Lemma process_command_first_token_witness :
  (exists self',
     SlashCommandHandler.process_command dialogs_dismissed "/clear extra args"
       (after_send "hello" streaming_window) = (Returned true, self')
     /\ conversation_history self' = []
     /\ same_configuration (after_send "hello" streaming_window) self')
  /\ (exists self',
        SlashCommandHandler.process_command dialogs_dismissed
          ("/clear" ++ ideographic_space ++ "x")
          (after_send "hello" streaming_window) = (Returned true, self')
        /\ conversation_history self' = []
        /\ same_configuration (after_send "hello" streaming_window) self').
Proof.
  split.
  - destruct (@process_command_first_token dialogs_dismissed "/clear extra args"
                "/clear" ["extra"; "args"] (after_send "hello" streaming_window)
                eq_refl) as (_ & _ & _ & H).
    exact (H eq_refl).
  - destruct (@process_command_first_token dialogs_dismissed
                ("/clear" ++ ideographic_space ++ "x")
                "/clear" ["x"] (after_send "hello" streaming_window)
                eq_refl) as (_ & _ & _ & H).
    exact (H eq_refl).
Defined.

(** C10.  A text that begins with '/' and whose first word is not one of the
    four commands is sent like any other message when a model is selected:
    [process_command] fails, the stripped text is appended to the history
    as a user message, and a worker is started whose request carries the
    text as its prompt. *)
Theorem unknown_slash_text_is_sent
    (env : Env) (text tok : string) (rest : list string) (self : t) :
  PyStr.startswith "/" text = true ->
  PyStr.split text = tok :: rest ->
  ~ In tok command_names ->
  no_valid_model (current_model self) = false ->
  let message := PyStr.strip text in
  let worker := worker_for message self in
  exists self',
    submit env text self = (Returned tt, self')
    /\ conversation_history self'
       = (conversation_history self ++ [{| role := user; content := message |}])%list
    /\ thread self' = Some worker
    /\ started self' = (started self ++ [worker])%list
    /\ lookup "prompt" (OllamaThread.payload worker) = Some (JStr message).
Proof.
  intros Hslash Hsplit Hn Hmodel message worker.
  destruct (strip_keeps_slash text Hslash) as [Ht _].
  exists (after_send message (set_message_input text self)).
  split.
  - unfold submit. erewrite bind_returned by reflexivity.
    apply send_message_sends; try assumption; try reflexivity.
    right. exists tok, rest. split; [|assumption].
    unfold message. rewrite split_strip. assumption.
  - repeat split. apply payload_prompt.
Qed.

Lemma unknown_slash_text_is_sent_witness :
  exists self',
    submit dialogs_dismissed "/help me" streaming_window = (Returned tt, self')
    /\ conversation_history self' = [{| role := user; content := "/help me" |}]
    /\ thread self' = Some (worker_for "/help me" streaming_window)
    /\ started self' = [worker_for "/help me" streaming_window]
    /\ lookup "prompt" (OllamaThread.payload (worker_for "/help me" streaming_window))
       = Some (JStr "/help me").
Proof.
  refine (@unknown_slash_text_is_sent dialogs_dismissed "/help me" "/help" ["me"]
            streaming_window eq_refl eq_refl _ eq_refl).
  unfold command_names. simpl. intros H.
  repeat (destruct H as [H|H]; [discriminate H|]). exact H.
Defined.

(* ===================================================================== *)
(** * Submitting without text or without a model *)
(* ===================================================================== *)

Lemma send_message_blank (env : Env) (self : t) :
  PyStr.strip (message_input self) = EmptyString ->
  send_message env self = (Returned tt, self).
Proof.
  intros H. unfold send_message. apply try_returned.
  unfold bind, gets. rewrite H. reflexivity.
Qed.

Lemma send_message_no_model (env : Env) (self : t) :
  PyStr.truthy (PyStr.strip (message_input self)) = true ->
  PyStr.startswith "/" (PyStr.strip (message_input self)) = false ->
  no_valid_model (current_model self) = true ->
  no_valid_model (model_after_dialog env self) = true ->
  exists self',
    send_message env self = (Returned tt, self')
    /\ conversation_history self' = conversation_history self
    /\ started self' = started self
    /\ thread self' = thread self
    /\ message_input self' = message_input self
    /\ last (chat_layout self') WelcomeWidget = Bubble (notice_bubble self).
Proof.
  intros Ht Hs Hm Hd. unfold send_message, model_after_dialog in *.
  destruct self as [h a m s u b l i hd th st c n f]; simpl in *.
  unfold try_except, bind, gets. simpl. rewrite Ht, Hs. simpl. rewrite Hm.
  unfold show_model_dialog.
  destruct (model_dialog env) as [d|]; simpl; rewrite ?Hd, ?Hm; simpl;
    destruct h; simpl; eexists; (split; [reflexivity|]); simpl;
    repeat split; apply last_last.
Qed.

Lemma send_message_after_dialog (env : Env) (self : t) (message : string)
    (dialog : ModelChoice) :
  PyStr.strip (message_input self) = message ->
  PyStr.truthy message = true ->
  PyStr.startswith "/" message = false ->
  no_valid_model (current_model self) = true ->
  model_dialog env = Some dialog ->
  no_valid_model (selected_model dialog) = false ->
  send_message env self
  = (Returned tt,
     after_send message
       (set_header_title (dialog_display_name dialog)
          (set_current_model (selected_model dialog)
             (set_api_url (dialog_api_url dialog) self)))).
Proof.
  intros Hm Ht Hs Hmodel Hd Hsel.
  unfold send_message. apply try_returned.
  unfold bind at 1, gets at 1. rewrite Hm, Ht.
  change (negb true) with false. cbv iota. rewrite Hs.
  unfold bind at 1, ret at 1. cbv iota.
  unfold bind at 1. unfold bind at 1, gets at 1. rewrite Hmodel.
  unfold show_model_dialog. rewrite Hd.
  unfold bind at 1. unfold bind at 1. unfold bind at 1. unfold modify at 1.
  unfold modify at 1. unfold modify at 1.
  unfold bind at 1, gets at 1.
  change (current_model
            (set_header_title (dialog_display_name dialog)
               (set_current_model (selected_model dialog)
                  (set_api_url (dialog_api_url dialog) self))))
    with (selected_model dialog).
  rewrite Hsel. unfold ret at 1. cbv iota. unfold after_send.
  destruct self as [h a m s u b l i hd th st c n f]. cbn.
  destruct h, u; reflexivity.
Qed.

(** C6, as the code has it.  [submit] does nothing on a text that is empty
    or white space only.  On an ordinary message with no valid model
    selected it first opens the model dialog; when there is still no valid
    model after the dialog it shows the notice "Please select a valid model
    first." instead of sending, and history, input text and workers are as
    before; when the dialog has set a valid model the message is sent. *)
Theorem submit_blank_or_without_model (env : Env) (text : string) (self : t) :
  (PyStr.strip text = EmptyString ->
   submit env text self = (Returned tt, set_message_input text self))
  /\
  (PyStr.truthy (PyStr.strip text) = true ->
   PyStr.startswith "/" (PyStr.strip text) = false ->
   no_valid_model (current_model self) = true ->
   (no_valid_model (model_after_dialog env self) = true ->
    exists self',
      submit env text self = (Returned tt, self')
      /\ conversation_history self' = conversation_history self
      /\ started self' = started self
      /\ thread self' = thread self
      /\ last (chat_layout self') WelcomeWidget = Bubble (notice_bubble self))
   /\
   (no_valid_model (model_after_dialog env self) = false ->
    exists self',
      submit env text self = (Returned tt, self')
      /\ conversation_history self'
         = (conversation_history self
            ++ [{| role := user; content := PyStr.strip text |}])%list
      /\ current_model self' = model_after_dialog env self
      /\ exists worker,
           started self' = (started self ++ [worker])%list
           /\ OllamaThread.prompt worker = PyStr.strip text
           /\ OllamaThread.model worker = model_after_dialog env self)).
Proof.
  split.
  - intros H. unfold submit. erewrite bind_returned by reflexivity.
    apply send_message_blank. exact H.
  - intros Ht Hs Hm. split; intros Hd.
    + destruct (@send_message_no_model env (set_message_input text self))
        as (self' & Hrun & Hh & Hst & Hth & _ & Hl); try assumption.
      exists self'. unfold submit. erewrite bind_returned by reflexivity.
      repeat split; assumption.
    + unfold model_after_dialog in *.
      destruct (model_dialog env) as [dialog|] eqn:Hdialog; [|congruence].
      eexists. split.
      * unfold submit. erewrite bind_returned by reflexivity.
        apply (@send_message_after_dialog env (set_message_input text self)
                 (PyStr.strip text) dialog); try assumption; reflexivity.
      * split; [reflexivity|]. split; [reflexivity|].
        eexists. split; [reflexivity|]. split; reflexivity.
Qed.

Lemma submit_blank_or_without_model_witness :
  submit dialogs_dismissed "   " fresh_window
    = (Returned tt, set_message_input "   " fresh_window)
  /\ submit dialogs_dismissed (" " ++ ideographic_space) fresh_window
     = (Returned tt, set_message_input (" " ++ ideographic_space) fresh_window)
  /\ (exists self',
        submit dialogs_dismissed "hello" fresh_window = (Returned tt, self')
        /\ conversation_history self' = []
        /\ started self' = []
        /\ thread self' = None
        /\ last (chat_layout self') WelcomeWidget
           = Bubble (notice_bubble fresh_window))
  /\ (exists self',
        submit (picks_model "llama2:13b") "hello" fresh_window = (Returned tt, self')
        /\ conversation_history self' = [{| role := user; content := "hello" |}]
        /\ current_model self' = "llama2:13b"
        /\ exists worker,
             started self' = [worker]
             /\ OllamaThread.prompt worker = "hello"
             /\ OllamaThread.model worker = "llama2:13b").
Proof.
  split; [|split; [|split]].
  - exact (proj1 (submit_blank_or_without_model dialogs_dismissed "   " fresh_window)
             eq_refl).
  - exact (proj1 (submit_blank_or_without_model dialogs_dismissed
                    (" " ++ ideographic_space) fresh_window)
             eq_refl).
  - exact (proj1 (proj2 (submit_blank_or_without_model dialogs_dismissed "hello"
                           fresh_window) eq_refl eq_refl eq_refl) eq_refl).
  - exact (proj2 (proj2 (submit_blank_or_without_model (picks_model "llama2:13b")
                           "hello" fresh_window) eq_refl eq_refl eq_refl) eq_refl).
Defined.

(** C6 does not hold as stated: a message submitted while no model is
    selected is sent, and recorded in the history, when the user picks a
    model in the dialog that [send_message] opens. *)
Lemma submit_without_model_can_send :
  current_model fresh_window = EmptyString
  /\ conversation_history
       (exec (submit (picks_model "llama2:13b") "hello") fresh_window)
     = [{| role := user; content := "hello" |}]
  /\ conversation_history
       (exec (submit (picks_model "llama2:13b") "hello") fresh_window)
     <> conversation_history fresh_window
  /\ started (exec (submit (picks_model "llama2:13b") "hello") fresh_window)
     = [worker_for "hello" (set_current_model "llama2:13b" fresh_window)].
Proof.
  repeat split. discriminate.
Qed.

(* ===================================================================== *)
(** * Streaming chunks, final results and errors *)
(* ===================================================================== *)

Lemma rev_snoc {A} (l : list A) (x : A) : rev (l ++ [x])%list = x :: rev l.
Proof. apply rev_unit. Qed.

Lemma indexOf_present (b : ChatBubble) (before after : list Widget) :
  is_some (indexOf b (before ++ Bubble b :: after)%list) = true.
Proof.
  induction before as [|w before IH]; cbn [indexOf app].
  - unfold same_widget. rewrite Nat.eqb_refl. reflexivity.
  - destruct (same_widget b w); [reflexivity|].
    destruct (indexOf b (before ++ Bubble b :: after)%list);
      [reflexivity | discriminate IH].
Qed.

Lemma bubble_shown_pointer (self : t) :
  bubble_shown self = true -> current_streaming_bubble self <> None.
Proof.
  unfold bubble_shown. destruct (current_streaming_bubble self); congruence.
Qed.

(** The first chunk opens a message. *)
Lemma chunk_opens (chunk : string) (self : t) :
  current_streaming_bubble self = None ->
  exists self',
    handle_streaming_chunk chunk self = (Returned tt, self')
    /\ conversation_history self'
       = (conversation_history self
          ++ [{| role := assistant; content := chunk |}])%list
    /\ bubble_shown self' = true
    /\ use_streaming self' = use_streaming self.
Proof.
  intros H. unfold handle_streaming_chunk, bind, gets. rewrite H.
  eexists. split; [reflexivity|]. split; [reflexivity|]. split; [|reflexivity].
  unfold bubble_shown. cbn. apply indexOf_present.
Qed.


(** A later chunk is appended to the last entry of the history, and the
    bubble in the layout is replaced by a new one. *)
Lemma chunk_appends (chunk : string) (self : t) (h : list Message) (m : Message) :
  bubble_shown self = true ->
  conversation_history self = (h ++ [m])%list ->
  exists self',
    handle_streaming_chunk chunk self = (Returned tt, self')
    /\ conversation_history self'
       = (h ++ [{| role := role m; content := content m ++ chunk |}])%list
    /\ bubble_shown self' = true
    /\ use_streaming self' = use_streaming self.
Proof.
  intros Hb Hh. unfold bubble_shown in Hb.
  destruct self as [hist a mo s u b l i hd th st c n f]; simpl in *.
  destruct b as [b|]; [|discriminate Hb]. subst hist.
  unfold handle_streaming_chunk, update_streaming_bubble, last_message,
    set_last_content, bind, gets. simpl.
  rewrite rev_snoc. simpl. rewrite rev_snoc. simpl. rewrite rev_involutive.
  destruct (indexOf b l) as [k|]; [|discriminate Hb]. simpl.
  eexists. split; [reflexivity|]. split; [reflexivity|]. split; [|reflexivity].
  unfold bubble_shown, replace_widget. cbn. apply indexOf_present.
Qed.

(** With an accumulation open and an empty history the slot raises. *)
Lemma chunk_on_cleared_history (chunk : string) (self : t) :
  current_streaming_bubble self <> None ->
  conversation_history self = [] ->
  handle_streaming_chunk chunk self = (Raised IndexError, self).
Proof.
  intros Hb Hh.
  destruct self as [hist a mo s u b l i hd th st c n f]; simpl in *.
  destruct b as [b|]; [|congruence]. subst hist. reflexivity.
Qed.

(** The final result of a stream closes the accumulation. *)
Lemma response_closes (response : string) (self : t) :
  use_streaming self = true ->
  current_streaming_bubble self <> None ->
  handle_response response self
  = (Returned tt, set_current_streaming_bubble None self).
Proof.
  intros Hu Hb. unfold handle_response, try_except, bind, gets.
  rewrite Hu. destruct (current_streaming_bubble self); [reflexivity|congruence].
Qed.

(** C3.  The chunks "Hel", "lo", " world" followed by the final result: the
    first chunk appends one assistant message and opens the accumulation,
    the next two extend that message, the final result changes no content
    and clears the pointer.  The history ends with the one assistant
    message "Hello world" and is one entry longer than before. *)
Theorem streaming_accumulates_one_message (worker : OllamaThread.t) (self : t) :
  OllamaThread.use_streaming worker = true ->
  use_streaming self = true ->
  current_streaming_bubble self = None ->
  let h := conversation_history self in
  let said (text : string) := {| role := assistant; content := text |} in
  exists s1 s2 s3 s4,
    deliver worker (streaming_chunk_received "Hel") self = (Returned tt, s1)
    /\ conversation_history s1 = (h ++ [said "Hel"])%list
    /\ current_streaming_bubble s1 <> None
    /\ deliver worker (streaming_chunk_received "lo") s1 = (Returned tt, s2)
    /\ conversation_history s2 = (h ++ [said "Hello"])%list
    /\ current_streaming_bubble s2 <> None
    /\ deliver worker (streaming_chunk_received " world") s2 = (Returned tt, s3)
    /\ conversation_history s3 = (h ++ [said "Hello world"])%list
    /\ current_streaming_bubble s3 <> None
    /\ deliver worker (response_received "Hello world") s3 = (Returned tt, s4)
    /\ conversation_history s4 = (h ++ [said "Hello world"])%list
    /\ current_streaming_bubble s4 = None
    /\ List.length (conversation_history s4) = S (List.length h)
    /\ deliver_all worker
         [streaming_chunk_received "Hel"; streaming_chunk_received "lo";
          streaming_chunk_received " world"; response_received "Hello world"]
         self = (Returned tt, s4).
Proof.
  intros Hw Hu Hb h said. unfold deliver. rewrite Hw.
  destruct (chunk_opens "Hel" self Hb) as (s1 & R1 & H1 & L1 & U1).
  destruct (chunk_appends "lo" s1 h (said "Hel") L1 H1) as (s2 & R2 & H2 & L2 & U2).
  destruct (chunk_appends " world" s2 h _ L2 H2) as (s3 & R3 & H3 & L3 & U3).
  pose proof (bubble_shown_pointer s1 L1) as B1.
  pose proof (bubble_shown_pointer s2 L2) as B2.
  pose proof (bubble_shown_pointer s3 L3) as B3.
  assert (U : use_streaming s3 = true) by congruence.
  pose proof (response_closes "Hello world" s3 U B3) as R4.
  exists s1, s2, s3, (set_current_streaming_bubble None s3).
  split; [exact R1|]. split; [exact H1|]. split; [exact B1|].
  split; [exact R2|]. split; [exact H2|]. split; [exact B2|].
  split; [exact R3|]. split; [exact H3|]. split; [exact B3|].
  split; [exact R4|]. split; [exact H3|]. split; [reflexivity|].
  split.
  - change (conversation_history (set_current_streaming_bubble None s3))
      with (conversation_history s3).
    rewrite H3, length_app. simpl. lia.
  - simpl. unfold deliver. rewrite Hw.
    erewrite bind_returned by exact R1. erewrite bind_returned by exact R2.
    erewrite bind_returned by exact R3. erewrite bind_returned by exact R4.
    reflexivity.
Qed.

Lemma streaming_accumulates_one_message_witness :
  exists s4,
    deliver_all (worker_for "hi" streaming_window)
      [streaming_chunk_received "Hel"; streaming_chunk_received "lo";
       streaming_chunk_received " world"; response_received "Hello world"]
      (after_send "hi" streaming_window) = (Returned tt, s4)
    /\ conversation_history s4
       = [ {| role := user; content := "hi" |};
           {| role := assistant; content := "Hello world" |} ]
    /\ current_streaming_bubble s4 = None.
Proof.
  destruct (@streaming_accumulates_one_message (worker_for "hi" streaming_window)
              (after_send "hi" streaming_window) eq_refl eq_refl eq_refl)
    as (s1 & s2 & s3 & s4 & H).
  exists s4. decompose [and] H. repeat split; assumption.
Defined.




(** C4, as the code has it.  [handle_error] returns normally in every state
    and for every error text.  It shows a bubble with the text "Error: "
    followed by the error, replacing the welcome view when the history is
    empty; it clears the accumulation pointer when streaming is switched
    on and leaves it alone otherwise; the history, the settings and the
    workers are not changed. *)
Theorem handle_error_shows_a_bubble (error_message : string) (self : t) :
  exists self',
    handle_error error_message self = (Returned tt, self')
    /\ conversation_history self' = conversation_history self
    /\ chat_layout self'
       = ((match conversation_history self with
           | [] => []
           | _ :: _ => chat_layout self
           end)
          ++ [Bubble {| bubble_id := bubbles_created self;
                        bubble_message := "Error: " ++ error_message;
                        is_user := false |}])%list
    /\ current_streaming_bubble self'
       = (if use_streaming self then None else current_streaming_bubble self)
    /\ same_configuration self self'
    /\ started self' = started self
    /\ closed self' = closed self.
Proof.
  destruct self as [h a m s u b l i hd th st c n f].
  unfold handle_error, try_except, bind, gets. simpl.
  destruct h, u; simpl; eexists; (split; [reflexivity|]); simpl;
    repeat split.
Qed.

(** C4 does not hold as stated: after an error event the history is what it
    was; no assistant message has been appended to it. *)
Lemma error_is_not_recorded_in_history :
  let before := after_send "hello" streaming_window in
  let after := exec (handle_error "Network error: timed out") before in
  conversation_history after = [ {| role := user; content := "hello" |} ]
  /\ conversation_history after = conversation_history before
  /\ ~ (exists m, conversation_history after
                  = (conversation_history before ++ [m])%list).
Proof.
  simpl. repeat split. intros [m H]. discriminate H.
Qed.

(* ===================================================================== *)
(** * The worker in streaming mode *)
(* ===================================================================== *)

Section StreamingRun.

Variable json_loads : string -> outcome json.
Variable requests_post :
  string -> list (string * json) -> bool -> outcome OllamaThread.Response.
Variable fault_exn : fault -> exn.



End StreamingRun.




(* ===================================================================== *)
(** * The configuration file *)
(* ===================================================================== *)

(** What [load_config] does with an object, field by field. *)
Lemma load_config_object (d : list (string * json)) (self : t) :
  ollama_config self = Some (JsonText (JObj d)) ->
  (forall p b,
     lookup "system_prompt" d = Some (JStr p) ->
     lookup "use_streaming" d = Some (JBool b) ->
     load_config self = Some (set_use_streaming b (set_system_prompt p self)))
  /\ (forall p,
        lookup "system_prompt" d = Some (JStr p) ->
        lookup "use_streaming" d = None ->
        load_config self = Some (set_system_prompt p self))
  /\ (forall b,
        lookup "system_prompt" d = None ->
        lookup "use_streaming" d = Some (JBool b) ->
        load_config self = Some (set_use_streaming b self))
  /\ (lookup "system_prompt" d = None ->
      lookup "use_streaming" d = None ->
      load_config self = Some self).
Proof.
  intros Hf. unfold load_config, load_field. rewrite Hf. simpl.
  repeat split; intros; repeat match goal with
                               | H : lookup _ d = _ |- _ => rewrite H; clear H
                               end; reflexivity.
Qed.

(** C9.  The configuration round-trips.  Saving the system-prompt dialog
    writes the stripped prompt and the streaming flag, and a window started
    on that file has exactly those two settings; in particular a file with
    system_prompt "X" and use_streaming true gives a window with prompt "X"
    and streaming on.  Without a file, with a file that is not JSON, or
    with an object that lacks a field, the window starts normally and the
    missing settings keep their defaults: empty prompt, streaming off. *)
Theorem configuration_round_trip :
  (forall env typed self,
     prompt_dialog env = Some typed ->
     disk_writable env = true ->
     let disk := ollama_config (exec (show_system_prompt_dialog env) self) in
     disk = Some (JsonText (JObj [ ("system_prompt",
                                    JStr (PyStr.strip (prompt_input typed)));
                                   ("use_streaming",
                                    JBool (streaming_checkbox typed)) ]))
     /\ exists window,
          init disk = Some window
          /\ system_prompt window = PyStr.strip (prompt_input typed)
          /\ use_streaming window = streaming_checkbox typed)
  /\ (exists window,
        init (Some (JsonText (JObj [ ("system_prompt", JStr "X");
                                     ("use_streaming", JBool true) ])))
          = Some window
        /\ system_prompt window = "X" /\ use_streaming window = true)
  /\ (exists window,
        init None = Some window
        /\ system_prompt window = EmptyString /\ use_streaming window = false)
  /\ (exists window,
        init (Some OtherText) = Some window
        /\ system_prompt window = EmptyString /\ use_streaming window = false)
  /\ (forall d,
        lookup "system_prompt" d = None ->
        lookup "use_streaming" d = None ->
        exists window,
          init (Some (JsonText (JObj d))) = Some window
          /\ system_prompt window = EmptyString /\ use_streaming window = false)
  /\ (forall d p,
        lookup "system_prompt" d = Some (JStr p) ->
        lookup "use_streaming" d = None ->
        exists window,
          init (Some (JsonText (JObj d))) = Some window
          /\ system_prompt window = p /\ use_streaming window = false)
  /\ (forall d b,
        lookup "system_prompt" d = None ->
        lookup "use_streaming" d = Some (JBool b) ->
        exists window,
          init (Some (JsonText (JObj d))) = Some window
          /\ system_prompt window = EmptyString /\ use_streaming window = b).
Proof.
  split; [|split; [|split; [|split; [|split; [|split]]]]].
  - intros env typed self Hd Hw disk. subst disk.
    unfold show_system_prompt_dialog, SystemPromptDialog.save_prompt, exec, bind.
    rewrite Hd, Hw. simpl. split; [reflexivity|].
    eexists. split; [reflexivity|]. split; reflexivity.
  - eexists. split; [reflexivity|]. split; reflexivity.
  - eexists. split; [reflexivity|]. split; reflexivity.
  - eexists. split; [reflexivity|]. split; reflexivity.
  - intros d H1 H2. unfold init.
    match goal with
    | |- context [load_config ?w] =>
        destruct (@load_config_object d w eq_refl) as (_ & _ & _ & H)
    end.
    rewrite (H H1 H2). eexists. split; [reflexivity|]. split; reflexivity.
  - intros d p H1 H2. unfold init.
    match goal with
    | |- context [load_config ?w] =>
        destruct (@load_config_object d w eq_refl) as (_ & H & _)
    end.
    rewrite (H p H1 H2). eexists. split; [reflexivity|]. split; reflexivity.
  - intros d b H1 H2. unfold init.
    match goal with
    | |- context [load_config ?w] =>
        destruct (@load_config_object d w eq_refl) as (_ & _ & H & _)
    end.
    rewrite (H b H1 H2). eexists. split; [reflexivity|]. split; reflexivity.
Qed.

Lemma configuration_round_trip_witness :
  exists window,
    init (ollama_config (exec (show_system_prompt_dialog saves_X) streaming_window))
      = Some window
    /\ system_prompt window = "X" /\ use_streaming window = true.
Proof.
  destruct (proj1 configuration_round_trip saves_X _ streaming_window
              eq_refl eq_refl) as [_ H].
  exact H.
Defined.

(* ===================================================================== *)
(** * Properties of the matcher and of the size pattern *)
(* ===================================================================== *)

(** Repetition, given that the repeated matcher is sound. *)
Lemma iterate_sound (icase : bool) (r1 : Re.regex)
    (k : option ascii -> string -> option string) :
  (forall prev s k res,
     Re.rmatch icase r1 prev s k = Some res ->
     exists m rest prev',
       s = m ++ rest /\ Re.lang icase r1 m /\ k prev' rest = Some res) ->
  forall fuel prev s res,
    Re.iterate (Re.rmatch icase r1) k fuel prev s = Some res ->
    exists m rest prev',
      s = m ++ rest /\ Re.lang icase (Re.Plus r1) m /\ k prev' rest = Some res.
Proof.
  intros IH1. induction fuel as [|fuel IHf]; intros prev s res H.
  - discriminate H.
  - cbn [Re.iterate] in H. apply IH1 in H.
    destruct H as (m1 & rest1 & p1 & Hs & L1 & H).
    destruct (String.length rest1 <? String.length s)%nat.
    + destruct (Re.iterate (Re.rmatch icase r1) k fuel p1 rest1) as [x|] eqn:E.
      * inversion H; subst x. apply IHf in E.
        destruct E as (m2 & rest2 & p2 & Hr & L2 & Hk).
        exists (m1 ++ m2), rest2, p2. rewrite append_assoc, <- Hr.
        split; [exact Hs|]. split; [|exact Hk].
        apply Re.lang_Plus_more; assumption.
      * exists m1, rest1, p1. split; [exact Hs|]. split; [|exact H].
        apply Re.lang_Plus_one; assumption.
    + exists m1, rest1, p1. split; [exact Hs|]. split; [|exact H].
      apply Re.lang_Plus_one; assumption.
Qed.

(** Whatever the matcher accepts is a text of the pattern, followed by a
    rest the continuation accepts. *)
Lemma rmatch_sound (icase : bool) (r : Re.regex) :
  forall prev s k res,
    Re.rmatch icase r prev s k = Some res ->
    exists m rest prev',
      s = m ++ rest /\ Re.lang icase r m /\ k prev' rest = Some res.
Proof.
  induction r as [|c|p|r1 IH1 r2 IH2|r1 IH1|r1 IH1|]; intros prev s k res H.
  - cbn [Re.rmatch] in H. exists EmptyString, s, prev.
    split; [reflexivity|]. split; [constructor | exact H].
  - cbn [Re.rmatch] in H. destruct s as [|d s']; [discriminate H|].
    destruct (Re.lit_matches icase c d) eqn:E; [|discriminate H].
    exists (String d EmptyString), s', (Some d).
    split; [reflexivity|]. split; [constructor; exact E | exact H].
  - cbn [Re.rmatch] in H. destruct s as [|d s']; [discriminate H|].
    destruct (p d) eqn:E; [|discriminate H].
    exists (String d EmptyString), s', (Some d).
    split; [reflexivity|]. split; [constructor; exact E | exact H].
  - cbn [Re.rmatch] in H. apply IH1 in H.
    destruct H as (m1 & rest1 & p1 & Hs1 & L1 & H).
    apply IH2 in H. destruct H as (m2 & rest2 & p2 & Hs2 & L2 & H).
    exists (m1 ++ m2), rest2, p2. rewrite append_assoc, <- Hs2.
    split; [exact Hs1|]. split; [constructor; assumption | exact H].
  - cbn [Re.rmatch] in H.
    destruct (Re.rmatch icase r1 prev s k) as [x|] eqn:E.
    + inversion H; subst x. apply IH1 in E.
      destruct E as (m & rest & p' & Hs & L & Hk).
      exists m, rest, p'. split; [exact Hs|].
      split; [apply Re.lang_Opt_some; exact L | exact Hk].
    + exists EmptyString, s, prev.
      split; [reflexivity|]. split; [constructor | exact H].
  - change (Re.iterate (Re.rmatch icase r1) k (S (String.length s)) prev s
            = Some res) in H.
    exact (iterate_sound k IH1 _ _ _ H).
  - cbn [Re.rmatch] in H.
    destruct (xorb (Re.isword_opt prev) (Re.isword_opt (Re.head s)));
      [|discriminate H].
    exists EmptyString, s, prev.
    split; [reflexivity|]. split; [constructor | exact H].
Qed.

Lemma length_append (a b : string) :
  String.length (a ++ b) = String.length a + String.length b.
Proof. induction a; simpl; congruence. Qed.

Lemma substring_prefix (a b : string) :
  String.substring 0 (String.length a) (a ++ b) = a.
Proof. induction a; simpl; [destruct b; reflexivity | congruence]. Qed.

Lemma match_here_sound (icase : bool) (r : Re.regex) prev s m rest :
  Re.match_here icase r prev s = Some (m, rest) ->
  s = m ++ rest /\ Re.lang icase r m.
Proof.
  unfold Re.match_here.
  destruct (Re.rmatch icase r prev s (fun _ rest => Some rest)) as [x|] eqn:E;
    [|discriminate].
  intros H. inversion H; subst; clear H.
  apply rmatch_sound in E. destruct E as (m & rest' & _ & -> & L & Hk).
  inversion Hk; subst.
  rewrite length_append, Nat.add_sub, substring_prefix. split; [reflexivity|assumption].
Qed.

Lemma search_from_sound (icase : bool) (r : Re.regex) (s : string) :
  forall prev m, Re.search_from icase r prev s = Some m -> Re.lang icase r m.
Proof.
  induction s as [|c s IH]; intros prev m H; simpl in H.
  - destruct (Re.match_here icase r prev EmptyString) as [[m' rest]|] eqn:E;
      [|discriminate].
    inversion H; subst. apply match_here_sound in E. apply E.
  - destruct (Re.match_here icase r prev (String c s)) as [[m' rest]|] eqn:E.
    + inversion H; subst. apply match_here_sound in E. apply E.
    + eapply IH. exact H.
Qed.

Lemma search_sound (icase : bool) (r : Re.regex) (s m : string) :
  Re.search icase r s = Some m -> Re.lang icase r m.
Proof. apply search_from_sound. Qed.

(** Texts of [\d+]. *)
Lemma digits_lang (icase : bool) (r : Re.regex) (m : string) :
  Re.lang icase r m ->
  r = Re.Plus (Re.Cls PyStr.isdigit) ->
  numeric m = true /\ m <> EmptyString.
Proof.
  induction 1 as [ | | | | | |r0 a La _|r0 a b La _ Lb IHb| ]; intros Hr;
    try discriminate; inversion Hr; subst r0.
  - inversion La; subst. simpl.
    match goal with H : PyStr.isdigit _ = true |- _ => rewrite H end.
    split; [reflexivity | discriminate].
  - inversion La; subst. destruct (IHb eq_refl) as [Hn _]. simpl.
    match goal with H : PyStr.isdigit _ = true |- _ => rewrite H end.
    split; [exact Hn | discriminate].
Qed.

Lemma numeric_app (a b : string) : numeric (a ++ b) = numeric a && numeric b.
Proof.
  induction a as [|c a IH]; simpl; [reflexivity|].
  rewrite IH. apply andb_assoc.
Qed.

(** A text of the size pattern is a number followed by the letter. *)
Lemma size_pattern_lang (icase : bool) (m : string) :
  Re.lang icase size_pattern m ->
  exists number letter,
    m = number ++ String letter EmptyString
    /\ numeric number = true /\ number <> EmptyString
    /\ (letter = "b"%char \/ letter = "B"%char).
Proof.
  unfold size_pattern. intros H.
  inversion H as [ | | |r1 r2 a bc La Lbc| | | | | ]; subst; clear H.
  inversion Lbc as [ | | |r1 r2 b c Lb Lc| | | | | ]; subst; clear Lbc.
  inversion Lc as [ | |p d Hd| | | | | | ]; subst; clear Lc.
  destruct (digits_lang La eq_refl) as [Na Ea].
  assert (Nb : numeric b = true).
  { inversion Lb as [ | | | |r|r x Lx| | | ]; subst; [reflexivity|].
    inversion Lx as [ | | |r1 r2 dot ds Ldot Lds| | | | | ]; subst.
    inversion Ldot; subst.
    destruct (digits_lang Lds eq_refl) as [Nd _].
    match goal with
    | H : Re.lit_matches icase "." ?d = true |- _ =>
        assert (d = "."%char) as ->
          by (unfold Re.lit_matches in H; destruct icase;
              [ destruct d as [[] [] [] [] [] [] [] []]; simpl in H;
                try discriminate H; reflexivity
              | apply Ascii.eqb_eq in H; congruence ])
    end.
    simpl. exact Nd. }
  exists (a ++ b), d. rewrite append_assoc. split; [reflexivity|].
  split; [rewrite numeric_app, Na, Nb; reflexivity|].
  split; [destruct a; [congruence | discriminate]|].
  apply orb_prop in Hd. destruct Hd as [Hd|Hd]; apply Ascii.eqb_eq in Hd; auto.
Qed.

Lemma last_char_snoc (x : string) (c : ascii) :
  PyStr.last_char (x ++ String c EmptyString) = Some c.
Proof.
  induction x as [|d x IH]; simpl; [reflexivity|].
  rewrite IH. destruct (x ++ String c EmptyString) eqn:E; [|reflexivity].
  destruct x; discriminate E.
Qed.

Lemma drop_last_snoc (x : string) (c : ascii) :
  PyStr.drop_last (x ++ String c EmptyString) = x.
Proof.
  induction x as [|d x IH]; simpl; [reflexivity|].
  rewrite IH. destruct (x ++ String c EmptyString) eqn:E; [|reflexivity].
  destruct x; discriminate E.
Qed.

Lemma map_chars_app (f : ascii -> ascii) (a b : string) :
  PyStr.map_chars f (a ++ b) = PyStr.map_chars f a ++ PyStr.map_chars f b.
Proof. induction a; simpl; congruence. Qed.

(** The parameter count of a size is the size without its letter. *)
Lemma extract_param_count_strips (number : string) (letter : ascii) :
  letter = "b"%char \/ letter = "B"%char ->
  extract_param_count (number ++ String letter EmptyString) = number.
Proof.
  intros H. unfold extract_param_count.
  rewrite truthy_app. simpl. rewrite orb_true_r. simpl.
  unfold PyStr.endswith_char, PyStr.lower. rewrite map_chars_app. simpl.
  rewrite last_char_snoc.
  destruct H as [-> | ->]; simpl; apply drop_last_snoc.
Qed.

(** The size the formatter reports is empty or a text of the size pattern. *)
Lemma size_info_cases (name : string) :
  size_info (format_model_name name) = EmptyString
  \/ Re.lang false size_pattern (size_info (format_model_name name)).
Proof.
  unfold format_model_name.
  destruct (PyStr.partition ":" _) as [[before after]|]; simpl; [|left; reflexivity].
  destruct (Re.search false size_pattern after) eqn:E; [|left; reflexivity].
  right. apply search_sound in E. exact E.
Qed.

(* ===================================================================== *)
(** * Properties of [replace] *)
(* ===================================================================== *)

Lemma contains_char_app (c : ascii) (a b : string) :
  PyStr.contains_char c (a ++ b)
  = PyStr.contains_char c a || PyStr.contains_char c b.
Proof.
  induction a as [|d a IH]; simpl; [reflexivity|].
  rewrite IH. apply orb_assoc.
Qed.

(** A prefix of a text has its characters in the text. *)
Lemma startswith_contains_char (c : ascii) (p s : string) :
  PyStr.startswith p s = true ->
  PyStr.contains_char c p = true -> PyStr.contains_char c s = true.
Proof.
  revert s. induction p as [|a p IH]; intros s Hp Hc; [discriminate|].
  destruct s as [|b s]; [discriminate|].
  cbn [PyStr.startswith] in Hp. apply andb_prop in Hp. destruct Hp as [Hab Hp].
  apply Ascii.eqb_eq in Hab. subst b.
  cbn [PyStr.contains_char] in *.
  apply orb_prop in Hc. destruct Hc as [Hc|Hc].
  - rewrite Hc. reflexivity.
  - rewrite (IH s Hp Hc). apply orb_true_r.
Qed.

Lemma startswith_app (p s : string) : PyStr.startswith p (p ++ s) = true.
Proof.
  induction p as [|a p IH]; [reflexivity|].
  cbn [PyStr.startswith String.append]. rewrite Ascii.eqb_refl. exact IH.
Qed.

Section Replace.

Variables (first : ascii) (more new : string).

(** A text without the first character of the old text is copied. *)
Lemma replace_from_copies (pre s : string) :
  PyStr.contains_char first pre = false ->
  PyStr.replace_from (String first more) new 0 (pre ++ s)
  = pre ++ PyStr.replace_from (String first more) new 0 s.
Proof.
  induction pre as [|c pre IH]; intros H; [reflexivity|].
  cbn [PyStr.contains_char] in H. apply orb_false_elim in H. destruct H as [Hc H].
  cbn [String.append PyStr.replace_from PyStr.startswith].
  rewrite Hc. cbn [andb]. rewrite (IH H). reflexivity.
Qed.

Lemma replace_from_skips (skipped s : string) :
  PyStr.replace_from (String first more) new (String.length skipped) (skipped ++ s)
  = PyStr.replace_from (String first more) new 0 s.
Proof.
  induction skipped as [|c skipped IH]; [reflexivity|].
  cbn [String.length String.append PyStr.replace_from]. exact IH.
Qed.

(** An occurrence of the old text is replaced. *)
Lemma replace_from_occurrence (s : string) :
  PyStr.replace_from (String first more) new 0 (String first more ++ s)
  = new ++ PyStr.replace_from (String first more) new 0 s.
Proof.
  pose proof (startswith_app (String first more) s) as Hp.
  cbn [String.append] in *. cbn [PyStr.replace_from].
  rewrite Hp. cbn [String.length].
  replace (S (String.length more) - 1) with (String.length more) by lia.
  rewrite replace_from_skips. reflexivity.
Qed.

Lemma replace_from_untouched (s : string) :
  PyStr.contains_char first s = false ->
  PyStr.replace_from (String first more) new 0 s = s.
Proof.
  intros H. rewrite <- (append_nil_r s) at 1.
  rewrite (replace_from_copies s EmptyString H). cbn [PyStr.replace_from].
  apply append_nil_r.
Qed.

(** One character that does not start an occurrence is copied. *)
Lemma replace_from_step (c : ascii) (s : string) :
  PyStr.startswith (String first more) (String c s) = false ->
  PyStr.replace_from (String first more) new 0 (String c s)
  = String c (PyStr.replace_from (String first more) new 0 s).
Proof. intros H. cbn [PyStr.replace_from]. rewrite H. reflexivity. Qed.

End Replace.

(* ===================================================================== *)
(** * The system prompt of a request *)
(* ===================================================================== *)

(** The model placeholder does not occur in a text whose only percent signs
    are those of the parameter placeholder. *)
Lemma model_placeholder_absent (name mid post : string) :
  no_percent mid -> no_percent post ->
  PyStr.replace "%model%" name (mid ++ "%parameters%" ++ post)
  = mid ++ "%parameters%" ++ post.
Proof.
  unfold no_percent. intros Hmid Hpost. unfold PyStr.replace. cbn [PyStr.truthy].
  rewrite (replace_from_copies "%" "model%" name mid _ Hmid). f_equal.
  cbn [String.append].
  do 11 (rewrite replace_from_step by reflexivity).
  rewrite replace_from_step.
  - rewrite (replace_from_untouched "%" "model%" name post Hpost). reflexivity.
  - change (PyStr.startswith "%model%" (String "%" post))
      with (Ascii.eqb "%" "%" && PyStr.startswith "model%" post).
    rewrite Ascii.eqb_refl. cbn [andb].
    destruct (PyStr.startswith "model%" post) eqn:E; [|reflexivity].
    rewrite (startswith_contains_char "%" "model%" post E eq_refl) in Hpost.
    discriminate Hpost.
Qed.

(** The parameter count is never empty, and it never holds a percent. *)
Lemma param_count_shape (name : string) :
  let size := size_info (format_model_name name) in
  let count := extract_param_count size in
  (size = EmptyString /\ count = "unknown")
  \/ (size <> EmptyString /\ numeric count = true /\ count <> EmptyString
      /\ exists letter,
           (letter = "b"%char \/ letter = "B"%char)
           /\ size = count ++ String letter EmptyString).
Proof.
  intros size count. subst count.
  destruct (size_info_cases name) as [H|H]; fold size in H.
  - left. rewrite H. split; reflexivity.
  - right. apply size_pattern_lang in H.
    destruct H as (number & letter & Hm & Hn & He & Hl).
    rewrite Hm, (extract_param_count_strips number Hl).
    split; [destruct number; discriminate|].
    split; [assumption|]. split; [assumption|].
    exists letter. split; [assumption | reflexivity].
Qed.

Lemma numeric_no_percent (s : string) : numeric s = true -> no_percent s.
Proof.
  unfold no_percent. induction s as [|c s IH]; intros H; [reflexivity|].
  cbn [numeric] in H. apply andb_prop in H. destruct H as [Hc Hs].
  cbn [PyStr.contains_char]. rewrite (IH Hs), orb_false_r.
  destruct (Ascii.eqb_spec "%"%char c) as [<-|]; [discriminate Hc | reflexivity].
Qed.

(** C7.  The system prompt a request carries.  With an empty template the
    payload has no field "system".  Otherwise the template is rewritten by
    replacing %model% with the formatted name of the model and then
    %parameters% with the parameter count; for a template with one
    placeholder of each kind the payload carries the template with the name
    and the count in their places.  The count is "unknown" when the model
    has no size, and otherwise the size, a number, without its letter. *)
Theorem system_prompt_substitution (self : OllamaThread.t) :
  let info := format_model_name (OllamaThread.model self) in
  let name := formatted_name info in
  let count := extract_param_count (size_info info) in
  (OllamaThread.system_prompt self = EmptyString ->
   lookup "system" (OllamaThread.payload self) = None)
  /\ (OllamaThread.system_prompt self <> EmptyString ->
      OllamaThread.process_system_prompt self (OllamaThread.display_name self)
      = PyStr.replace "%parameters%" count
          (PyStr.replace "%model%" name (OllamaThread.system_prompt self)))
  /\ (forall pre mid post,
        no_percent pre -> no_percent mid -> no_percent post -> no_percent name ->
        OllamaThread.system_prompt self
          = pre ++ "%model%" ++ mid ++ "%parameters%" ++ post ->
        lookup "system" (OllamaThread.payload self)
          = Some (JStr (pre ++ name ++ mid ++ count ++ post)))
  /\ (size_info info = EmptyString -> count = "unknown")
  /\ (size_info info <> EmptyString ->
      numeric count = true /\ count <> EmptyString
      /\ exists letter,
           (letter = "b"%char \/ letter = "B"%char)
           /\ size_info info = count ++ String letter EmptyString).
Proof.
  intros info name count.
  split; [|split; [|split; [|split]]].
  - intros H. unfold OllamaThread.payload, OllamaThread.process_system_prompt.
    rewrite H. reflexivity.
  - intros H. unfold OllamaThread.process_system_prompt.
    apply truthy_true in H. rewrite H. reflexivity.
  - intros pre mid post Hpre Hmid Hpost Hname Ht.
    assert (Hcount : count <> EmptyString /\ no_percent count).
    { destruct (param_count_shape (OllamaThread.model self))
        as [[_ H] | (_ & Hn & He & _)].
      - change (count = "unknown") in H. rewrite H.
        split; [discriminate | reflexivity].
      - change (numeric count = true) in Hn.
        change (count <> EmptyString) in He.
        split; [assumption | apply numeric_no_percent; assumption]. }
    destruct Hcount as [Hne Hcp].
    assert (Hp : OllamaThread.process_system_prompt self
                   (OllamaThread.display_name self)
                 = pre ++ name ++ mid ++ count ++ post).
    { unfold OllamaThread.process_system_prompt. fold info. fold name. fold count.
      rewrite Ht at 1. rewrite truthy_app. cbn [PyStr.truthy String.append].
      rewrite orb_true_r. cbn [negb]. rewrite Ht.
      assert (H1 : PyStr.replace "%model%" name
                     (pre ++ "%model%" ++ mid ++ "%parameters%" ++ post)
                   = pre ++ name ++ mid ++ "%parameters%" ++ post).
      { pose proof (model_placeholder_absent name Hmid Hpost) as Habs.
        unfold PyStr.replace in *. cbn [PyStr.truthy] in *.
        rewrite (replace_from_copies "%" "model%" name pre _ Hpre).
        rewrite (replace_from_occurrence "%" "model%" name).
        rewrite Habs. reflexivity. }
      rewrite H1.
      replace (pre ++ name ++ mid ++ "%parameters%" ++ post)
        with ((pre ++ name ++ mid) ++ "%parameters%" ++ post)
        by (rewrite !append_assoc; reflexivity).
      unfold PyStr.replace. cbn [PyStr.truthy].
      rewrite (replace_from_copies "%" "parameters%" count (pre ++ name ++ mid)).
      - rewrite (replace_from_occurrence "%" "parameters%" count).
        rewrite (replace_from_untouched "%" "parameters%" count post Hpost).
        rewrite !append_assoc. reflexivity.
      - rewrite !contains_char_app. unfold no_percent in *.
        rewrite Hpre, Hname, Hmid. reflexivity. }
    unfold OllamaThread.payload. rewrite Hp.
    assert (Htr : PyStr.truthy (pre ++ name ++ mid ++ count ++ post) = true).
    { rewrite !truthy_app. apply truthy_true in Hne. rewrite Hne.
      rewrite !orb_true_r. reflexivity. }
    rewrite Htr. reflexivity.
  - intros H. unfold count. rewrite H. reflexivity.
  - intros H.
    destruct (param_count_shape (OllamaThread.model self))
      as [[H0 _] | (_ & Hn & He & Hl)]; [contradiction|].
    split; [exact Hn|]. split; [exact He | exact Hl].
Qed.

Lemma system_prompt_substitution_witness :
  lookup "system" (OllamaThread.payload example_prompt_worker)
  = Some (JStr ("You are Llama2, an AI assistant with 13 billion parameters. "
                ++ "Help with clear and concise answers.")).
Proof.
  exact (proj1 (proj2 (proj2 (system_prompt_substitution example_prompt_worker)))
           "You are " ", an AI assistant with "
           " billion parameters. Help with clear and concise answers."
           eq_refl eq_refl eq_refl eq_refl eq_refl).
Defined.

(* ===================================================================== *)
(** * The formatter on the examples of the specification *)
(* ===================================================================== *)

Lemma partition_none (c : ascii) (s : string) :
  PyStr.contains_char c s = false -> PyStr.partition c s = None.
Proof.
  induction s as [|d s IH]; intros H; [reflexivity|].
  cbn [PyStr.contains_char] in H. apply orb_false_elim in H. destruct H as [Hd Hs].
  cbn [PyStr.partition]. rewrite Ascii.eqb_sym, Hd, (IH Hs). reflexivity.
Qed.

Lemma split_on_pieces (c sep : ascii) (s : string) :
  PyStr.contains_char c s = false ->
  Forall (fun w => PyStr.contains_char c w = false) (PyStr.split_on sep s).
Proof.
  induction s as [|d s IH]; intros H.
  - repeat constructor.
  - cbn [PyStr.contains_char] in H. apply orb_false_elim in H. destruct H as [Hd Hs].
    specialize (IH Hs). cbn [PyStr.split_on].
    destruct (PyStr.split_on sep s) as [|w ws].
    + constructor; [|constructor]. cbn [PyStr.contains_char]. rewrite Hd. exact Hs.
    + inversion IH; subst. destruct (Ascii.eqb d sep).
      * constructor; [reflexivity | assumption].
      * constructor; [|assumption]. cbn [PyStr.contains_char].
        rewrite Hd. assumption.
Qed.

Lemma last_Forall {A} (P : A -> Prop) (l : list A) (d : A) :
  Forall P l -> P d -> P (last l d).
Proof.
  induction 1 as [|x l Hx Hl IH]; intros Hd; [exact Hd|].
  destruct l; [exact Hx | apply IH; exact Hd].
Qed.

(** Without a colon in the identifier there is no tag and no size. *)
Lemma no_tag_no_size (name : string) :
  PyStr.contains_char ":" name = false ->
  size_info (format_model_name name) = EmptyString.
Proof.
  intros H. unfold format_model_name.
  assert (Hn : PyStr.contains_char ":"
                 (if PyStr.contains_char "/" name
                  then last (PyStr.split_on "/" name) EmptyString
                  else name) = false).
  { destruct (PyStr.contains_char "/" name); [|exact H].
    apply (@last_Forall string (fun w => PyStr.contains_char ":" w = false));
      [apply split_on_pieces; exact H | reflexivity]. }
  rewrite (partition_none _ _ Hn). reflexivity.
Qed.

(** C1, as the code has it.  The size is looked for in the tag after the
    colon only, and it keeps its letter.  "user/CodeLlama-7b-Instruct:latest"
    is formatted as "CodeLlama 7b Instruct", which contains "CodeLlama",
    with an empty size, since the tag "latest" holds no size; "llama2:13b"
    is formatted as "Llama2" with size "13b", whose parameter count is
    "13"; "mistral" has an empty size, as has every identifier without a
    colon. *)
Theorem format_model_name_examples :
  formatted_name (format_model_name "user/CodeLlama-7b-Instruct:latest")
    = "CodeLlama 7b Instruct"
  /\ PyStr.contains "CodeLlama"
       (formatted_name (format_model_name "user/CodeLlama-7b-Instruct:latest"))
     = true
  /\ size_info (format_model_name "user/CodeLlama-7b-Instruct:latest") = EmptyString
  /\ formatted_name (format_model_name "llama2:13b") = "Llama2"
  /\ size_info (format_model_name "llama2:13b") = "13b"
  /\ extract_param_count (size_info (format_model_name "llama2:13b")) = "13"
  /\ size_info (format_model_name "mistral") = EmptyString
  /\ (forall name,
        PyStr.contains_char ":" name = false ->
        size_info (format_model_name name) = EmptyString).
Proof.
  repeat (split; [vm_compute; reflexivity|]).
  exact no_tag_no_size.
Qed.

Lemma format_model_name_examples_witness :
  size_info (format_model_name "user/CodeLlama-7b-Instruct") = EmptyString.
Proof.
  exact (proj2 (proj2 (proj2 (proj2 (proj2 (proj2 (proj2
           format_model_name_examples))))))
           "user/CodeLlama-7b-Instruct" eq_refl).
Defined.

(** C1 does not hold as stated: the size of the first example is not "7"
    and the size of the second is not "13". *)
Lemma size_hints_are_not_7_and_13 :
  size_info (format_model_name "user/CodeLlama-7b-Instruct:latest") <> "7"
  /\ size_info (format_model_name "llama2:13b") <> "13".
Proof.
  split; vm_compute; discriminate.
Qed.

(* ===================================================================== *)
(** * Further properties of the worker *)
(* ===================================================================== *)

Section Worker.

Variable json_loads : string -> outcome json.
Variable requests_post :
  string -> list (string * json) -> bool -> outcome OllamaThread.Response.
Variable fault_exn : fault -> exn.

Lemma on_exception_is_error (e : exn) :
  exists msg, OllamaThread.on_exception e = error_occurred msg.
Proof.
  unfold OllamaThread.on_exception.
  destruct (is_request_exception e); [eexists; reflexivity|].
  destruct (is_json_decode_error e); eexists; reflexivity.
Qed.

Lemma on_exception_terminal (e : exn) :
  is_terminal (OllamaThread.on_exception e) = true.
Proof.
  destruct (on_exception_is_error e) as [msg ->]. reflexivity.
Qed.

(** The loop emits chunks only, and what it accumulates is what it had
    followed by the chunks it emitted. *)
Lemma stream_loop_shape (lines : list string) :
  forall full_response,
  exists chunks,
    fst (fst (OllamaThread.stream_loop json_loads fault_exn lines full_response))
    = map streaming_chunk_received chunks
    /\ forall r,
         snd (OllamaThread.stream_loop json_loads fault_exn lines full_response)
         = Returned r ->
         r = full_response ++ concat_chunks chunks.
Proof.
  induction lines as [|line rest IH]; intros full_response.
  - exists []. split; [reflexivity|]. cbn. intros r H. inversion H.
    symmetry. apply append_nil_r.
  - cbn [OllamaThread.stream_loop].
    destruct (PyStr.truthy line); [|apply IH].
    destruct (json_loads line) as [v|e].
    + destruct (py_in "response" v) as [f|[|]].
      * exists []. split; [reflexivity|]. cbn. discriminate.
      * destruct (py_getitem "response" v) as [f|x].
        -- exists []. split; [reflexivity|]. cbn. discriminate.
        -- destruct x as [|b|n|chunk|l|d];
             try (exists []; split; [reflexivity|]; cbn; discriminate).
           destruct (IH (full_response ++ chunk)) as (chunks & Hs & Hr).
           destruct (OllamaThread.stream_loop json_loads fault_exn rest
                       (full_response ++ chunk)) as [[sigs warns] r0].
           cbn in *. exists (chunk :: chunks). split.
           ++ cbn. rewrite Hs. reflexivity.
           ++ intros r H. rewrite (Hr r H). unfold concat_chunks. cbn [fold_right].
              apply append_assoc.
      * apply IH.
    + destruct (is_json_decode_error e).
      * destruct (IH full_response) as (chunks & Hs & Hr).
        destruct (OllamaThread.stream_loop json_loads fault_exn rest full_response)
          as [[sigs warns] r0].
        cbn in *. exists chunks. split; assumption.
      * exists []. split; [reflexivity|]. cbn. discriminate.
Qed.

(** X1.  Whatever the server does, a run emits chunks and then exactly one
    terminal signal, which comes last.  A run that does not stream emits no
    chunk.  When a streaming run ends with a final result, the result is
    the concatenation of the chunks emitted before it. *)
Theorem run_ends_with_one_terminal_signal (self : OllamaThread.t) :
  exists chunks final,
    OllamaThread.emitted (OllamaThread.run json_loads requests_post fault_exn self)
    = (map streaming_chunk_received chunks ++ [final])%list
    /\ is_terminal final = true
    /\ (OllamaThread.use_streaming self = false -> chunks = [])
    /\ (OllamaThread.use_streaming self = true ->
        forall full_response,
          final = response_received full_response ->
          full_response = concat_chunks chunks).
Proof.
  unfold OllamaThread.run.
  destruct (OllamaThread.use_streaming self).
  - destruct (requests_post (OllamaThread.url self) (OllamaThread.payload self) true)
      as [response|e].
    + destruct (OllamaThread.status_code response =? 200)%nat.
      * destruct (stream_loop_shape (OllamaThread.iter_lines response) EmptyString)
          as (chunks & Hs & Hr).
        destruct (OllamaThread.stream_loop json_loads fault_exn
                    (OllamaThread.iter_lines response) EmptyString)
          as [[sigs warns] r].
        cbn in Hs, Hr. subst sigs.
        destruct r as [full|e].
        -- destruct (OllamaThread.iter_lines_raises response) as [e|].
           ++ exists chunks, (OllamaThread.on_exception e).
              split; [reflexivity|]. split; [apply on_exception_terminal|].
              split; [discriminate|]. intros _ full_response H.
              destruct (on_exception_is_error e) as [msg Hm].
              rewrite Hm in H. discriminate H.
           ++ exists chunks, (response_received full).
              split; [reflexivity|]. split; [reflexivity|].
              split; [discriminate|]. intros _ full_response H.
              inversion H; subst. apply (Hr _ eq_refl).
        -- exists chunks, (OllamaThread.on_exception e).
           split; [reflexivity|]. split; [apply on_exception_terminal|].
           split; [discriminate|]. intros _ full_response H.
           destruct (on_exception_is_error e) as [msg Hm].
           rewrite Hm in H. discriminate H.
      * exists [], (OllamaThread.status_error response).
        split; [reflexivity|]. split; [reflexivity|].
        split; [discriminate|]. intros _ full_response H. discriminate H.
    + exists [], (OllamaThread.on_exception e).
      split; [reflexivity|]. split; [apply on_exception_terminal|].
      split; [discriminate|]. intros _ full_response H.
      destruct (on_exception_is_error e) as [msg Hm].
      rewrite Hm in H. discriminate H.
  - assert (Hshape : forall final,
              is_terminal final = true ->
              exists chunks final',
                [final] = (map streaming_chunk_received chunks ++ [final'])%list
                /\ is_terminal final' = true
                /\ (false = false -> chunks = [])
                /\ (false = true ->
                    forall full_response,
                      final' = response_received full_response ->
                      full_response = concat_chunks chunks)).
    { intros final Hf. exists [], final. split; [reflexivity|].
      split; [exact Hf|]. split; [reflexivity | discriminate]. }
    destruct (requests_post (OllamaThread.url self) (OllamaThread.payload self) false)
      as [response|e]; [|apply Hshape, on_exception_terminal].
    destruct (OllamaThread.status_code response =? 200)%nat;
      [|apply Hshape; reflexivity].
    destruct (OllamaThread.json_body response) as [v|e];
      [|apply Hshape, on_exception_terminal].
    destruct v as [|b|n|s|l|data]; try (apply Hshape, on_exception_terminal).
    destruct (lookup "response" data) as [v|]; [|apply Hshape; reflexivity].
    destruct v; try (apply Hshape, on_exception_terminal).
    apply Hshape. reflexivity.
Qed.

(** The loop up to a line that is JSON of the wrong shape. *)
Lemma stream_loop_off_contract (before after : list string) (line : string)
    (v : json) :
  Forall (api_line json_loads) before ->
  PyStr.truthy line = true ->
  json_loads line = Returned v ->
  off_contract v = true ->
  forall full_response,
  exists e,
    OllamaThread.stream_loop json_loads fault_exn (before ++ line :: after)%list
      full_response
    = (map streaming_chunk_received (chunks_of json_loads before),
       unparsed json_loads before, Raised e).
Proof.
  intros Hb Ht Hv Hoff.
  induction Hb as [|first rest Hfirst _ IH]; intros full_response.
  - cbn [app OllamaThread.stream_loop]. rewrite Ht, Hv.
    destruct v as [|b|n|s|l|d]; try discriminate Hoff;
      try (eexists; reflexivity).
    cbn [off_contract] in Hoff. cbn [py_in py_getitem].
    destruct (lookup "response" d) as [x|]; [|discriminate Hoff].
    destruct x; try discriminate Hoff; eexists; reflexivity.
  - cbn [app OllamaThread.stream_loop chunks_of]. unfold chunk_of, unparsed.
    cbn [filter].
    destruct Hfirst as [-> | [(e & He & Hj) | (d & Hd & Hr)]].
    + cbn [PyStr.truthy andb]. apply IH.
    + destruct (PyStr.truthy first); cbn [andb]; [|apply IH].
      rewrite He, Hj. destruct (IH full_response) as [e' ->].
      eexists. reflexivity.
    + destruct (PyStr.truthy first); cbn [andb]; [|apply IH].
      rewrite Hd. cbn [py_in py_getitem].
      destruct Hr as [Hr | (chunk & Hr)]; rewrite Hr.
      * apply IH.
      * destruct (IH (full_response ++ chunk)) as [e' ->].
        eexists. reflexivity.
Qed.

(** X2.  A line of a streaming response that decodes to null, a boolean or
    a number, or to an object whose "response" is not a text, ends the
    stream: the chunks of the lines before it have been emitted, one error
    follows, and neither the later lines nor a final result are emitted. *)
Theorem off_contract_line_ends_the_stream (self : OllamaThread.t)
    (response : OllamaThread.Response) (before after : list string)
    (line : string) (v : json) :
  OllamaThread.use_streaming self = true ->
  requests_post (OllamaThread.url self) (OllamaThread.payload self) true
    = Returned response ->
  OllamaThread.status_code response = 200 ->
  OllamaThread.iter_lines response = (before ++ line :: after)%list ->
  Forall (api_line json_loads) before ->
  PyStr.truthy line = true ->
  json_loads line = Returned v ->
  off_contract v = true ->
  exists msg,
    OllamaThread.run json_loads requests_post fault_exn self
    = {| OllamaThread.emitted :=
           (map streaming_chunk_received (chunks_of json_loads before)
            ++ [error_occurred msg])%list;
         OllamaThread.warnings := unparsed json_loads before |}.
Proof.
  intros Hs Hpost H200 Hlines Hb Ht Hv Hoff.
  unfold OllamaThread.run. rewrite Hs, Hpost, H200, Hlines.
  cbn [Nat.eqb].
  destruct (stream_loop_off_contract after Hb Ht Hv Hoff EmptyString) as [e ->].
  destruct (on_exception_is_error e) as [msg ->].
  exists msg. reflexivity.
Qed.


End Worker.

Lemma off_contract_line_ends_the_stream_witness :
  exists msg,
    OllamaThread.run example_loads_number
      (example_post_lines ["chunk-1"; "{broken"; "42"; "chunk-2"]) example_fault
      (worker_for "hi" streaming_window)
    = {| OllamaThread.emitted :=
           [streaming_chunk_received "Hel"; error_occurred msg];
         OllamaThread.warnings := ["{broken"] |}.
Proof.
  refine (@off_contract_line_ends_the_stream example_loads_number
            (example_post_lines ["chunk-1"; "{broken"; "42"; "chunk-2"])
            example_fault (worker_for "hi" streaming_window) _
            ["chunk-1"; "{broken"] ["chunk-2"] "42" (JNum "42")
            eq_refl eq_refl eq_refl eq_refl _ eq_refl eq_refl eq_refl).
  apply Forall_cons; [|apply Forall_cons; [|apply Forall_nil]].
  - right; right. eexists. split; [reflexivity|]. right. eexists. reflexivity.
  - right; left. eexists. split; reflexivity.
Defined.

(* ===================================================================== *)
(** * From the worker to the history *)
(* ===================================================================== *)

(** A final result that finds no accumulation to close is appended. *)
Lemma response_appends (response : string) (self : t) :
  use_streaming self = false \/ current_streaming_bubble self = None ->
  exists self',
    handle_response response self = (Returned tt, self')
    /\ conversation_history self'
       = (conversation_history self
          ++ [{| role := assistant; content := response |}])%list
    /\ current_streaming_bubble self' = current_streaming_bubble self
    /\ chat_layout self'
       = ((match conversation_history self with
           | [] => []
           | _ :: _ => chat_layout self
           end)
          ++ [Bubble {| bubble_id := bubbles_created self;
                        bubble_message := response; is_user := false |}])%list.
Proof.
  intros H.
  destruct self as [h a m s u b l i hd th st c n f]. cbn in H.
  assert (Hc : u && is_some b = false).
  { destruct H as [-> | ->]; [reflexivity | apply andb_false_r]. }
  unfold handle_response, try_except, bind, gets. cbn. rewrite Hc.
  destruct h; cbn; eexists; (split; [reflexivity|]); cbn; repeat split.
Qed.


Section EndToEnd.

Variable json_loads : string -> outcome json.
Variable requests_post :
  string -> list (string * json) -> bool -> outcome OllamaThread.Response.
Variable fault_exn : fault -> exn.


(** X4.  A request that does not stream, answered with status 200 and a
    JSON object, delivered to a window with streaming off, adds exactly one
    assistant message to the history: the text of the field "response", or
    "No response content" when the object has no such field. *)
Theorem complete_reply_is_one_message (worker : OllamaThread.t)
    (response : OllamaThread.Response) (data : list (string * json)) (self : t) :
  OllamaThread.use_streaming worker = false ->
  requests_post (OllamaThread.url worker) (OllamaThread.payload worker) false
    = Returned response ->
  OllamaThread.status_code response = 200 ->
  OllamaThread.json_body response = Returned (JObj data) ->
  use_streaming self = false ->
  forall reply,
    (lookup "response" data = Some (JStr reply)
     \/ (lookup "response" data = None /\ reply = "No response content")) ->
    exists self',
      deliver_all worker
        (OllamaThread.emitted
           (OllamaThread.run json_loads requests_post fault_exn worker))
        self = (Returned tt, self')
      /\ conversation_history self'
         = (conversation_history self
            ++ [{| role := assistant; content := reply |}])%list.
Proof.
  intros Hw Hpost H200 Hbody Hu reply Hr.
  assert (Hrun : OllamaThread.emitted
                   (OllamaThread.run json_loads requests_post fault_exn worker)
                 = [response_received reply]).
  { unfold OllamaThread.run. rewrite Hw, Hpost, H200, Hbody. cbn [Nat.eqb].
    destruct Hr as [-> | [-> ->]]; reflexivity. }
  rewrite Hrun. cbn [deliver_all deliver].
  destruct (response_appends reply self (or_introl Hu)) as (s1 & R1 & H1 & _).
  exists s1. split; [|exact H1].
  erewrite bind_returned by exact R1. reflexivity.
Qed.

End EndToEnd.


Lemma complete_reply_is_one_message_witness :
  exists self',
    deliver_all (worker_for "hi" plain_window)
      (OllamaThread.emitted
         (OllamaThread.run example_loads
            (example_post_body [("response", JStr "Hello"); ("done", JBool true)])
            example_fault (worker_for "hi" plain_window)))
      (after_send "hi" plain_window) = (Returned tt, self')
    /\ conversation_history self'
       = [ {| role := user; content := "hi" |};
           {| role := assistant; content := "Hello" |} ].
Proof.
  exact (@complete_reply_is_one_message example_loads
           (example_post_body [("response", JStr "Hello"); ("done", JBool true)])
           example_fault (worker_for "hi" plain_window) _
           [("response", JStr "Hello"); ("done", JBool true)]
           (after_send "hi" plain_window)
           eq_refl eq_refl eq_refl eq_refl eq_refl "Hello" (or_introl eq_refl)).
Defined.

(* ===================================================================== *)
(** * Further properties of the commands *)
(* ===================================================================== *)

(** The first word starts with the word being read. *)
Lemma split_from_head (s w tok : string) (rest : list string) :
  PyStr.truthy w = true ->
  PyStr.split_from w 0 s = tok :: rest ->
  exists t, tok = w ++ t.
Proof.
  revert w. induction s as [| s k E IH | c s E IH] using scan_ind; intros w Hw H.
  - cbn in H. unfold PyStr.emit in H. rewrite Hw in H. inversion H.
    exists EmptyString. symmetry. apply append_nil_r.
  - rewrite (@split_space s w _ E) in H. unfold PyStr.emit in H. rewrite Hw in H.
    inversion H. exists EmptyString. symmetry. apply append_nil_r.
  - rewrite (@split_word _ _ w E) in H.
    apply IH in H; [|rewrite truthy_app, Hw; reflexivity].
    destruct H as [t ->]. exists (String c t). apply append_assoc.
Qed.

(** The stripped text and its first word start with the same character. *)
Lemma strip_first_char (s tok : string) (rest : list string) :
  PyStr.split s = tok :: rest ->
  exists c t r, tok = String c t /\ PyStr.strip s = String c r.
Proof.
  rewrite <- split_lstrip. unfold PyStr.strip.
  pose proof (lstrip_head s) as Hh.
  destruct (PyStr.lstrip s) as [|c r]; [discriminate|].
  unfold PyStr.split. rewrite (@split_word _ _ EmptyString Hh).
  intros H. apply split_from_head in H; [|reflexivity].
  destruct H as [t ->]. exists c, t, (PyStr.rstrip r).
  split; [reflexivity|]. apply rstrip_word. exact Hh.
Qed.

Lemma command_names_slash (tok : string) :
  In tok command_names -> exists t, tok = String "/" t.
Proof.
  unfold command_names. cbn [In].
  intros [<-|[<-|[<-|[<-|[]]]]]; eexists; reflexivity.
Qed.

(** What the actions of the table change. *)
Lemma actions_frame (env : Env) (name : string)
    (c : SlashCommandHandler.Command) (self : t) :
  SlashCommandHandler.find_command name SlashCommandHandler.commands = Some c ->
  exists self',
    SlashCommandHandler.action c env self = (Returned tt, self')
    /\ started self' = started self
    /\ thread self' = thread self
    /\ current_streaming_bubble self' = current_streaming_bubble self
    /\ (name = "/clear" -> conversation_history self' = [])
    /\ (name <> "/clear" -> conversation_history self' = conversation_history self).
Proof.
  unfold SlashCommandHandler.commands. cbn [SlashCommandHandler.find_command].
  destruct (String.eqb_spec name "/clear") as [->|H1].
  { intros H. inversion H; subst c. eexists. split; [reflexivity|].
    repeat split; congruence. }
  destruct (String.eqb_spec name "/models") as [->|H2].
  { intros H. inversion H; subst c. cbn [SlashCommandHandler.action].
    unfold SlashCommandHandler.open_models, show_model_dialog.
    destruct (model_dialog env); eexists; (split; [reflexivity|]);
      repeat split; congruence. }
  destruct (String.eqb_spec name "/system") as [->|H3].
  { intros H. inversion H; subst c. cbn [SlashCommandHandler.action].
    unfold SlashCommandHandler.open_system_prompt, show_system_prompt_dialog.
    destruct (prompt_dialog env); [|eexists; (split; [reflexivity|]);
                                    repeat split; congruence].
    unfold SystemPromptDialog.save_prompt, bind.
    destruct (disk_writable env); eexists; (split; [reflexivity|]);
      repeat split; congruence. }
  destruct (String.eqb_spec name "/bye") as [->|H4].
  { intros H. inversion H; subst c. eexists. split; [reflexivity|].
    repeat split; congruence. }
  discriminate.
Qed.

(** [send_message] on a text that [process_command] handles. *)
Lemma send_message_command (env : Env) (self s1 : t) (message : string) :
  PyStr.strip (message_input self) = message ->
  PyStr.truthy message = true ->
  PyStr.startswith "/" message = true ->
  SlashCommandHandler.process_command env message self = (Returned true, s1) ->
  send_message env self = (Returned tt, set_message_input EmptyString s1).
Proof.
  intros Hm Ht Hs Hp.
  unfold send_message. apply try_returned.
  unfold bind at 1, gets at 1. rewrite Hm, Ht.
  change (negb true) with false. cbv iota. rewrite Hs.
  erewrite bind_returned by exact Hp. reflexivity.
Qed.

(** X5.  An input whose first word is one of the four commands is never
    sent and never recorded: [submit] returns with the input box empty, no
    worker is started, and the history is emptied by /clear and left as it
    was by the other three. *)
Theorem recognized_command_is_not_sent
    (env : Env) (text tok : string) (rest : list string) (self : t) :
  PyStr.split text = tok :: rest ->
  In tok command_names ->
  exists self',
    submit env text self = (Returned tt, self')
    /\ message_input self' = EmptyString
    /\ started self' = started self
    /\ thread self' = thread self
    /\ (tok = "/clear" -> conversation_history self' = [])
    /\ (tok <> "/clear" -> conversation_history self' = conversation_history self).
Proof.
  intros Hsplit Hin.
  destruct (strip_first_char text Hsplit) as (c & w & r & Htok & Hstrip).
  destruct (command_names_slash Hin) as [t' Hslash].
  assert (c = "/"%char) by congruence. subst c.
  apply find_command_names in Hin.
  destruct (SlashCommandHandler.find_command tok SlashCommandHandler.commands)
    as [cmd|] eqn:Hfind; [clear Hin | congruence].
  destruct (@actions_frame env tok cmd (set_message_input text self) Hfind)
    as (s1 & Hact & Hst & Hth & _ & Hclear & Hother).
  exists (set_message_input EmptyString s1). split.
  - unfold submit. erewrite bind_returned by reflexivity.
    apply (@send_message_command env _ s1 (PyStr.strip text)).
    + reflexivity.
    + rewrite Hstrip. reflexivity.
    + rewrite Hstrip. reflexivity.
    + unfold SlashCommandHandler.process_command.
      rewrite split_strip, Hsplit, Hfind.
      erewrite bind_returned by exact Hact. reflexivity.
  - split; [reflexivity|]. split; [exact Hst|]. split; [exact Hth|].
    split; [exact Hclear | exact Hother].
Qed.

Lemma recognized_command_is_not_sent_witness :
  exists self',
    submit dialogs_dismissed "  /bye now" (after_send "hello" streaming_window)
      = (Returned tt, self')
    /\ message_input self' = EmptyString
    /\ started self' = started (after_send "hello" streaming_window)
    /\ thread self' = thread (after_send "hello" streaming_window)
    /\ ("/bye" = "/clear" -> conversation_history self' = [])
    /\ ("/bye" <> "/clear" ->
        conversation_history self'
        = conversation_history (after_send "hello" streaming_window)).
Proof.
  refine (@recognized_command_is_not_sent dialogs_dismissed "  /bye now" "/bye"
            ["now"] (after_send "hello" streaming_window) eq_refl _).
  unfold command_names. cbn [In]. right; right; right; left. reflexivity.
Defined.

(** X6.  Clearing the chat while an accumulation is open leaves the
    pointer set: after "/clear" the history is empty, and the next chunk
    makes [handle_streaming_chunk] raise IndexError without changing
    anything. *)
Theorem chunk_after_clear_raises
    (env : Env) (text : string) (rest : list string) (chunk : string) (self : t) :
  PyStr.split text = "/clear" :: rest ->
  current_streaming_bubble self <> None ->
  exists self',
    submit env text self = (Returned tt, self')
    /\ conversation_history self' = []
    /\ current_streaming_bubble self' = current_streaming_bubble self
    /\ handle_streaming_chunk chunk self' = (Raised IndexError, self').
Proof.
  intros Hsplit Hb.
  destruct (strip_first_char text Hsplit) as (c & w & r & Htok & Hstrip).
  inversion Htok; subst c w.
  set (s1 := set_chat_layout [WelcomeWidget]
               (set_conversation_history [] (set_message_input text self))).
  exists (set_message_input EmptyString s1).
  assert (Hrun : submit env text self
                 = (Returned tt, set_message_input EmptyString s1)).
  { unfold submit. erewrite bind_returned by reflexivity.
    apply (@send_message_command env _ s1 (PyStr.strip text)).
    - reflexivity.
    - rewrite Hstrip. reflexivity.
    - rewrite Hstrip. reflexivity.
    - unfold SlashCommandHandler.process_command.
      rewrite split_strip, Hsplit. reflexivity. }
  split; [exact Hrun|]. split; [reflexivity|]. split; [reflexivity|].
  apply chunk_on_cleared_history; [exact Hb | reflexivity].
Qed.

Lemma chunk_after_clear_raises_witness :
  exists self',
    submit dialogs_dismissed "/clear" B_is_active = (Returned tt, self')
    /\ conversation_history self' = []
    /\ current_streaming_bubble self' = current_streaming_bubble B_is_active
    /\ handle_streaming_chunk "b2" self' = (Raised IndexError, self').
Proof.
  refine (@chunk_after_clear_raises dialogs_dismissed "/clear" [] "b2"
            B_is_active eq_refl _).
  discriminate.
Defined.

Lemma commands_are_named (kc : string * SlashCommandHandler.Command) :
  In kc SlashCommandHandler.commands ->
  In (fst kc) command_names
  /\ SlashCommandHandler.find_command (fst kc) SlashCommandHandler.commands
     = Some (snd kc).
Proof.
  unfold SlashCommandHandler.commands, command_names. cbn [In].
  intros [<-|[<-|[<-|[<-|[]]]]]; cbn [fst snd]; split; auto 6.
Qed.

(** A command name followed by a space is that command, as a text typed
    into the input box. *)
Lemma command_then_space (c : string) :
  In c command_names ->
  PyStr.strip (c ++ " ") = c /\ PyStr.split c = [c].
Proof.
  unfold command_names. cbn [In].
  intros [<-|[<-|[<-|[<-|[]]]]]; split; reflexivity.
Qed.

(** X7.  The predictions for a text are the table commands that start with
    it, offered only when the text starts with '/': every prediction is
    such a command and every such command is predicted.  A prediction that
    is picked ([insert_command]) and submitted is executed as a command:
    the input box ends up empty and no worker is started. *)
Theorem predicted_command_is_executed (env : Env) (text c : string) (self : t) :
  (forall d,
     In (c, d) (SlashCommandHandler.get_predictions text) ->
     PyStr.startswith "/" text = true
     /\ PyStr.startswith text c = true
     /\ In c command_names
     /\ exists self',
          (insert_command c ;; send_message env)%gui self = (Returned tt, self')
          /\ message_input self' = EmptyString
          /\ started self' = started self)
  /\ (In c command_names ->
      PyStr.startswith "/" text = true ->
      PyStr.startswith text c = true ->
      exists d, In (c, d) (SlashCommandHandler.get_predictions text)).
Proof.
  unfold SlashCommandHandler.get_predictions. split.
  - intros d H.
    destruct (PyStr.startswith "/" text) eqn:Hslash; [|destruct H].
    cbn [negb] in H. apply in_map_iff in H. destruct H as (kc & Hkc & H).
    apply filter_In in H. destruct H as [Hin Hpre].
    inversion Hkc; subst c d. clear Hkc.
    destruct (commands_are_named Hin) as [Hname Hfind].
    split; [reflexivity|]. split; [exact Hpre|]. split; [exact Hname|].
    destruct (command_then_space Hname) as [Hstrip Hsplit].
    destruct (@actions_frame env (fst kc) (snd kc)
                (set_message_input (fst kc ++ " ") self) Hfind)
      as (s1 & Hact & Hst & _).
    exists (set_message_input EmptyString s1). split.
    + erewrite bind_returned by reflexivity.
      apply (@send_message_command env _ s1 (fst kc)).
      * exact Hstrip.
      * destruct (command_names_slash Hname) as [w ->]. reflexivity.
      * destruct (command_names_slash Hname) as [w ->]. reflexivity.
      * unfold SlashCommandHandler.process_command. rewrite Hsplit, Hfind.
        erewrite bind_returned by exact Hact. reflexivity.
    + split; [reflexivity | exact Hst].
  - intros Hname Hslash Hpre. rewrite Hslash. cbn [negb].
    apply find_command_names in Hname.
    destruct (SlashCommandHandler.find_command c SlashCommandHandler.commands)
      as [cmd|] eqn:Hfind; [clear Hname | congruence].
    exists (SlashCommandHandler.description cmd).
    apply in_map_iff. exists (c, cmd). split; [reflexivity|].
    apply filter_In. split; [|exact Hpre].
    revert Hfind. unfold SlashCommandHandler.commands.
    cbn [SlashCommandHandler.find_command In].
    destruct (String.eqb_spec c "/clear") as [->|_];
      [intros H; inversion H; auto|].
    destruct (String.eqb_spec c "/models") as [->|_];
      [intros H; inversion H; auto|].
    destruct (String.eqb_spec c "/system") as [->|_];
      [intros H; inversion H; auto|].
    destruct (String.eqb_spec c "/bye") as [->|_];
      [intros H; inversion H; auto 6|].
    discriminate.
Qed.

Lemma predicted_command_is_executed_witness :
  In ("/system", "Configure system prompt") (SlashCommandHandler.get_predictions "/sy")
  /\ exists self',
       (insert_command "/system" ;; send_message dialogs_dismissed)%gui
         streaming_window = (Returned tt, self')
       /\ message_input self' = EmptyString
       /\ started self' = started streaming_window.
Proof.
  assert (H : In ("/system", "Configure system prompt")
                (SlashCommandHandler.get_predictions "/sy")).
  { cbn. left. reflexivity. }
  split; [exact H|].
  exact (proj2 (proj2 (proj2
           (proj1 (@predicted_command_is_executed dialogs_dismissed "/sy"
                     "/system" streaming_window) _ H)))).
Defined.

(* ===================================================================== *)
(** * Notices and the welcome view *)
(* ===================================================================== *)

(** The state [handle_error] leaves. *)
Lemma handle_error_result (error_message : string) (self : t) :
  exists self',
    handle_error error_message self = (Returned tt, self')
    /\ conversation_history self' = conversation_history self
    /\ current_model self' = current_model self
    /\ bubbles_created self' = S (bubbles_created self)
    /\ chat_layout self'
       = ((match conversation_history self with
           | [] => []
           | _ :: _ => chat_layout self
           end)
          ++ [Bubble {| bubble_id := bubbles_created self;
                        bubble_message := "Error: " ++ error_message;
                        is_user := false |}])%list.
Proof.
  destruct self as [h a m s u b l i hd th st c n f].
  unfold handle_error, try_except, bind, gets. cbn.
  destruct h, u; cbn; eexists; (split; [reflexivity|]); cbn; repeat split.
Qed.

(** X8.  Whether a bubble replaces the view is decided by the history, and
    notices are not in the history: an error shown while the history is
    empty is the only widget of the chat view, and the next message that is
    sent removes it, leaving the user's bubble alone in the view. *)
Theorem notice_on_empty_history_is_replaced
    (env : Env) (error_message text : string) (self : t) :
  conversation_history self = [] ->
  no_valid_model (current_model self) = false ->
  PyStr.truthy (PyStr.strip text) = true ->
  PyStr.startswith "/" (PyStr.strip text) = false ->
  let shown := exec (handle_error error_message) self in
  let sent := exec (submit env text) shown in
  chat_layout shown
    = [Bubble {| bubble_id := bubbles_created self;
                 bubble_message := "Error: " ++ error_message;
                 is_user := false |}]
  /\ chat_layout sent
     = [Bubble {| bubble_id := S (bubbles_created self);
                  bubble_message := PyStr.strip text;
                  is_user := true |}]
  /\ conversation_history sent
     = [{| role := user; content := PyStr.strip text |}].
Proof.
  intros Hh Hm Ht Hs shown sent.
  destruct (handle_error_result error_message self)
    as (s1 & R1 & H1 & M1 & N1 & L1).
  assert (Hshown : shown = s1) by (unfold shown, exec; rewrite R1; reflexivity).
  rewrite Hh in H1, L1.
  assert (Hsent : sent
                  = after_send (PyStr.strip text) (set_message_input text s1)).
  { unfold sent, exec, submit. rewrite Hshown.
    erewrite bind_returned by reflexivity.
    erewrite send_message_sends;
      [reflexivity | reflexivity | exact Ht | left; exact Hs |].
    cbn [current_model set_message_input]. rewrite M1. exact Hm. }
  rewrite Hshown, Hsent. split; [exact L1|].
  unfold after_send. cbn [chat_layout conversation_history set_message_input
                            bubbles_created].
  rewrite H1, N1. split; reflexivity.
Qed.

Lemma notice_on_empty_history_is_replaced_witness :
  chat_layout (exec (handle_error "Network error: refused") streaming_window)
    = [Bubble {| bubble_id := 0;
                 bubble_message := "Error: Network error: refused";
                 is_user := false |}]
  /\ chat_layout
       (exec (submit dialogs_dismissed "again")
          (exec (handle_error "Network error: refused") streaming_window))
     = [Bubble {| bubble_id := 1; bubble_message := "again"; is_user := true |}]
  /\ conversation_history
       (exec (submit dialogs_dismissed "again")
          (exec (handle_error "Network error: refused") streaming_window))
     = [{| role := user; content := "again" |}].
Proof.
  exact (@notice_on_empty_history_is_replaced dialogs_dismissed
           "Network error: refused" "again" streaming_window
           eq_refl eq_refl eq_refl eq_refl).
Defined.

(* ===================================================================== *)
(** * Loading a configuration that is not the expected object *)
(* ===================================================================== *)

(** X9.  [load_config] on a file whose fields have the types the program
    writes: it returns normally, and the window it returns differs from the
    one it was given in the system prompt and the streaming flag at most.
    When there is no file, when the file is not JSON, and when it holds
    JSON that is not an object (null, a boolean, a number, a text, an
    array), the window is returned unchanged: the exception raised on the
    way is swallowed. *)
Theorem load_config_is_safe (self : t) :
  (well_typed_config (ollama_config self) = true ->
   exists self',
     load_config self = Some self'
     /\ self' = set_use_streaming (use_streaming self')
                  (set_system_prompt (system_prompt self') self))
  /\ (ollama_config self = None -> load_config self = Some self)
  /\ (ollama_config self = Some OtherText -> load_config self = Some self)
  /\ (forall v,
        ollama_config self = Some (JsonText v) ->
        (forall d, v <> JObj d) ->
        load_config self = Some self).
Proof.
  assert (Hnot : forall v,
            ollama_config self = Some (JsonText v) ->
            (forall d, v <> JObj d) ->
            load_config self = Some self).
  { intros v Hf Hv. unfold load_config, load_field. rewrite Hf.
    destruct v as [|b|n|s|l|d]; cbn [py_in py_getitem]; try reflexivity.
    - destruct (PyStr.contains "system_prompt" s); [reflexivity|].
      destruct (PyStr.contains "use_streaming" s); reflexivity.
    - destruct (existsb (is_the_string "system_prompt") l); [reflexivity|].
      destruct (existsb (is_the_string "use_streaming") l); reflexivity.
    - exfalso. exact (Hv d eq_refl). }
  split; [|split; [|split; [|exact Hnot]]].
  - intros Hty.
    assert (Hid : self = set_use_streaming (use_streaming self)
                           (set_system_prompt (system_prompt self) self))
      by (destruct self; reflexivity).
    destruct (ollama_config self) as [[v|]|] eqn:Hf.
    + destruct v as [|b|n|s|l|d];
        try (exists self; split; [apply (Hnot _ eq_refl); discriminate | exact Hid]).
      unfold load_config, load_field. rewrite Hf.
      cbn [py_in py_getitem]. cbn [well_typed_config] in Hty.
      destruct (lookup "system_prompt" d) as [x|];
        [destruct x; try discriminate Hty; cbn [assign_system_prompt]|];
        (destruct (lookup "use_streaming" d) as [y|];
         [destruct y; try discriminate Hty; cbn [assign_use_streaming]|]);
        (eexists; split; [reflexivity|]); destruct self; reflexivity.
    + exists self. split; [|exact Hid]. unfold load_config. rewrite Hf. reflexivity.
    + exists self. split; [|exact Hid]. unfold load_config. rewrite Hf. reflexivity.
  - intros Hf. unfold load_config. rewrite Hf. reflexivity.
  - intros Hf. unfold load_config. rewrite Hf. reflexivity.
Qed.

Lemma load_config_is_safe_witness :
  load_config
    (set_ollama_config
       (Some (JsonText (JArr [JStr "system_prompt"; JStr "use_streaming"])))
       streaming_window)
  = Some (set_ollama_config
            (Some (JsonText (JArr [JStr "system_prompt"; JStr "use_streaming"])))
            streaming_window).
Proof.
  refine (proj2 (proj2 (proj2
            (load_config_is_safe
               (set_ollama_config
                  (Some (JsonText (JArr [JStr "system_prompt";
                                         JStr "use_streaming"])))
                  streaming_window))))
            (JArr [JStr "system_prompt"; JStr "use_streaming"]) eq_refl _).
  discriminate.
Defined.

(* ===================================================================== *)
(** * The streaming bubble in the chat view *)
(* ===================================================================== *)





(* ===================================================================== *)
(** * The words of a formatted name *)
(* ===================================================================== *)

Lemma upper_char_not_space (c : ascii) :
  PyStr.upper_char c = c \/ space_lead (PyStr.upper_char c) = false.
Proof.
  destruct c as [[] [] [] [] [] [] [] []]; vm_compute; auto.
Qed.

Lemma capitalize_word_token (w : string) : token w -> token (capitalize_word w).
Proof.
  intros [Ht Hs]. unfold capitalize_word.
  destruct (_ || _); [split; assumption|].
  destruct w as [|c w]; [discriminate Ht|].
  cbn [capitalize_first]. split; [reflexivity|].
  destruct (upper_char_not_space c) as [-> | Hc]; [exact Hs|].
  cbn [no_space] in *. apply andb_prop in Hs. destruct Hs as [_ Hs].
  rewrite (space_len_lead _ w Hc), Hs. reflexivity.
Qed.

(** A word, a space, and the rest. *)
Lemma split_from_word_space (x : string) :
  forall w s,
    no_space x = true ->
    PyStr.truthy (w ++ x) = true ->
    PyStr.split_from w 0 (x ++ String " " s)
    = (w ++ x) :: PyStr.split_from EmptyString 0 s.
Proof.
  induction x as [|c x IH]; intros w s Hx Hw.
  - rewrite append_nil_r in *. cbn [String.append].
    rewrite (@split_space (String " " s) w 0 eq_refl).
    unfold PyStr.emit. rewrite Hw. reflexivity.
  - cbn [no_space] in Hx. apply andb_prop in Hx. destruct Hx as [Hc Hx].
    apply Nat.eqb_eq in Hc.
    pose proof (@space_len_then_ascii c x " " s Hc eq_refl) as Hc'.
    cbn [String.append] in Hc' |- *. rewrite (@split_word _ _ w Hc').
    rewrite IH; [rewrite append_assoc; reflexivity | exact Hx |].
    rewrite append_assoc. exact Hw.
Qed.

(** Splitting what was joined with single spaces gives the words back. *)
Lemma split_join (words : list string) :
  Forall token words -> PyStr.split (PyStr.join " " words) = words.
Proof.
  unfold PyStr.join.
  induction 1 as [|x ws Hx Hws IH]; [reflexivity|].
  cbn [String.concat]. destruct ws as [|y l].
  - apply split_token. exact Hx.
  - destruct Hx as [Ht Hs]. unfold PyStr.split.
    change (x ++ " " ++ String.concat " " (y :: l))
      with (x ++ String " " (String.concat " " (y :: l))).
    rewrite (split_from_word_space x EmptyString _ Hs Ht).
    cbn [String.append]. f_equal. exact IH.
Qed.

(** The formatted name and the family are made from one list of words. *)
Lemma format_model_name_words (name : string) :
  exists processed,
    formatted_name (format_model_name name)
    = PyStr.join " " (map capitalize_word (PyStr.split processed))
    /\ base_family (format_model_name name)
       = hd EmptyString (map capitalize_word (PyStr.split processed)).
Proof.
  unfold format_model_name.
  destruct (PyStr.partition ":" _) as [[before after]|];
    cbn [formatted_name base_family]; eexists; split; try reflexivity;
    match goal with
    | |- match ?l with _ => _ end = hd _ ?l => destruct l; reflexivity
    end.
Qed.

(** X11.  The formatted name is a list of words joined by single spaces,
    without white space at either end: splitting it gives those words back,
    and the family key is the first of them (empty when there is none). *)
Theorem family_is_first_word (name : string) :
  let info := format_model_name name in
  exists words,
    Forall token words
    /\ formatted_name info = PyStr.join " " words
    /\ PyStr.split (formatted_name info) = words
    /\ base_family info = hd EmptyString words.
Proof.
  intros info. destruct (format_model_name_words name) as (processed & Hf & Hb).
  exists (map capitalize_word (PyStr.split processed)).
  assert (Hw : Forall token (map capitalize_word (PyStr.split processed))).
  { apply Forall_forall. intros w Hin. apply in_map_iff in Hin.
    destruct Hin as (w0 & <- & Hin). apply capitalize_word_token.
    pose proof (split_tokens processed) as Ht.
    rewrite Forall_forall in Ht. apply Ht. exact Hin. }
  split; [exact Hw|]. split; [exact Hf|]. split; [|exact Hb].
  unfold info. rewrite Hf. apply split_join. exact Hw.
Qed.

(* ===================================================================== *)
(** * The separators of an identifier *)
(* ===================================================================== *)

Lemma no_separator_app (a b : string) :
  no_separator (a ++ b) = no_separator a && no_separator b.
Proof.
  induction a as [|c a IH]; [reflexivity|].
  cbn [String.append no_separator]. rewrite IH. apply andb_assoc.
Qed.

Lemma split_on_nonempty (sep : ascii) (s : string) : PyStr.split_on sep s <> [].
Proof.
  destruct s as [|c s]; [discriminate|].
  cbn [PyStr.split_on]. destruct (PyStr.split_on sep s); [discriminate|].
  destruct (Ascii.eqb c sep); discriminate.
Qed.

(** The pieces between separators do not hold the separator. *)
Lemma split_on_lacks_sep (sep : ascii) (s : string) :
  Forall (fun w => PyStr.contains_char sep w = false) (PyStr.split_on sep s).
Proof.
  induction s as [|c s IH]; [repeat constructor|].
  cbn [PyStr.split_on]. pose proof (split_on_nonempty sep s) as Hne.
  destruct (PyStr.split_on sep s) as [|w ws].
  - congruence.
  - inversion IH; subst. destruct (Ascii.eqb c sep) eqn:E.
    + constructor; [reflexivity | assumption].
    + constructor; [|assumption]. cbn [PyStr.contains_char].
      rewrite Ascii.eqb_sym, E. assumption.
Qed.

(** The text before the first colon holds no colon and nothing new. *)
Lemma partition_before (sep : ascii) (s a b : string) :
  PyStr.partition sep s = Some (a, b) ->
  PyStr.contains_char sep a = false
  /\ forall c, PyStr.contains_char c s = false -> PyStr.contains_char c a = false.
Proof.
  revert a b. induction s as [|d s IH]; intros a b H; [discriminate|].
  cbn [PyStr.partition] in H. destruct (Ascii.eqb d sep) eqn:E.
  - inversion H; subst. split; [reflexivity|]. intros; reflexivity.
  - destruct (PyStr.partition sep s) as [[a' b']|]; [|discriminate].
    inversion H; subst. destruct (IH a' b eq_refl) as [Ha Hc].
    split.
    + cbn [PyStr.contains_char]. rewrite Ascii.eqb_sym, E. exact Ha.
    + intros c Hs. cbn [PyStr.contains_char] in *.
      apply orb_false_elim in Hs. destruct Hs as [H1 H2].
      rewrite H1. apply Hc. exact H2.
Qed.

Lemma partition_none_lacks (sep : ascii) (s : string) :
  PyStr.partition sep s = None -> PyStr.contains_char sep s = false.
Proof.
  induction s as [|d s IH]; intros H; [reflexivity|].
  cbn [PyStr.partition] in H. cbn [PyStr.contains_char].
  destruct (Ascii.eqb d sep) eqn:E; [discriminate|].
  rewrite Ascii.eqb_sym, E.
  destruct (PyStr.partition sep s) as [[a b]|]; [discriminate|].
  apply IH. reflexivity.
Qed.

(** Replacing one character by another is a map over the text. *)
Lemma replace_char (a b : ascii) (s : string) :
  PyStr.replace (String a EmptyString) (String b EmptyString) s
  = PyStr.map_chars (fun c => if Ascii.eqb a c then b else c) s.
Proof.
  unfold PyStr.replace. cbn [PyStr.truthy].
  induction s as [|c s IH]; [reflexivity|].
  cbn [PyStr.replace_from PyStr.startswith PyStr.map_chars String.length].
  rewrite andb_true_r. destruct (Ascii.eqb a c).
  - cbn [Nat.sub String.append]. rewrite IH. reflexivity.
  - rewrite IH. reflexivity.
Qed.

Lemma dash_and_underscore_to_space (c : ascii) :
  Ascii.eqb "/" c = false ->
  Ascii.eqb ":" c = false ->
  is_separator
    ((fun c => if Ascii.eqb "_" c then " "%char else c)
       ((fun c => if Ascii.eqb "-" c then " "%char else c) c)) = false.
Proof.
  destruct c as [[] [] [] [] [] [] [] []]; vm_compute; auto.
Qed.

Lemma spaced_name_no_separator (s : string) :
  PyStr.contains_char "/" s = false ->
  PyStr.contains_char ":" s = false ->
  no_separator (PyStr.replace "_" " " (PyStr.replace "-" " " s)) = true.
Proof.
  rewrite !replace_char.
  induction s as [|c s IH]; intros H1 H2; [reflexivity|].
  cbn [PyStr.contains_char] in H1, H2.
  apply orb_false_elim in H1. destruct H1 as [Hc1 H1].
  apply orb_false_elim in H2. destruct H2 as [Hc2 H2].
  cbn [PyStr.map_chars no_separator].
  rewrite (dash_and_underscore_to_space c Hc1 Hc2), (IH H1 H2). reflexivity.
Qed.

(** A substitution brings in the characters of the replacement only. *)
Lemma sub_from_no_separator (icase : bool) (r : Re.regex) (repl : string) :
  no_separator repl = true ->
  forall s skip prev,
    no_separator s = true ->
    no_separator (Re.sub_from icase r repl skip prev s) = true.
Proof.
  intros Hrepl. induction s as [|c s IH]; intros skip prev Hs; [reflexivity|].
  cbn [no_separator] in Hs. apply andb_prop in Hs. destruct Hs as [Hc Hs].
  cbn [Re.sub_from]. destruct skip as [|n]; [|apply IH; exact Hs].
  destruct (Re.match_here icase r prev (String c s)) as [[[|d m] rest]|].
  - cbn [no_separator]. rewrite Hc, IH by exact Hs. reflexivity.
  - rewrite no_separator_app, Hrepl, IH by exact Hs. reflexivity.
  - cbn [no_separator]. rewrite Hc, IH by exact Hs. reflexivity.
Qed.

Lemma families_no_separator (families : list (string * string)) :
  Forall (fun kv => no_separator (snd kv) = true) families ->
  forall name,
    no_separator name = true ->
    no_separator
      (fold_left (fun name kv => Re.sub true (whole_word (fst kv)) (snd kv) name)
         families name) = true.
Proof.
  induction 1 as [|kv rest Hkv _ IH]; intros name Hn; [exact Hn|].
  cbn [fold_left]. apply IH. unfold Re.sub.
  apply sub_from_no_separator; assumption.
Qed.

Lemma split_from_no_separator (s : string) :
  forall w k,
    no_separator w = true ->
    no_separator s = true ->
    Forall (fun x => no_separator x = true) (PyStr.split_from w k s).
Proof.
  induction s as [|c s IH]; intros w k Hw Hs; cbn [PyStr.split_from].
  - unfold PyStr.emit. destruct (PyStr.truthy w); repeat constructor. exact Hw.
  - cbn [no_separator] in Hs. apply andb_prop in Hs. destruct Hs as [Hc Hs].
    destruct k as [|k]; [|apply IH; assumption].
    destruct (PyStr.space_len (String c s)).
    + apply IH; [|exact Hs]. rewrite no_separator_app, Hw.
      cbn [no_separator]. rewrite Hc. reflexivity.
    + unfold PyStr.emit. destruct (PyStr.truthy w).
      * constructor; [exact Hw | apply IH; [reflexivity | exact Hs]].
      * apply IH; [reflexivity | exact Hs].
Qed.

Lemma upper_char_not_separator (c : ascii) :
  is_separator c = false -> is_separator (PyStr.upper_char c) = false.
Proof.
  destruct c as [[] [] [] [] [] [] [] []]; vm_compute; auto.
Qed.

Lemma capitalize_word_no_separator (w : string) :
  no_separator w = true -> no_separator (capitalize_word w) = true.
Proof.
  intros H. unfold capitalize_word. destruct (_ || _); [exact H|].
  destruct w as [|c w]; [reflexivity|].
  cbn [capitalize_first no_separator] in *.
  apply andb_prop in H. destruct H as [Hc Hw].
  apply negb_true_iff in Hc.
  rewrite (upper_char_not_separator c Hc), Hw. reflexivity.
Qed.

Lemma join_no_separator (words : list string) :
  Forall (fun x => no_separator x = true) words ->
  no_separator (PyStr.join " " words) = true.
Proof.
  unfold PyStr.join. induction 1 as [|x ws Hx _ IH]; [reflexivity|].
  cbn [String.concat]. destruct ws as [|y l]; [exact Hx|].
  rewrite !no_separator_app, Hx, IH. reflexivity.
Qed.

(** X12.  The formatted name holds none of the characters '/', ':', '-'
    and '_', whatever the identifier: the path and the tag are cut off,
    dashes and underscores become spaces, and neither the family names nor
    the marker for "uncensored" bring one back. *)
Theorem formatted_name_has_no_separator (name : string) :
  no_separator (formatted_name (format_model_name name)) = true.
Proof.
  unfold format_model_name.
  set (base := if PyStr.contains_char "/" name
               then last (PyStr.split_on "/" name) EmptyString else name).
  assert (Hslash : PyStr.contains_char "/" base = false).
  { unfold base. destruct (PyStr.contains_char "/" name) eqn:E; [|exact E].
    apply (@last_Forall string (fun w => PyStr.contains_char "/" w = false));
      [apply split_on_lacks_sep | reflexivity]. }
  assert (Hchain : forall stem,
            PyStr.contains_char "/" stem = false ->
            PyStr.contains_char ":" stem = false ->
            no_separator
              (PyStr.join " "
                 (map capitalize_word
                    (PyStr.split
                       (Re.sub true (whole_word "uncensored") uncensored_marker
                          (fold_left
                             (fun name kv =>
                                Re.sub true (whole_word (fst kv)) (snd kv) name)
                             model_families
                             (PyStr.replace "_" " "
                                (PyStr.replace "-" " " stem))))))) = true).
  { intros stem H1 H2. apply join_no_separator.
    apply Forall_forall. intros w Hin. apply in_map_iff in Hin.
    destruct Hin as (w0 & <- & Hin). apply capitalize_word_no_separator.
    revert w0 Hin. apply Forall_forall. unfold PyStr.split.
    apply split_from_no_separator; [reflexivity|].
    unfold Re.sub at 1. apply sub_from_no_separator; [vm_compute; reflexivity|].
    apply families_no_separator.
    - unfold model_families.
      repeat (apply Forall_cons; [vm_compute; reflexivity|]). apply Forall_nil.
    - apply spaced_name_no_separator; assumption. }
  destruct (PyStr.partition ":" base) as [[before after]|] eqn:Hp;
    cbn [formatted_name].
  - destruct (partition_before _ _ Hp) as [Hcolon Hkeep].
    apply Hchain; [apply Hkeep; exact Hslash | exact Hcolon].
  - apply Hchain; [exact Hslash | apply partition_none_lacks; exact Hp].
Qed.

(* ===================================================================== *)
(** * The tree of models *)
(* ===================================================================== *)

Lemma ltb_leb (a b : string) : String.ltb a b = true -> String.leb a b = true.
Proof.
  unfold String.ltb, String.leb. destruct (String.compare a b); congruence.
Qed.

Lemma not_ltb_leb (a b : string) : String.ltb a b = false -> String.leb b a = true.
Proof.
  unfold String.ltb, String.leb. rewrite (String.compare_antisym b a).
  destruct (String.compare a b); cbn; congruence.
Qed.

Section Sorting.

Variable A : Type.
Variable key : A -> string.

Lemma insert_sorted_perm (x : A) (l : list A) :
  Permutation (MSD.insert_sorted key x l) (x :: l).
Proof.
  induction l as [|y l IH]; cbn [MSD.insert_sorted]; [apply Permutation_refl|].
  destruct (String.ltb (key y) (key x)); [|apply Permutation_refl].
  apply Permutation_trans with (y :: x :: l).
  - apply perm_skip. exact IH.
  - apply perm_swap.
Qed.

Lemma sorted_by_perm (l : list A) : Permutation (MSD.sorted_by key l) l.
Proof.
  induction l as [|x l IH]; cbn [MSD.sorted_by]; [apply perm_nil|].
  apply Permutation_trans with (x :: MSD.sorted_by key l).
  - apply insert_sorted_perm.
  - apply perm_skip. exact IH.
Qed.

Lemma insert_sorted_sorted (x : A) (l : list A) :
  Sorted (key_le key) l -> Sorted (key_le key) (MSD.insert_sorted key x l).
Proof.
  induction l as [|y l IH]; intros Hs; cbn [MSD.insert_sorted].
  - repeat constructor.
  - destruct (String.ltb (key y) (key x)) eqn:E.
    + inversion Hs as [|y' l' Hl Hhd]; subst. constructor; [apply IH; exact Hl|].
      destruct l as [|z l]; cbn [MSD.insert_sorted].
      * constructor. apply ltb_leb. exact E.
      * destruct (String.ltb (key z) (key x)).
        -- inversion Hhd; subst. constructor. assumption.
        -- constructor. apply ltb_leb. exact E.
    + constructor; [exact Hs|]. constructor. apply not_ltb_leb. exact E.
Qed.

Lemma sorted_by_sorted (l : list A) : Sorted (key_le key) (MSD.sorted_by key l).
Proof.
  induction l as [|x l IH]; cbn [MSD.sorted_by]; [constructor|].
  apply insert_sorted_sorted. exact IH.
Qed.

Lemma sorted_keys (l : list A) :
  Sorted (key_le key) l -> Sorted (fun a b => String.leb a b = true) (map key l).
Proof.
  induction 1 as [|x l _ IH Hhd]; cbn [map]; constructor; [exact IH|].
  destruct Hhd; cbn [map]; constructor. assumption.
Qed.

End Sorting.

Lemma flat_map_perm {A B : Type} (f : A -> list B) (l l' : list A) :
  Permutation l l' -> Permutation (flat_map f l) (flat_map f l').
Proof.
  induction 1 as [|x l l' _ IH|x y l|l l' l'' _ IH1 _ IH2]; cbn [flat_map].
  - apply perm_nil.
  - apply Permutation_app_head. exact IH.
  - rewrite !app_assoc. apply Permutation_app_tail. apply Permutation_app_comm.
  - eapply Permutation_trans; eassumption.
Qed.

Lemma flat_map_perm_pointwise {A B : Type} (f g : A -> list B) (l : list A) :
  (forall x, In x l -> Permutation (f x) (g x)) ->
  Permutation (flat_map f l) (flat_map g l).
Proof.
  induction l as [|x l IH]; intros H; cbn [flat_map]; [apply perm_nil|].
  apply Permutation_app; [apply H; left; reflexivity|].
  apply IH. intros y Hy. apply H. right. exact Hy.
Qed.

(** The groups keep their keys apart, hold every model once, and hold each
    model under the key it was added with. *)
Lemma add_to_family_keys (key : string) (info : ModelInfo)
    (d : list (string * list ModelInfo)) :
  forall k, In k (map fst (MSD.add_to_family key info d))
            <-> k = key \/ In k (map fst d).
Proof.
  induction d as [|[k0 l0] rest IH]; intros k; cbn [MSD.add_to_family map In fst].
  - intuition.
  - destruct (String.eqb_spec key k0) as [->|Hne]; cbn [map In fst].
    + intuition.
    + rewrite IH. intuition.
Qed.

Lemma add_to_family_nodup (key : string) (info : ModelInfo)
    (d : list (string * list ModelInfo)) :
  NoDup (map fst d) -> NoDup (map fst (MSD.add_to_family key info d)).
Proof.
  induction d as [|[k0 l0] rest IH]; intros H; cbn [MSD.add_to_family map fst].
  - repeat constructor. intros [].
  - cbn [map fst] in H. inversion H as [|k1 ks Hnotin Hnd]; subst.
    destruct (String.eqb_spec key k0) as [->|Hne]; cbn [map fst].
    + constructor; assumption.
    + constructor; [|apply IH; exact Hnd].
      rewrite add_to_family_keys. intros [->|Hin]; [congruence | contradiction].
Qed.

Lemma add_to_family_perm (key : string) (info : ModelInfo)
    (d : list (string * list ModelInfo)) :
  Permutation (flat_map snd (MSD.add_to_family key info d))
    (info :: flat_map snd d).
Proof.
  induction d as [|[k0 l0] rest IH]; cbn [MSD.add_to_family flat_map snd].
  - apply Permutation_refl.
  - destruct (String.eqb key k0); cbn [flat_map snd].
    + rewrite <- app_assoc. cbn [app].
      apply Permutation_sym, Permutation_middle.
    + apply Permutation_trans with (l0 ++ info :: flat_map snd rest)%list.
      * apply Permutation_app_head. exact IH.
      * apply Permutation_sym, Permutation_middle.
Qed.

Lemma add_to_family_grouped (info : ModelInfo)
    (d : list (string * list ModelInfo)) :
  well_grouped d -> well_grouped (MSD.add_to_family (base_family info) info d).
Proof.
  unfold well_grouped.
  induction d as [|[k0 l0] rest IH]; intros H; cbn [MSD.add_to_family].
  - constructor; [|constructor]. cbn [fst snd].
    split; [discriminate | repeat constructor].
  - inversion H as [|kv d' [Hne Hall] Hrest]; subst. cbn [fst snd] in *.
    destruct (String.eqb_spec (base_family info) k0) as [E|E].
    + constructor; [|exact Hrest]. cbn [fst snd]. split.
      * destruct l0; discriminate.
      * apply Forall_app. split; [exact Hall | repeat constructor; exact E].
    + constructor; [split; assumption | apply IH; exact Hrest].
Qed.

Lemma group_fold (model_names : list string) :
  forall d,
    let d' :=
      fold_left
        (fun d name =>
           let model_info := format_model_name name in
           MSD.add_to_family (base_family model_info) model_info d)
        model_names d in
    (NoDup (map fst d) -> NoDup (map fst d'))
    /\ (well_grouped d -> well_grouped d')
    /\ Permutation (flat_map snd d')
         (map format_model_name model_names ++ flat_map snd d).
Proof.
  induction model_names as [|name rest IH]; intros d; cbn [fold_left map app].
  - split; [auto|]. split; [auto | apply Permutation_refl].
  - destruct (IH (MSD.add_to_family (base_family (format_model_name name))
                    (format_model_name name) d)) as (Hn & Hg & Hp).
    split; [|split].
    + intros H. apply Hn, add_to_family_nodup, H.
    + intros H. apply Hg, add_to_family_grouped, H.
    + eapply Permutation_trans; [exact Hp|].
      eapply Permutation_trans;
        [apply Permutation_app_head, add_to_family_perm|].
      apply Permutation_sym, Permutation_middle.
Qed.

Lemma original_name_kept (name : string) :
  original_name (format_model_name name) = name.
Proof.
  unfold format_model_name.
  destruct (PyStr.partition ":" _) as [[before after]|]; reflexivity.
Qed.

Lemma tree_of_groups (groups : list (string * list ModelInfo)) :
  MSD.family_texts
    (map (fun kv => MSD.Family (fst kv)
                      (map MSD.model_item (MSD.sorted_by formatted_name (snd kv))))
       groups) = map fst groups
  /\ MSD.listed_models
       (map (fun kv => MSD.Family (fst kv)
                         (map MSD.model_item
                            (MSD.sorted_by formatted_name (snd kv))))
          groups)
     = flat_map (fun kv => map MSD.model_item
                             (MSD.sorted_by formatted_name (snd kv))) groups.
Proof.
  unfold MSD.family_texts, MSD.listed_models.
  induction groups as [|kv rest [IH1 IH2]]; [split; reflexivity|].
  cbn [map flat_map app]. rewrite IH1, IH2. split; reflexivity.
Qed.

Lemma sorted_items (l : list ModelInfo) :
  Sorted (key_le formatted_name) l ->
  Sorted
    (fun a b =>
       String.leb (formatted_name (MSD.model_data a))
         (formatted_name (MSD.model_data b)) = true)
    (map MSD.model_item l).
Proof.
  induction 1 as [|x l _ IH Hhd]; cbn [map]; constructor; [exact IH|].
  destruct Hhd; cbn [map]; constructor. assumption.
Qed.

(** X13.  The tree built from a non-empty list of fetched names shows
    every model exactly once.  Its top-level items are families, in
    ascending order of their texts and without repetition; every family
    has at least one model; every model stands under the family that is
    its [base_family], with its name and size as text; and the models of a
    family are in ascending order of their formatted names.  An empty list
    gives the single line "No models found". *)
Theorem tree_lists_each_model_once (model_names : list string) :
  let tree := MSD.build_tree model_names in
  (model_names = [] -> tree = [MSD.Notice "No models found"])
  /\ (model_names <> [] ->
      Permutation
        (map (fun item => original_name (MSD.model_data item))
           (MSD.listed_models tree))
        model_names
      /\ Sorted (fun a b => String.leb a b = true) (MSD.family_texts tree)
      /\ NoDup (MSD.family_texts tree)
      /\ Forall
           (fun item =>
              match item with
              | MSD.Notice _ => False
              | MSD.Family text children =>
                  children <> []
                  /\ Forall
                       (fun child =>
                          base_family (MSD.model_data child) = text
                          /\ MSD.item_text child
                             = MSD.display_text (MSD.model_data child))
                       children
                  /\ Sorted
                       (fun a b =>
                          String.leb (formatted_name (MSD.model_data a))
                            (formatted_name (MSD.model_data b)) = true)
                       children
              end) tree).
Proof.
  intros tree. split; [intros ->; reflexivity|].
  intros Hne. unfold tree, MSD.build_tree.
  destruct model_names as [|first others]; [congruence|]. clear Hne tree.
  set (names := first :: others).
  set (groups := MSD.group_by_family names).
  destruct (group_fold names []) as (Hnodup & Hgrouped & Hperm).
  fold groups in Hnodup, Hgrouped, Hperm. cbv zeta in Hnodup, Hgrouped, Hperm.
  change (fold_left _ names []) with groups in Hnodup, Hgrouped, Hperm.
  specialize (Hnodup (NoDup_nil _)). specialize (Hgrouped (Forall_nil _)).
  cbn [flat_map] in Hperm. rewrite app_nil_r in Hperm.
  pose proof (sorted_by_perm fst groups) as Hsorted.
  destruct (tree_of_groups (MSD.sorted_by fst groups)) as [Htexts Hlisted].
  rewrite Htexts, Hlisted. split; [|split; [|split]].
  - rewrite flat_map_concat_map, concat_map, map_map, <- flat_map_concat_map.
    apply Permutation_trans
      with (flat_map (fun kv => map original_name (snd kv))
              (MSD.sorted_by fst groups)).
    + apply flat_map_perm_pointwise. intros kv _. rewrite map_map. cbn [MSD.model_data MSD.model_item].
      apply Permutation_map, sorted_by_perm.
    + apply Permutation_trans
        with (flat_map (fun kv => map original_name (snd kv)) groups);
        [apply flat_map_perm; exact Hsorted|].
      rewrite flat_map_concat_map, <- map_map, <- concat_map,
        <- flat_map_concat_map.
      apply Permutation_trans with (map original_name (map format_model_name names));
        [apply Permutation_map; exact Hperm|].
      rewrite map_map.
      rewrite (map_ext _ (fun x => x) original_name_kept), map_id.
      apply Permutation_refl.
  - apply sorted_keys, sorted_by_sorted.
  - apply (Permutation_NoDup (l := map fst groups));
      [apply Permutation_map, Permutation_sym; exact Hsorted | exact Hnodup].
  - apply Forall_forall. intros item Hin. apply in_map_iff in Hin.
    destruct Hin as (kv & <- & Hkv).
    apply (Permutation_in _ Hsorted) in Hkv.
    unfold well_grouped in Hgrouped. rewrite Forall_forall in Hgrouped.
    destruct (Hgrouped kv Hkv) as [Hnonempty Hfamily].
    pose proof (sorted_by_perm formatted_name (snd kv)) as Hps.
    split; [|split].
    + intros Hnil. apply map_eq_nil in Hnil. rewrite Hnil in Hps.
      apply Permutation_nil in Hps. contradiction.
    + apply Forall_forall. intros child Hchild. apply in_map_iff in Hchild.
      destruct Hchild as (info & <- & Hinfo). cbn [MSD.model_item MSD.model_data MSD.item_text].
      split; [|reflexivity].
      apply (Permutation_in _ Hps) in Hinfo.
      rewrite Forall_forall in Hfamily. apply Hfamily. exact Hinfo.
    + apply sorted_items, sorted_by_sorted.
Qed.

(** The model items of the tree are those of the fetched names. *)
Lemma listed_models_perm (model_names : list string) :
  Permutation (MSD.listed_models (MSD.build_tree model_names))
    (map (fun name => MSD.model_item (format_model_name name)) model_names).
Proof.
  unfold MSD.build_tree.
  destruct model_names as [|first others]; [apply perm_nil|].
  set (names := first :: others).
  destruct (group_fold names []) as (_ & _ & Hperm).
  cbv zeta in Hperm. cbn [flat_map] in Hperm. rewrite app_nil_r in Hperm.
  destruct (tree_of_groups (MSD.sorted_by fst (MSD.group_by_family names)))
    as [_ Hlisted].
  rewrite Hlisted.
  apply Permutation_trans
    with (flat_map (fun kv => map MSD.model_item (snd kv))
            (MSD.sorted_by fst (MSD.group_by_family names))).
  - apply flat_map_perm_pointwise. intros kv _.
    apply Permutation_map, sorted_by_perm.
  - apply Permutation_trans
      with (flat_map (fun kv => map MSD.model_item (snd kv))
              (MSD.group_by_family names));
      [apply flat_map_perm, sorted_by_perm|].
    rewrite flat_map_concat_map, <- map_map, <- concat_map,
      <- flat_map_concat_map.
    rewrite <- (map_map format_model_name MSD.model_item).
    apply Permutation_map. exact Hperm.
Qed.

(** X14.  The model dialog is accepted only with a model item selected.
    When the item is one of the tree built from the fetched names, the
    model handed to the window is one of those names, the endpoint is the
    stripped text of the URL field, and the header of the window shows the
    text of the item; with a family, a notice or nothing selected the
    dialog is not accepted. *)
Theorem applied_model_is_listed
    (model_names : list string) (api_url_input : string) (item : MSD.ModelItem) :
  In item (MSD.listed_models (MSD.build_tree model_names)) ->
  (exists choice,
     MSD.apply_settings api_url_input (MSD.ModelSelected item) = Some choice
     /\ In (selected_model choice) model_names
     /\ MSD.model_data item = format_model_name (selected_model choice)
     /\ forall self,
          let self' := exec (show_model_dialog (accepts choice)) self in
          current_model self' = selected_model choice
          /\ api_url self' = PyStr.strip api_url_input
          /\ header_title self' = MSD.item_text item
          /\ conversation_history self' = conversation_history self)
  /\ MSD.apply_settings api_url_input MSD.NothingSelected = None
  /\ forall top, MSD.apply_settings api_url_input (MSD.TopLevelSelected top) = None.
Proof.
  intros Hin. split; [|split; reflexivity].
  apply (Permutation_in _ (listed_models_perm model_names)) in Hin.
  apply in_map_iff in Hin. destruct Hin as (name & <- & Hname).
  eexists. split; [reflexivity|].
  cbn [selected_model MSD.model_item MSD.model_data MSD.item_text].
  rewrite original_name_kept.
  split; [exact Hname|]. split; [reflexivity|].
  intros self. repeat split.
Qed.

Lemma applied_model_is_listed_witness :
  exists choice,
    MSD.apply_settings " http://localhost:11434 "
      (MSD.ModelSelected (MSD.model_item (format_model_name "llama2:7b")))
    = Some choice
    /\ In (selected_model choice) example_models
    /\ header_title (exec (show_model_dialog (accepts choice)) fresh_window)
       = "Llama2 (7b)".
Proof.
  destruct (@applied_model_is_listed example_models " http://localhost:11434 "
              (MSD.model_item (format_model_name "llama2:7b")))
    as [(choice & Happly & Hin & _ & Hwindow) _].
  - vm_compute. right; left. reflexivity.
  - exists choice. split; [exact Happly|]. split; [exact Hin|].
    destruct (Hwindow fresh_window) as (_ & _ & Hheader & _).
    rewrite Hheader. vm_compute. reflexivity.
Defined.

(* ===================================================================== *)
(** * Signals that arrive out of turn or report a failure *)
(* ===================================================================== *)

(** X15.  With streaming on and an accumulation open, a final result
    closes the accumulation whichever worker it comes from and its text is
    dropped; the next chunk then opens a second assistant message instead
    of extending the one that was being built. *)
Theorem final_result_splits_the_open_message
    (a b : OllamaThread.t) (response chunk : string) (self : t) :
  OllamaThread.use_streaming b = true ->
  use_streaming self = true ->
  current_streaming_bubble self <> None ->
  exists closed reopened,
    deliver a (response_received response) self = (Returned tt, closed)
    /\ conversation_history closed = conversation_history self
    /\ current_streaming_bubble closed = None
    /\ deliver b (streaming_chunk_received chunk) closed = (Returned tt, reopened)
    /\ conversation_history reopened
       = (conversation_history self
          ++ [{| role := assistant; content := chunk |}])%list.
Proof.
  intros Hb Hu Hp.
  exists (set_current_streaming_bubble None self).
  destruct (chunk_opens chunk (set_current_streaming_bubble None self) eq_refl)
    as (s2 & R2 & H2 & _).
  exists s2. cbn [deliver]. rewrite Hb.
  split; [apply response_closes; assumption|].
  split; [reflexivity|]. split; [reflexivity|].
  split; [exact R2 | exact H2].
Qed.

Lemma final_result_splits_the_open_message_witness :
  exists closed reopened,
    deliver request_A (response_received "answer to A") B_is_active
      = (Returned tt, closed)
    /\ conversation_history closed = conversation_history B_is_active
    /\ current_streaming_bubble closed = None
    /\ deliver request_B (streaming_chunk_received "b2") closed
       = (Returned tt, reopened)
    /\ conversation_history reopened
       = [ {| role := user; content := "question A" |};
           {| role := user; content := "question B" |};
           {| role := assistant; content := "b1" |};
           {| role := assistant; content := "b2" |} ].
Proof.
  refine (@final_result_splits_the_open_message request_A request_B
            "answer to A" "b2" B_is_active eq_refl eq_refl _).
  discriminate.
Defined.

Section Failure.

Variable json_loads : string -> outcome json.
Variable requests_post :
  string -> list (string * json) -> bool -> outcome OllamaThread.Response.
Variable fault_exn : fault -> exn.

(** X16.  A request answered with a status other than 200, streaming or
    not, ends in one bubble and nothing else: the history is unchanged, and
    the last widget of the chat view is a bubble whose text is "Error: "
    (from [handle_error]) followed by "Error: Status code", the status and
    the body (from [run]). *)
Theorem http_error_is_shown_not_recorded (worker : OllamaThread.t)
    (response : OllamaThread.Response) (self : t) :
  requests_post (OllamaThread.url worker) (OllamaThread.payload worker)
    (OllamaThread.use_streaming worker) = Returned response ->
  OllamaThread.status_code response <> 200 ->
  exists self',
    deliver_all worker
      (OllamaThread.emitted
         (OllamaThread.run json_loads requests_post fault_exn worker))
      self = (Returned tt, self')
    /\ conversation_history self' = conversation_history self
    /\ last (chat_layout self') WelcomeWidget
       = Bubble {| bubble_id := bubbles_created self;
                   bubble_message :=
                     "Error: Error: Status code "
                     ++ PyStr.str_of_nat (OllamaThread.status_code response)
                     ++ " - " ++ OllamaThread.text response;
                   is_user := false |}.
Proof.
  intros Hpost Hstatus. apply Nat.eqb_neq in Hstatus.
  assert (Hrun : OllamaThread.emitted
                   (OllamaThread.run json_loads requests_post fault_exn worker)
                 = [OllamaThread.status_error response]).
  { unfold OllamaThread.run.
    destruct (OllamaThread.use_streaming worker); rewrite Hpost, Hstatus;
      reflexivity. }
  rewrite Hrun. unfold OllamaThread.status_error. cbn [deliver_all deliver].
  destruct (handle_error_result
              ("Error: Status code "
               ++ PyStr.str_of_nat (OllamaThread.status_code response)
               ++ " - " ++ OllamaThread.text response) self)
    as (s1 & R1 & H1 & _ & _ & L1).
  exists s1. split; [|split; [exact H1|]].
  - erewrite bind_returned by exact R1. reflexivity.
  - rewrite L1. apply last_last.
Qed.

End Failure.

Lemma http_error_is_shown_not_recorded_witness :
  exists self',
    deliver_all (worker_for "hi" streaming_window)
      (OllamaThread.emitted
         (OllamaThread.run example_loads (example_post 404) example_fault
            (worker_for "hi" streaming_window)))
      (after_send "hi" streaming_window) = (Returned tt, self')
    /\ conversation_history self' = [{| role := user; content := "hi" |}]
    /\ last (chat_layout self') WelcomeWidget
       = Bubble {| bubble_id := 1;
                   bubble_message :=
                     "Error: Error: Status code 404 - model not found";
                   is_user := false |}.
Proof.
  refine (@http_error_is_shown_not_recorded example_loads (example_post 404)
            example_fault (worker_for "hi" streaming_window)
            (example_response 404) (after_send "hi" streaming_window)
            eq_refl _).
  discriminate.
Defined.

Lemma tree_lists_each_model_once_witness :
  Permutation
    (map (fun item => original_name (MSD.model_data item))
       (MSD.listed_models (MSD.build_tree example_models)))
    example_models
  /\ MSD.family_texts (MSD.build_tree example_models) = ["Llama2"; "Mistral"]
  /\ map MSD.item_text (MSD.listed_models (MSD.build_tree example_models))
     = ["Llama2 (13b)"; "Llama2 (7b)"; "Mistral"].
Proof.
  split; [|split; reflexivity].
  refine (proj1 (proj2 (tree_lists_each_model_once example_models) _)).
  discriminate.
Defined.

(* ===================================================================== *)
(** * Saved settings and the next request *)
(* ===================================================================== *)



(* ===================================================================== *)
(** * Where the size comes from *)
(* ===================================================================== *)

(** What [search] returns occurs in the text searched. *)
Lemma search_from_occurs (icase : bool) (r : Re.regex) (s : string) :
  forall prev m,
    Re.search_from icase r prev s = Some m -> exists a b, s = a ++ m ++ b.
Proof.
  induction s as [|c s IH]; intros prev m H; cbn [Re.search_from] in H.
  - destruct (Re.match_here icase r prev EmptyString) as [[m' rest]|] eqn:E;
      [|discriminate].
    inversion H; subst m'. apply match_here_sound in E. destruct E as [E _].
    exists EmptyString, rest. exact E.
  - destruct (Re.match_here icase r prev (String c s)) as [[m' rest]|] eqn:E.
    + inversion H; subst m'. apply match_here_sound in E. destruct E as [E _].
      exists EmptyString, rest. exact E.
    + apply IH in H. destruct H as (a & b & ->).
      exists (String c a), b. reflexivity.
Qed.

Lemma partition_some (sep : ascii) (s a b : string) :
  PyStr.partition sep s = Some (a, b) -> s = a ++ String sep b.
Proof.
  revert a. induction s as [|c s IH]; intros a H; [discriminate|].
  cbn [PyStr.partition] in H. destruct (Ascii.eqb_spec c sep) as [->|Hne].
  - inversion H; subst. reflexivity.
  - destruct (PyStr.partition sep s) as [[a' b']|]; [|discriminate].
    inversion H; subst. cbn [String.append]. rewrite <- (IH a' eq_refl).
    reflexivity.
Qed.

(** The last piece of a text is the end of the text. *)
Lemma split_on_last (sep : ascii) (s : string) :
  forall w ws,
    PyStr.split_on sep s = w :: ws ->
    (ws = [] -> w = s) /\ exists pre, s = pre ++ last (w :: ws) EmptyString.
Proof.
  induction s as [|c s IH]; intros w ws H.
  - cbn [PyStr.split_on] in H. inversion H; subst.
    split; [reflexivity|]. exists EmptyString. reflexivity.
  - cbn [PyStr.split_on] in H.
    destruct (PyStr.split_on sep s) as [|w0 ws0] eqn:E.
    + inversion H; subst. split; [reflexivity|]. exists EmptyString. reflexivity.
    + destruct (IH w0 ws0 eq_refl) as [Hone [pre Hpre]].
      destruct (Ascii.eqb c sep); inversion H as [[Hw Hws]]; subst w ws.
      * split; [discriminate|]. exists (String c pre).
        cbn [String.append].
        change (last (EmptyString :: w0 :: ws0) EmptyString)
          with (last (w0 :: ws0) EmptyString).
        rewrite <- Hpre. reflexivity.
      * split.
        -- intros ->. rewrite (Hone eq_refl). reflexivity.
        -- destruct ws0 as [|w1 ws1].
           ++ exists EmptyString. rewrite (Hone eq_refl). reflexivity.
           ++ exists (String c pre). cbn [String.append].
              change (last (String c w0 :: w1 :: ws1) EmptyString)
                with (last (w1 :: ws1) EmptyString).
              change (last (w0 :: w1 :: ws1) EmptyString)
                with (last (w1 :: ws1) EmptyString) in Hpre.
              rewrite <- Hpre. reflexivity.
Qed.

(** X18.  The formatter never makes a size up: a size that is not empty is
    a piece of the identifier, and it stands after a colon. *)
Theorem size_is_read_from_the_tag (name : string) :
  size_info (format_model_name name) <> EmptyString ->
  exists front middle back,
    name = front ++ ":" ++ middle ++ size_info (format_model_name name) ++ back.
Proof.
  unfold format_model_name.
  set (base := if PyStr.contains_char "/" name
               then last (PyStr.split_on "/" name) EmptyString else name).
  assert (Hbase : exists pre, name = pre ++ base).
  { unfold base. destruct (PyStr.contains_char "/" name);
      [|exists EmptyString; reflexivity].
    pose proof (split_on_nonempty "/" name) as Hne.
    destruct (PyStr.split_on "/" name) as [|w ws] eqn:E; [congruence|].
    destruct (split_on_last "/" name E) as [_ H]. exact H. }
  destruct Hbase as [pre Hname].
  destruct (PyStr.partition ":" base) as [[before after]|] eqn:Hp;
    cbn [size_info]; [|congruence].
  destruct (Re.search false size_pattern after) as [m|] eqn:Hm; [|congruence].
  intros _. apply partition_some in Hp.
  apply search_from_occurs in Hm. destruct Hm as (a & b & Hafter).
  exists (pre ++ before), a, b.
  rewrite Hname, Hp, Hafter, append_assoc. reflexivity.
Qed.

Lemma size_is_read_from_the_tag_witness :
  exists front middle back,
    "library/llama2:chat-13b-q4"
    = front ++ ":" ++ middle
      ++ size_info (format_model_name "library/llama2:chat-13b-q4") ++ back.
Proof.
  refine (@size_is_read_from_the_tag "library/llama2:chat-13b-q4" _).
  vm_compute. discriminate.
Defined.
